(** * Idea selection and deduplication engine of tech-blog-pipeline

    A shallow embedding of [src/lib/embeddings.ts], [src/lib/schemas.ts],
    [src/lib/vector-db.ts], [src/pages/api/ideas.ts] and of
    [selectUniqueIdea] in the cron publisher, followed by the properties
    the specification states about them.

    Modelling choices.
    - A JavaScript [number] is an IEEE 754 binary64 value: Rocq's primitive
      [float], with the same rounding, the same [NaN] and the same signed
      zeros.
    - A JavaScript string is a [string]; every [ascii] stands for one code
      unit (code units above 255 are outside the model).
    - A [throw] is the [Throw] constructor of [Completion]; functions that
      talk to the Pinecone index run in the monad [M], which threads the
      index and the trace of the calls made on it.
    - The collaborators the repository does not own (embedding pipeline,
      similarity search of the index, index statistics, [Date] parsing and
      the environment) are the fields of the class [External]. *)

From Stdlib Require Import Floats ZArith List String Ascii Bool Lia.
From stdpp Require Import gmap strings list.
Import ListNotations.

#[local] Set Warnings "-inexact-float,-abstract-large-number".
#[local] Open Scope string_scope.

(** ** Completions: a value or a thrown [Error] *)

Inductive Completion (A : Type) : Type :=
| Return (a : A)
| Throw (message : string).
Arguments Return {A} a.
Arguments Throw {A} message.

#[export] Instance Completion_ret : MRet Completion := fun A a => Return a.
#[export] Instance Completion_bind : MBind Completion := fun A B f c =>
  match c with
  | Return a => f a
  | Throw msg => Throw msg
  end.

(** [xs.map(f)] where [f] may throw: the first throw, in index order, ends
    the loop. *)
Fixpoint mapC {A B : Type} (f : A -> Completion B) (l : list A)
  : Completion (list B) :=
  match l with
  | [] => Return []
  | x :: l' =>
      match f x with
      | Throw msg => Throw msg
      | Return y =>
          match mapC f l' with
          | Throw msg => Throw msg
          | Return ys => Return (y :: ys)
          end
      end
  end.

(** ** JavaScript numbers *)

Module JS.

Definition number : Set := float.

(** [x || 0] on an optional number: [undefined], [NaN], [+0] and [-0] are
    falsy. *)
Definition or_zero (x : option number) : number :=
  match x with
  | None => 0%float
  | Some v => if is_nan v || is_zero v then 0%float else v
  end.

(** One iteration of [Math.max] (ECMA-262, 21.3.2.24): [NaN] is
    contagious, [+0] is larger than [-0]. *)
Definition max_step (highest x : number) : number :=
  if is_nan highest || is_nan x then nan
  else if is_zero x && is_zero highest && get_sign highest
          && negb (get_sign x) then x
  else if (highest <? x)%float then x
  else highest.

(** [Math.max(...l)]; [-Infinity] on the empty list. *)
Definition Math_max (l : list number) : number :=
  fold_left max_step l neg_infinity.

(** [n] as a number, for [n] an array length. *)
Definition of_nat (n : nat) : number :=
  of_uint63 (Uint63.of_Z (Z.of_nat n)).

(** [a[Math.floor(x)]]: the index [Math.floor x] denotes, when it is a
    non-negative integer; [None] when the property lookup is not an array
    index ([NaN], infinities, negative numbers). *)
Definition floor_index (x : number) : option nat :=
  match Prim2SF x with
  | S754_zero _ => Some 0%nat
  | S754_finite false m e => Some (Z.to_nat (Z.shiftl (Z.pos m) e))
  | _ => None
  end.

End JS.

(** ** [src/lib/embeddings.ts] *)

Module Embeddings.
Import JS.

(** The accumulators of the loop of [cosineSimilarity]. *)
Record Sums : Set := mkSums
  { dotProduct : number; magnitudeA : number; magnitudeB : number }.

Definition cosine_step (acc : Sums) (xy : number * number) : Sums :=
  let (x, y) := xy in
  {| dotProduct := (dotProduct acc + x * y)%float;
     magnitudeA := (magnitudeA acc + x * x)%float;
     magnitudeB := (magnitudeB acc + y * y)%float |}.

Definition cosine_sums (vecA vecB : list number) : Sums :=
  fold_left cosine_step (combine vecA vecB) (mkSums 0%float 0%float 0%float).

Definition cosineSimilarity (vecA vecB : list number) : Completion number :=
  if negb (length vecA =? length vecB)%nat then
    Throw "Vectors must have the same length"
  else
    let sums := cosine_sums vecA vecB in
    let magnitudeA := sqrt (magnitudeA sums) in
    let magnitudeB := sqrt (magnitudeB sums) in
    if (magnitudeA =? 0)%float || (magnitudeB =? 0)%float then Return 0%float
    else Return (dotProduct sums / (magnitudeA * magnitudeB))%float.

Definition default_threshold : number := 0.85%float.

Definition isIdeaUnique (maxSimilarity threshold : number) : bool :=
  (maxSimilarity <? threshold)%float.

(** The magnitude the loop computes for one vector. *)
Definition magnitude (v : list number) : number :=
  sqrt (fold_left (fun acc x => acc + x * x)%float v 0%float).

(** A vector all of whose components are zero ([+0] or [-0]). *)
Definition is_zero_vector (v : list number) : bool := forallb is_zero v.

End Embeddings.

(** ** [JSON.stringify] and [JSON.parse] on arrays of strings

    [tags] is the only value the repository serializes.  [stringify]
    follows SerializeJSONArray and QuoteJSONString of ECMA-262; [parse]
    accepts the JSON texts that denote an array of strings (with the
    insignificant white space and all the escapes of the grammar) and
    nothing else, which is what [JSON.parse] followed by the
    [Schema.Array(Schema.String)] check of [BlogIdea] lets through.
    Strings here are sequences of code units up to [255]: an escape
    [\uXXXX] above [\u00ff] denotes a code unit that has no image in the
    model, and [parse] gives no result for such a text although
    [JSON.parse] accepts it.  The model of decoding is therefore that of
    the code on the texts whose escapes stay within [\u00ff], which
    include every text [stringify] writes; whenever [parse] gives a
    result, [JSON.parse] gives the same. *)

Module JSON.

Definition quote : ascii := "034"%char.
Definition backslash : ascii := "092"%char.

Definition hex_digit (n : nat) : ascii :=
  ascii_of_nat (if (n <? 10)%nat then 48 + n else 87 + n).

Definition hex_value (c : ascii) : option nat :=
  let n := nat_of_ascii c in
  if (48 <=? n)%nat && (n <=? 57)%nat then Some (n - 48)%nat
  else if (97 <=? n)%nat && (n <=? 102)%nat then Some (n - 87)%nat
  else if (65 <=? n)%nat && (n <=? 70)%nat then Some (n - 55)%nat
  else None.

(** QuoteJSONString, one code unit. *)
Definition quote_char (c : ascii) : string :=
  let n := nat_of_ascii c in
  if (n =? 8)%nat then "\b"
  else if (n =? 9)%nat then "\t"
  else if (n =? 10)%nat then "\n"
  else if (n =? 12)%nat then "\f"
  else if (n =? 13)%nat then "\r"
  else if (n =? 34)%nat then String backslash (String quote EmptyString)
  else if (n =? 92)%nat then String backslash (String backslash EmptyString)
  else if (n <? 32)%nat then
    "\u00" ++ String (hex_digit (n / 16)) (String (hex_digit (n mod 16)) EmptyString)
  else String c EmptyString.

Fixpoint quote_chars (s : string) : string :=
  match s with
  | EmptyString => EmptyString
  | String c s' => quote_char c ++ quote_chars s'
  end.

Definition QuoteJSONString (s : string) : string :=
  String quote (quote_chars s ++ String quote EmptyString).

Fixpoint join_elements (l : list string) : string :=
  match l with
  | [] => EmptyString
  | [x] => QuoteJSONString x
  | x :: l' => QuoteJSONString x ++ "," ++ join_elements l'
  end.

Definition stringify (l : list string) : string :=
  "[" ++ join_elements l ++ "]".

Definition is_ws (c : ascii) : bool :=
  let n := nat_of_ascii c in
  (n =? 32)%nat || (n =? 9)%nat || (n =? 10)%nat || (n =? 13)%nat.

Fixpoint skip_ws (s : string) : string :=
  match s with
  | EmptyString => EmptyString
  | String c s' => if is_ws c then skip_ws s' else s
  end.

(** The character a one-letter escape denotes. *)
Definition unescape (e : ascii) : option ascii :=
  let n := nat_of_ascii e in
  if (n =? 34)%nat then Some quote
  else if (n =? 92)%nat then Some backslash
  else if (n =? 47)%nat then Some "/"%char
  else if (n =? 98)%nat then Some (ascii_of_nat 8)
  else if (n =? 102)%nat then Some (ascii_of_nat 12)
  else if (n =? 110)%nat then Some (ascii_of_nat 10)
  else if (n =? 114)%nat then Some (ascii_of_nat 13)
  else if (n =? 116)%nat then Some (ascii_of_nat 9)
  else None.

Definition hex4 (h1 h2 h3 h4 : ascii) : option nat :=
  match hex_value h1, hex_value h2, hex_value h3, hex_value h4 with
  | Some a, Some b, Some c, Some d => Some (((a * 16 + b) * 16 + c) * 16 + d)%nat
  | _, _, _, _ => None
  end.

Definition push (c : ascii) (r : option (string * string))
  : option (string * string) :=
  match r with
  | Some (s, rest) => Some (String c s, rest)
  | None => None
  end.

(** The characters of a string literal, after its opening quote: the
    string denoted and the text that follows the closing quote. *)
Fixpoint parse_chars (s : string) : option (string * string) :=
  match s with
  | EmptyString => None
  | String c rest =>
      let n := nat_of_ascii c in
      if (n =? 34)%nat then Some (EmptyString, rest)
      else if (n =? 92)%nat then
        match rest with
        | EmptyString => None
        | String e rest1 =>
            if (nat_of_ascii e =? 117)%nat then
              match rest1 with
              | String h1 (String h2 (String h3 (String h4 rest2))) =>
                  match hex4 h1 h2 h3 h4 with
                  | Some code =>
                      if (code <? 256)%nat
                      then push (ascii_of_nat code) (parse_chars rest2)
                      else None
                  | None => None
                  end
              | _ => None
              end
            else
              match unescape e with
              | Some ch => push ch (parse_chars rest1)
              | None => None
              end
        end
      else if (n <? 32)%nat then None
      else push c (parse_chars rest)
  end.

Definition is_empty (s : string) : bool :=
  match s with EmptyString => true | String _ _ => false end.

(** The elements of a non-empty array, from the first one; [s] starts at
    the opening quote of an element. *)
Fixpoint parse_elements (fuel : nat) (s : string) : option (list string) :=
  match fuel with
  | O => None
  | S fuel' =>
      match s with
      | EmptyString => None
      | String c rest =>
          if (nat_of_ascii c =? 34)%nat then
            match parse_chars rest with
            | None => None
            | Some (str, rest1) =>
                match skip_ws rest1 with
                | EmptyString => None
                | String d rest2 =>
                    if (nat_of_ascii d =? 44)%nat then
                      match parse_elements fuel' (skip_ws rest2) with
                      | Some l => Some (str :: l)
                      | None => None
                      end
                    else if (nat_of_ascii d =? 93)%nat then
                      if is_empty (skip_ws rest2) then Some [str] else None
                    else None
                end
            end
          else None
      end
  end.

Definition parse (s : string) : option (list string) :=
  match skip_ws s with
  | EmptyString => None
  | String c rest =>
      if (nat_of_ascii c =? 91)%nat then
        match skip_ws rest with
        | EmptyString => None
        | String d rest1 =>
            if (nat_of_ascii d =? 93)%nat then
              if is_empty (skip_ws rest1) then Some [] else None
            else parse_elements (String.length s) (skip_ws rest)
        end
      else None
  end.

End JSON.

(** ** [src/lib/schemas.ts] *)

Module BlogIdea.
Record t : Type := mk
  { id : string;
    title : string;
    description : string;
    tags : list string;
    createdAt : string;
    used : bool;
    usedAt : option string }.
End BlogIdea.

Module IdeaMetadata.
Record t : Type := mk
  { title : string;
    description : string;
    tags : string;
    createdAt : string;
    used : string;
    usedAt : string }.
End IdeaMetadata.

Module CreateIdeaRequest.
Record t : Type := mk
  { title : string;
    description : string;
    tags : list string }.

(** [Schema.decodeUnknownEither(CreateIdeaRequest)], on a body that has
    the three fields: the length constraints of the schema. *)
Definition decode (body : t) : option t :=
  if (5 <=? String.length (title body))%nat
     && (String.length (title body) <=? 200)%nat
     && (20 <=? String.length (description body))%nat
     && (String.length (description body) <=? 1000)%nat
     && (1 <=? length (tags body))%nat
     && (length (tags body) <=? 5)%nat
  then Some body else None.
End CreateIdeaRequest.

(** ** The Pinecone index and the other collaborators *)

(** A metadata value of a Pinecone record. *)
Inductive MetaValue : Type :=
| MString (s : string)
| MNumber (n : JS.number)
| MBool (b : bool)
| MList (l : list string).

Record PineconeRecord : Type := mkRecord
  { values : list JS.number;
    metadata : option (gmap string MetaValue) }.

(** One entry of [results.matches]. *)
Record ScoredPineconeRecord : Type := mkMatch
  { match_id : string;
    match_score : option JS.number;
    match_metadata : option (gmap string MetaValue) }.

(** The calls made on the index, in order. *)
Inductive Call : Type :=
| CallUpsert (id : string) (record : PineconeRecord)
| CallQuery (vector : list JS.number) (topK : nat)
| CallFetch (id : string)
| CallDeleteOne (id : string)
| CallDescribeIndexStats.

Record IndexState : Type := mkIndex
  { records : gmap string PineconeRecord;
    calls : list Call }.

Class External : Type := mkExternal
  { (** the feature-extraction pipeline behind [generateEmbedding] *)
    pipe : string -> Completion (list JS.number);
    (** [matches] of [index.query]: scoring and ranking are the index's *)
    query_matches : gmap string PineconeRecord -> list JS.number -> nat ->
                    option (list ScoredPineconeRecord);
    (** [totalRecordCount] of [index.describeIndexStats] *)
    totalRecordCount : gmap string PineconeRecord -> option nat;
    (** [new Date(s).getTime()], [NaN] on an invalid date *)
    Date_getTime : string -> JS.number;
    (** [process.env.PUBLISH_PASSWORD] *)
    PUBLISH_PASSWORD : option string;
    (** which of the promises given to [Promise.all] rejects first in
        time: its position among the rejections taken in index order,
        given their messages *)
    first_rejected : list string -> nat }.

(** Computations on the index: a completion and the index afterwards. *)
Definition M (A : Type) : Type := IndexState -> Completion A * IndexState.

#[export] Instance M_ret : MRet M := fun A a s => (Return a, s).
#[export] Instance M_bind : MBind M := fun A B f m s =>
  match m s with
  | (Return a, s') => f a s'
  | (Throw msg, s') => (Throw msg, s')
  end.

Definition liftC {A : Type} (c : Completion A) : M A := fun s => (c, s).

Definition log (c : Call) (s : IndexState) : IndexState :=
  {| records := records s; calls := calls s ++ [c] |}.

Module Index.

Definition upsert (id : string) (r : PineconeRecord) : M unit := fun s =>
  (Return tt,
   {| records := <[id := r]> (records s);
      calls := calls s ++ [CallUpsert id r] |}).

(** The names every plain object inherits from [Object.prototype]. *)
Definition Object_prototype_keys : list string :=
  ["constructor"; "__defineGetter__"; "__defineSetter__"; "hasOwnProperty";
   "__lookupGetter__"; "__lookupSetter__"; "isPrototypeOf";
   "propertyIsEnumerable"; "toString"; "valueOf"; "__proto__";
   "toLocaleString"].

(** A member of [Object.prototype] read as a record: a function (an
    object for [__proto__]), truthy, that has no [metadata] and no
    [values]. *)
Definition inherited_member : PineconeRecord :=
  {| values := []; metadata := None |}.

(** [fetchResult.records[id]]: [records] is a plain object keyed by the
    identifiers found, so the record stored under [id] when there is one,
    and otherwise what the object inherits under that name, if
    anything. *)
Definition property (rs : gmap string PineconeRecord) (id : string)
  : option PineconeRecord :=
  match rs !! id with
  | Some r => Some r
  | None =>
      if existsb (String.eqb id) Object_prototype_keys
      then Some inherited_member
      else None
  end.

Definition fetch (id : string) : M (option PineconeRecord) := fun s =>
  (Return (property (records s) id), log (CallFetch id) s).

(** [index.deleteOne(id)]: the client refuses an empty identifier before
    any request is made (the message is the client's, nothing below
    depends on its text). *)
Definition deleteOne (id : string) : M unit := fun s =>
  match id with
  | EmptyString =>
      (Throw "You must pass a non-empty string for `options` in order to delete a record.",
       s)
  | String _ _ =>
      (Return tt,
       {| records := delete id (records s);
          calls := calls s ++ [CallDeleteOne id] |})
  end.

Definition query `{External} (vector : list JS.number) (topK : nat)
  : M (option (list ScoredPineconeRecord)) := fun s =>
  (Return (query_matches (records s) vector topK),
   log (CallQuery vector topK) s).

Definition describeIndexStats `{External} : M (option nat) := fun s =>
  (Return (totalRecordCount (records s)), log CallDescribeIndexStats s).

End Index.

(** ** [src/lib/embeddings.ts], the part that calls the pipeline *)

Module Embedder.
Section WithExternal.
Context `{External}.

Definition generateEmbedding (text : string) : Completion (list JS.number) :=
  pipe text.

Definition newline : string := String (ascii_of_nat 10) EmptyString.

Definition generateIdeaEmbedding (title description : string)
  : Completion (list JS.number) :=
  let combinedText := title ++ newline ++ newline ++ description in
  generateEmbedding combinedText.
End WithExternal.
End Embedder.

(** ** [src/lib/vector-db.ts] *)

Module VectorDb.
Import Embedder.

(** [s || <empty string>] and [s || undefined] on strings: the empty
    string is falsy. *)
Definition or_empty (s : option string) : string :=
  match s with
  | Some (String c s') => String c s'
  | _ => EmptyString
  end.

Definition or_undefined (s : string) : option string :=
  match s with
  | EmptyString => None
  | String _ _ => Some s
  end.

Definition ideaToMetadata (idea : BlogIdea.t) : gmap string MetaValue :=
  {[ "title" := MString (BlogIdea.title idea);
     "description" := MString (BlogIdea.description idea);
     "tags" := MString (JSON.stringify (BlogIdea.tags idea));
     "createdAt" := MString (BlogIdea.createdAt idea);
     "used" := MString (if BlogIdea.used idea then "true" else "false");
     "usedAt" := MString (or_empty (BlogIdea.usedAt idea)) ]}.

Definition string_field (md : gmap string MetaValue) (key : string)
  : Completion string :=
  match md !! key with
  | Some (MString s) => Return s
  | _ => Throw ("ParseError: " ++ key)
  end.

(** [Schema.decodeUnknownSync(IdeaMetadata)]: six fields, all strings;
    other fields are ignored. *)
Definition decodeIdeaMetadata (metadata : option (gmap string MetaValue))
  : Completion IdeaMetadata.t :=
  match metadata with
  | None => Throw "ParseError: metadata"
  | Some md =>
      title ← string_field md "title";
      description ← string_field md "description";
      tags ← string_field md "tags";
      createdAt ← string_field md "createdAt";
      used ← string_field md "used";
      usedAt ← string_field md "usedAt";
      Return (IdeaMetadata.mk title description tags createdAt used usedAt)
  end.

Definition metadataToIdea (id : string)
  (metadata : option (gmap string MetaValue)) : Completion BlogIdea.t :=
  parsed ← decodeIdeaMetadata metadata;
  match JSON.parse (IdeaMetadata.tags parsed) with
  | None => Throw "tags: not a JSON array of strings"
  | Some tags =>
      Return
        {| BlogIdea.id := id;
           BlogIdea.title := IdeaMetadata.title parsed;
           BlogIdea.description := IdeaMetadata.description parsed;
           BlogIdea.tags := tags;
           BlogIdea.createdAt := IdeaMetadata.createdAt parsed;
           BlogIdea.used := String.eqb (IdeaMetadata.used parsed) "true";
           BlogIdea.usedAt := or_undefined (IdeaMetadata.usedAt parsed) |}
  end.

Section WithExternal.
Context `{External}.

Definition upsertIdea (idea : BlogIdea.t) (embedding : list JS.number)
  : M unit :=
  Index.upsert (BlogIdea.id idea)
    {| values := embedding; metadata := Some (ideaToMetadata idea) |}.

(** One element of the result of [querySimilarIdeas]. *)
Record SimilarIdea : Type := mkSimilar
  { similar_id : string;
    score : JS.number;
    similar_metadata : BlogIdea.t }.

Definition toSimilarIdea (m : ScoredPineconeRecord)
  : Completion SimilarIdea :=
  idea ← metadataToIdea (match_id m) (match_metadata m);
  Return {| similar_id := match_id m;
            score := JS.or_zero (match_score m);
            similar_metadata := idea |}.

Definition querySimilarIdeas (embedding : list JS.number) (topK : nat)
  : M (list SimilarIdea) :=
  results ← Index.query embedding topK;
  liftC (mapC toSimilarIdea (default [] results)).

Definition getAllIdeas : M (list BlogIdea.t) :=
  stats ← Index.describeIndexStats;
  let totalVectors := default 0%nat stats in
  if (totalVectors =? 0)%nat then mret []
  else
    let zeroVector := repeat 0%float 384 in
    results ← Index.query zeroVector (Nat.min totalVectors 10000);
    liftC (mapC (fun m => metadataToIdea (match_id m) (match_metadata m))
             (default [] results)).

Definition deleteIdea (id : string) : M unit := Index.deleteOne id.

(** [now] is [new Date().toISOString()]. *)
Definition markIdeaAsUsed (id : string) (now : string) : M unit :=
  existingRecord ← Index.fetch id;
  match existingRecord with
  | None => liftC (Throw "Idea not found")
  | Some existingRecord =>
      existingIdea ← liftC (metadataToIdea id (metadata existingRecord));
      let updatedIdea :=
        {| BlogIdea.id := BlogIdea.id existingIdea;
           BlogIdea.title := BlogIdea.title existingIdea;
           BlogIdea.description := BlogIdea.description existingIdea;
           BlogIdea.tags := BlogIdea.tags existingIdea;
           BlogIdea.createdAt := BlogIdea.createdAt existingIdea;
           BlogIdea.used := true;
           BlogIdea.usedAt := Some now |} in
      Index.upsert id
        {| values := values existingRecord;
           metadata := Some (ideaToMetadata updatedIdea) |}
  end.

(** [id] is [uuidv4()], [now] is [new Date().toISOString()]. *)
Definition createIdea (id now title description : string)
  (tags : list string) : BlogIdea.t :=
  {| BlogIdea.id := id;
     BlogIdea.title := title;
     BlogIdea.description := description;
     BlogIdea.tags := tags;
     BlogIdea.createdAt := now;
     BlogIdea.used := false;
     BlogIdea.usedAt := None |}.
End WithExternal.
End VectorDb.

(** ** [src/pages/api/ideas.ts] *)

Module IdeasApi.
Import Embedder VectorDb.

Record Request : Type := mkRequest
  { method : string;
    x_publish_password : option string;    (* req.headers[...] *)
    body : CreateIdeaRequest.t;            (* req.body *)
    query_id : option string }.            (* req.query.id *)

(** What the handler sends: the status and the part of the JSON body
    that depends on the request. *)
Inductive Response : Type :=
| InvalidPassword                                            (* 401 *)
| ValidationFailed                                           (* 400 *)
| SimilarIdeaExists (similarIdeas : list (string * JS.number)) (* 400 *)
| Created (idea : BlogIdea.t)                                (* 201 *)
| Ideas (ideas : list BlogIdea.t)                            (* 200 *)
| IdeaIdRequired                                             (* 400 *)
| Deleted                                                    (* 200 *)
| MethodNotAllowed                                           (* 405 *)
| InternalServerError (message : string).                    (* 500 *)

(** [try { ... } catch (err) { res.status(500) ... }] *)
Definition catch500 (m : M Response) : M Response := fun s =>
  match m s with
  | (Throw msg, s') => (Return (InternalServerError msg), s')
  | r => r
  end.

Definition option_string_eqb (a b : option string) : bool :=
  match a, b with
  | Some x, Some y => String.eqb x y
  | None, None => true
  | _, _ => false
  end.

Section WithExternal.
Context `{External}.

Definition validatePassword (req : Request) : bool :=
  option_string_eqb (x_publish_password req) PUBLISH_PASSWORD.

Definition tooSimilar (similarIdeas : list SimilarIdea) : bool :=
  existsb (fun idea => (0.85 <? score idea)%float) similarIdeas.

Definition diagnostic (i : SimilarIdea) : string * JS.number :=
  (BlogIdea.title (similar_metadata i), score i).

(** The [POST] case; [newId] is [nanoid()], [now] is
    [new Date().toISOString()]. *)
Definition post (req : Request) (newId now : string) : M Response :=
  match CreateIdeaRequest.decode (body req) with
  | None => mret ValidationFailed
  | Some parsed =>
      let title := CreateIdeaRequest.title parsed in
      let description := CreateIdeaRequest.description parsed in
      let tags := CreateIdeaRequest.tags parsed in
      embedding ← liftC (generateIdeaEmbedding title description);
      similarIdeas ← querySimilarIdeas embedding 5;
      if tooSimilar similarIdeas then
        mret (SimilarIdeaExists (map diagnostic (take 3 similarIdeas)))
      else
        let idea :=
          {| BlogIdea.id := newId;
             BlogIdea.title := title;
             BlogIdea.description := description;
             BlogIdea.tags := tags;
             BlogIdea.createdAt := now;
             BlogIdea.used := false;
             BlogIdea.usedAt := None |} in
        _ ← upsertIdea idea embedding;
        mret (Created idea)
  end.

Definition ideas (req : Request) (newId now : string) : M Response :=
  if negb (validatePassword req) then mret InvalidPassword
  else
    catch500
      (if String.eqb (method req) "POST" then post req newId now
       else if String.eqb (method req) "GET" then
         ideas ← getAllIdeas; mret (Ideas ideas)
       else if String.eqb (method req) "DELETE" then
         match query_id req with
         | Some (String c id') =>
             _ ← deleteIdea (String c id'); mret Deleted
         | _ => mret IdeaIdRequired
         end
       else mret MethodNotAllowed).
End WithExternal.
End IdeasApi.

(** ** [selectUniqueIdea] of the cron publisher *)

Module CronPublish.
Import Embedder VectorDb Embeddings.

Definition unusedIdeas (allIdeas : list BlogIdea.t) : list BlogIdea.t :=
  List.filter (fun idea => negb (BlogIdea.used idea)) allIdeas.

Definition has_usedAt (idea : BlogIdea.t) : bool :=
  BlogIdea.used idea
  && match BlogIdea.usedAt idea with Some _ => true | None => false end.

(** [Array.prototype.sort] with a comparator, as the stable insertion
    sort: [x] moves behind [y] when [compare x y > 0]; a [NaN] comparison
    counts as [+0].  ECMA-262 requires the sort to be stable and fixes its
    result for a consistent comparator, which [by_usedAt_desc] below is
    when every [usedAt] is a valid date: there this list is the one the
    code gets.  For a comparator that is not consistent (a [usedAt] that
    is not a date makes the comparison [NaN]) the order is left to the
    implementation, and this list need not be the one V8 yields: the
    statements that depend on the order assume valid dates. *)
Fixpoint insert_sorted {A : Type} (compare : A -> A -> JS.number)
  (x : A) (l : list A) : list A :=
  match l with
  | [] => [x]
  | y :: l' =>
      if (0 <? compare x y)%float then y :: insert_sorted compare x l'
      else x :: l
  end.

Definition Array_sort {A : Type} (compare : A -> A -> JS.number)
  (l : list A) : list A :=
  fold_right (insert_sorted compare) [] l.

(** The messages of the completions that threw, in index order. *)
Fixpoint rejections {A : Type} (l : list (Completion A)) : list string :=
  match l with
  | [] => []
  | Return _ :: l' => rejections l'
  | Throw msg :: l' => msg :: rejections l'
  end.

Section WithExternal.
Context `{External}.

(** [await Promise.all(l.map(f))]: the values in index order when every
    promise fulfils; otherwise the rejection that comes first in time,
    which is for the runtime to decide ([first_rejected]; a position out
    of range stands for the first rejection in index order). *)
Definition Promise_all {A B : Type} (f : A -> Completion B) (l : list A)
  : Completion (list B) :=
  match mapC f l with
  | Return ys => Return ys
  | Throw first =>
      let messages := rejections (map f l) in
      Throw (nth (first_rejected messages) messages first)
  end.

(** [new Date(idea.usedAt).getTime()]; [new Date(undefined)] is an
    invalid date. *)
Definition usedAt_time (idea : BlogIdea.t) : JS.number :=
  match BlogIdea.usedAt idea with
  | Some t => Date_getTime t
  | None => nan
  end.

Definition by_usedAt_desc (a b : BlogIdea.t) : JS.number :=
  (usedAt_time b - usedAt_time a)%float.

(** The recently used ideas (last 5). *)
Definition usedIdeas (allIdeas : list BlogIdea.t) : list BlogIdea.t :=
  take 5 (Array_sort by_usedAt_desc (List.filter has_usedAt allIdeas)).

Definition embed (idea : BlogIdea.t) : Completion (list JS.number) :=
  generateIdeaEmbedding (BlogIdea.title idea) (BlogIdea.description idea).

(** The maximum similarity of [idea] to any recent idea. *)
Definition maxSimilarity (recentEmbeddings : list (list JS.number))
  (idea : BlogIdea.t) : Completion JS.number :=
  ideaEmbedding ← embed idea;
  sims ← mapC (fun embedding => cosineSimilarity ideaEmbedding embedding)
            recentEmbeddings;
  Return (JS.Math_max sims).

(** The [for ... of unusedIdeas] loop, from the state
    [(selectedIdea, minMaxSimilarity)]. *)
Fixpoint select_loop (recentEmbeddings : list (list JS.number))
  (ideas : list BlogIdea.t) (selectedIdea : BlogIdea.t)
  (minMaxSimilarity : JS.number) : Completion BlogIdea.t :=
  match ideas with
  | [] => Return selectedIdea
  | idea :: rest =>
      match maxSimilarity recentEmbeddings idea with
      | Throw msg => Throw msg
      | Return maxSimilarity =>
          if (maxSimilarity <? minMaxSimilarity)%float
          then select_loop recentEmbeddings rest idea maxSimilarity
          else select_loop recentEmbeddings rest selectedIdea
                 minMaxSimilarity
      end
  end.

(** The body of [selectUniqueIdea] after [getAllIdeas]; [random] is
    [Math.random()].  [Return None] is the [undefined] an index out of
    range yields. *)
Definition selectNext (allIdeas : list BlogIdea.t) (random : JS.number)
  : Completion (option BlogIdea.t) :=
  let unusedIdeas := unusedIdeas allIdeas in
  match unusedIdeas with
  | [] => Throw "No unused ideas available"
  | first :: _ =>
      let usedIdeas := usedIdeas allIdeas in
      match usedIdeas with
      | [] =>
          match JS.floor_index
                  (random * JS.of_nat (length unusedIdeas))%float with
          | Some i => Return (unusedIdeas !! i)
          | None => Return None
          end
      | _ :: _ =>
          recentEmbeddings ← Promise_all embed usedIdeas;
          selectedIdea ← select_loop recentEmbeddings unusedIdeas first 1%float;
          Return (Some selectedIdea)
      end
  end.

Definition selectUniqueIdea (random : JS.number)
  : M (option BlogIdea.t) :=
  allIdeas ← getAllIdeas;
  liftC (selectNext allIdeas random).
End WithExternal.
End CronPublish.

(** ** The multi-platform publisher ([publishMulti]) *)

(** The publishing platforms: the API keys of the environment and the two
    HTTP exchanges ([fetch], the test of [response.ok], the reading of the
    answer), each with the API key and the data it is given.  [Return] holds
    the article, as JSON text; [Throw] the message of the error. *)
Class Platforms : Type := mkPlatforms
  { DEV_TO_API_KEY : option string;
    HASHNODE_API_KEY : option string;
    devto_post : string -> string -> string -> list string -> option bool ->
                 Completion string;
    hashnode_post : string -> string -> string -> list string ->
                    option bool -> Completion string }.

Module PublishMulti.

(** [req.body as PublishRequest]: a field is [None] when it is missing;
    [tags] and [platforms] are also [None] when they are not arrays. *)
Record Body : Type := mkBody
  { title : option string;
    content : option string;
    tags : option (list string);
    is_draft : option bool;
    platforms : option (list string) }.

Record Request : Type := mkRequest
  { method : string;
    x_publish_password : option string;
    body : option Body }.

Record PublishRequest : Type := mkPublishRequest
  { data_title : string;
    data_content : string;
    data_tags : list string;
    data_is_draft : option bool;
    data_platforms : list string }.

Record PublishResult : Type := mkResult
  { platform : string;
    success : bool;
    article : option string;
    error : option string }.

Inductive Response : Type :=
| MethodNotAllowed                              (* 405 *)
| InvalidPassword                               (* 401 *)
| MissingFields                                 (* 400 *)
| NoPlatform                                    (* 400 *)
| Results (results : list PublishResult)        (* 200 *)
| InternalServerError (message : string).       (* 500 *)

(** [!s] on an optional string: missing and empty are falsy. *)
Definition falsy (s : option string) : bool :=
  match s with
  | Some (String _ _) => false
  | _ => true
  end.

Section WithPlatforms.
Context `{External} `{Platforms}.

Definition validatePassword (req : Request) : bool :=
  IdeasApi.option_string_eqb (x_publish_password req) PUBLISH_PASSWORD.

Definition publishToDevTo (data : PublishRequest) : Completion string :=
  match DEV_TO_API_KEY with
  | Some (String c k) =>
      devto_post (String c k) (data_title data) (data_content data)
        (data_tags data) (data_is_draft data)
  | _ => Throw "DEV_TO_API_KEY not configured"
  end.

Definition publishToHashnode (data : PublishRequest) : Completion string :=
  match HASHNODE_API_KEY with
  | Some (String c k) =>
      hashnode_post (String c k) (data_title data) (data_content data)
        (data_tags data) (data_is_draft data)
  | _ => Throw "HASHNODE_API_KEY not configured"
  end.

(** The body of the callback given to [platforms.map]. *)
Definition publishTo (data : PublishRequest) (platform : string)
  : PublishResult :=
  let attempt :=
    if String.eqb platform "devto" then publishToDevTo data
    else if String.eqb platform "hashnode" then publishToHashnode data
    else Throw ("Unsupported platform: " ++ platform) in
  match attempt with
  | Return article =>
      {| platform := platform; success := true;
         article := Some article; error := None |}
  | Throw message =>
      {| platform := platform; success := false;
         article := None; error := Some message |}
  end.

Definition publishMulti (req : Request) : Response :=
  if negb (String.eqb (method req) "POST") then MethodNotAllowed
  else if negb (validatePassword req) then InvalidPassword
  else
    match body req with
    | None =>
        InternalServerError
          "Cannot destructure property 'title' of 'req.body' as it is undefined."
    | Some b =>
        match tags b with
        | Some tags =>
            if falsy (title b) || falsy (content b) then MissingFields
            else
              match platforms b with
              | Some (p :: ps) =>
                  let publishData :=
                    {| data_title := VectorDb.or_empty (title b);
                       data_content := VectorDb.or_empty (content b);
                       data_tags := tags;
                       data_is_draft := is_draft b;
                       data_platforms := p :: ps |} in
                  Results (map (publishTo publishData) (p :: ps))
              | _ => NoPlatform
              end
        | None => MissingFields
        end
    end.

End WithPlatforms.
End PublishMulti.

(** ** The scheduled publisher ([cronPublish]) *)

(** What the cron publisher needs beyond the index: the secret of the
    environment, the text generation of Gemini (from the prompt to
    [response.text()]) and the [fetch] of the multi-platform route, which
    answers as that route does or fails. *)
Class CronExternal : Type := mkCronExternal
  { CRON_SECRET : option string;
    generateContent : string -> Completion string;
    fetch_publish_multi : PublishMulti.Request ->
                          Completion PublishMulti.Response }.

Module CronHandler.
Import Embedder VectorDb CronPublish.

Record Request : Type := mkRequest
  { authorization : option string;
    x_publish_password : option string;
    (** [req.body?.platforms], [None] when it is not an array *)
    requested_platforms : option (list string) }.

Inductive Response : Type :=
| Unauthorized                                             (* 401 *)
| Published (id title : string) (publishResult : PublishMulti.Response)
                                                           (* 200 *)
| InternalServerError (message : string).                  (* 500 *)

Definition nl : string := String (ascii_of_nat 10) EmptyString.

(** [l.join(sep)] *)
Fixpoint join (sep : string) (l : list string) : string :=
  match l with
  | [] => EmptyString
  | [x] => x
  | x :: l' => x ++ sep ++ join sep l'
  end.

Definition prompt (title description : string) (tags : list string)
  : string :=
  "You are an expert technical writer who creates engaging, informative blog posts on software development topics."
  ++ nl ++ nl
  ++ "Write a technical blog post about the following topic:" ++ nl ++ nl
  ++ "Title: " ++ title ++ nl ++ nl
  ++ "Description: " ++ description ++ nl ++ nl
  ++ "Tags: " ++ join ", " tags ++ nl ++ nl
  ++ "Please write a comprehensive, engaging blog post in Markdown format. Include:"
  ++ nl
  ++ "1. An introduction that hooks the reader" ++ nl
  ++ "2. Main sections with detailed explanations" ++ nl
  ++ "3. Code examples where relevant" ++ nl
  ++ "4. Best practices and tips" ++ nl
  ++ "5. A conclusion" ++ nl ++ nl
  ++ "Make it informative, well-structured, and suitable for a technical audience.".

(** The JSON body the multi-platform route sends with an error status. *)
Definition error_json (message : string) : string :=
  "{" ++ JSON.QuoteJSONString "error" ++ ":{"
  ++ JSON.QuoteJSONString "message" ++ ":" ++ JSON.QuoteJSONString message
  ++ "}}".

(** [response.ok], and the text of [JSON.stringify(await response.json())]
    for an answer that is not. *)
Definition ok (r : PublishMulti.Response) : bool :=
  match r with
  | PublishMulti.Results _ => true
  | _ => false
  end.

Definition error_text (r : PublishMulti.Response) : string :=
  match r with
  | PublishMulti.MethodNotAllowed => error_json "Method not allowed"
  | PublishMulti.InvalidPassword => error_json "Invalid password"
  | PublishMulti.MissingFields =>
      error_json "Missing required fields: title, content, or tags"
  | PublishMulti.NoPlatform =>
      error_json "At least one platform must be specified"
  | PublishMulti.InternalServerError message => error_json message
  | PublishMulti.Results _ => EmptyString
  end.

Definition supported (p : string) : bool :=
  String.eqb p "devto" || String.eqb p "hashnode".

Section WithExternal.
Context `{External} `{CronExternal}.

Definition validateCronSecret (req : Request) : bool :=
  match CRON_SECRET with
  | Some (String c secret) =>
      IdeasApi.option_string_eqb (authorization req)
        (Some ("Bearer " ++ String c secret))
  | _ =>
      IdeasApi.option_string_eqb (x_publish_password req) PUBLISH_PASSWORD
  end.

Definition generateArticleContent (title description : string)
  (tags : list string) : Completion string :=
  generateContent (prompt title description tags).

(** The request [publishArticle] gives to [fetch]. *)
Definition publish_request (title content : string) (tags : list string)
  (platforms : list string) : PublishMulti.Request :=
  let requestBody :=
    {| PublishMulti.title := Some title;
       PublishMulti.content := Some content;
       PublishMulti.tags := Some tags;
       PublishMulti.is_draft := Some false;
       PublishMulti.platforms := Some platforms |} in
  {| PublishMulti.method := "POST";
     PublishMulti.x_publish_password := Some (or_empty PUBLISH_PASSWORD);
     PublishMulti.body := Some requestBody |}.

Definition publishArticle (title content : string) (tags : list string)
  (platforms : list string) : Completion PublishMulti.Response :=
  response ← fetch_publish_multi (publish_request title content tags platforms);
  if negb (ok response)
  then Throw ("Failed to publish: " ++ error_text response)
  else Return response.

(** The platforms of the request when they are an array of supported
    names, both platforms otherwise. *)
Definition platforms_of (req : Request) : list string :=
  match requested_platforms req with
  | Some ps => if forallb supported ps then ps else ["devto"; "hashnode"]
  | None => ["devto"; "hashnode"]
  end.

(** [random] is [Math.random()], [now] is [new Date().toISOString()]. *)
Definition cronPublish (req : Request) (random : JS.number) (now : string)
  : M Response :=
  if negb (validateCronSecret req) then mret Unauthorized
  else fun s =>
    let run : M Response :=
      selected ← selectUniqueIdea random;
      match selected with
      | None =>
          liftC (Throw
            "Cannot read properties of undefined (reading 'title')")
      | Some idea =>
          content ← liftC (generateArticleContent (BlogIdea.title idea)
                             (BlogIdea.description idea) (BlogIdea.tags idea));
          publishResult ← liftC (publishArticle (BlogIdea.title idea) content
                                   (BlogIdea.tags idea) (platforms_of req));
          _ ← markIdeaAsUsed (BlogIdea.id idea) now;
          mret (Published (BlogIdea.id idea) (BlogIdea.title idea)
                  publishResult)
      end in
    match run s with
    | (Throw message, s') => (Return (InternalServerError message), s')
    | r => r
    end.

End WithExternal.

(** The deployment in which the request of [publishArticle] is served by
    [publishMulti] of the same application. *)
Definition loopback `{External} `{Platforms} (secret : option string)
  (generate : string -> Completion string) : CronExternal :=
  {| CRON_SECRET := secret;
     generateContent := generate;
     fetch_publish_multi := fun req => Return (PublishMulti.publishMulti req) |}.

End CronHandler.

(** * Auxiliary definitions for the statements *)

(** ** The order of binary64 values

    [rank] sends a number that is not [NaN] to a triple of integers whose
    lexicographic order is the order of [<?] and [<=?]. *)

Module FloatOrder.

Definition key (x : spec_float) : option (Z * Z * Z) :=
  match x with
  | S754_nan => None
  | S754_zero _ => Some (0, 0, 0)%Z
  | S754_infinity s => Some (if s then -2 else 2, 0, 0)%Z
  | S754_finite s m e =>
      Some (if s then (-1, - e, Z.neg m) else (1, e, Z.pos m))%Z
  end.

Definition lex_compare (a b : Z * Z * Z) : comparison :=
  let '(a1, a2, a3) := a in
  let '(b1, b2, b3) := b in
  match (a1 ?= b1)%Z with
  | Eq => match (a2 ?= b2)%Z with
          | Eq => (a3 ?= b3)%Z
          | c => c
          end
  | c => c
  end.

Definition rank (x : float) : option (Z * Z * Z) := key (Prim2SF x).

(** The comparisons as functions of the ranks. *)
Definition rank_test (test : comparison -> bool) (x y : float) : bool :=
  match rank x, rank y with
  | Some a, Some b => test (lex_compare a b)
  | _, _ => false
  end.

(** Decides goals on [lex_compare] by cases on the integer comparisons. *)
Ltac lex :=
  repeat match goal with
    | a : (Z * Z * Z)%type |- _ => destruct a as [[? ?] ?]
    end;
  unfold lex_compare in *;
  repeat match goal with
    | H : context [(?a ?= ?b)%Z] |- _ => destruct (Z.compare_spec a b)
    | |- context [(?a ?= ?b)%Z] => destruct (Z.compare_spec a b)
    end; try congruence; try lia.

End FloatOrder.

(** ** Stores built by the repository *)

Module Repository.
Import VectorDb.

(** The operations through which the repository touches the index. *)
Inductive Operation `{External} : forall {A : Type}, M A -> Prop :=
| op_upsertIdea idea embedding : Operation (upsertIdea idea embedding)
| op_querySimilarIdeas embedding topK :
    Operation (querySimilarIdeas embedding topK)
| op_getAllIdeas : Operation getAllIdeas
| op_deleteIdea id : Operation (deleteIdea id)
| op_markIdeaAsUsed id now : Operation (markIdeaAsUsed id now).

(** The indexes the repository can reach from the empty one. *)
Inductive Reachable `{External} : IndexState -> Prop :=
| reach_empty : Reachable {| records := ∅; calls := [] |}
| reach_step {A : Type} (m : M A) (s : IndexState) :
    Reachable s -> Operation m -> Reachable (snd (m s)).

(** Every record carries the metadata of some idea. *)
Definition written_by_repository (s : IndexState) : Prop :=
  forall id r, records s !! id = Some r ->
    exists idea, metadata r = Some (ideaToMetadata idea).

End Repository.

(** ** Outcomes of the Uniqueness Gate *)

Module Gate.
Import IdeasApi.

(** The handler answered [Similar idea already exists]. *)
Definition rejected (r : Completion Response) : bool :=
  match r with
  | Return (SimilarIdeaExists _) => true
  | _ => false
  end.

(** The scores of a list of matches are in descending order. *)
Definition descending (scores : list JS.number) : Prop :=
  forall i j x y, (i <= j)%nat ->
    scores !! i = Some x -> scores !! j = Some y -> (y <=? x)%float = true.

End Gate.

(** ** Scores of the candidates of a selection *)

Module Selection.
Import CronPublish.

Section WithExternal.
Context `{External}.

(** The maximum similarity the loop computes for a candidate ([NaN] when
    the computation throws). *)
Definition maxSim (recentEmbeddings : list (list JS.number))
  (idea : BlogIdea.t) : JS.number :=
  match maxSimilarity recentEmbeddings idea with
  | Return m => m
  | Throw _ => nan
  end.

(** The embedding pipeline answers every text with a vector of [dim]
    components. *)
Definition provider_ok (dim : nat) : Prop :=
  forall text, exists v, pipe text = Return v /\ length v = dim.

(** The embeddings of the recently used ideas of a pool. *)
Definition recentEmbeddings (allIdeas : list BlogIdea.t)
  : list (list JS.number) :=
  match mapC embed (usedIdeas allIdeas) with
  | Return embeddings => embeddings
  | Throw _ => []
  end.

(** The maximum similarity of a candidate to the recent ideas of its
    pool. *)
Definition score_in (allIdeas : list BlogIdea.t) (idea : BlogIdea.t)
  : JS.number :=
  maxSim (recentEmbeddings allIdeas) idea.

(** Some candidate scores strictly below [1], or every candidate scores
    at most [1] (as the exact cosine would). *)
Definition scores_bounded (allIdeas : list BlogIdea.t) : Prop :=
  (exists c, In c (unusedIdeas allIdeas)
             /\ (score_in allIdeas c <? 1)%float = true)
  \/ (forall c, In c (unusedIdeas allIdeas) ->
                (score_in allIdeas c <=? 1)%float = true).

(** No candidate scores strictly below [idea], and [idea] scores at most
    what any candidate with a score scores. *)
Definition minimal (allIdeas : list BlogIdea.t) (idea : BlogIdea.t) : Prop :=
  forall c, In c (unusedIdeas allIdeas) ->
    (score_in allIdeas c <? score_in allIdeas idea)%float = false
    /\ (is_nan (score_in allIdeas c) = false ->
        (score_in allIdeas idea <=? score_in allIdeas c)%float = true).

(** An idea marked used that carries no [usedAt]. *)
Definition used_without_usedAt (idea : BlogIdea.t) : bool :=
  BlogIdea.used idea
  && match BlogIdea.usedAt idea with Some _ => false | None => true end.

End WithExternal.
End Selection.

(** ** Sample inputs *)

Module Samples.

Definition idea (id title : string) (used : bool) (usedAt : option string)
  : BlogIdea.t :=
  {| BlogIdea.id := id;
     BlogIdea.title := title;
     BlogIdea.description := "A description of the idea";
     BlogIdea.tags := ["rocq"; "proofs"];
     BlogIdea.createdAt := "2025-01-01T00:00:00.000Z";
     BlogIdea.used := used;
     BlogIdea.usedAt := usedAt |}.

(** An idea whose [usedAt] is present and empty. *)
Definition empty_usedAt : BlogIdea.t :=
  idea "idea-1" "Verified parsers" true (Some EmptyString).

(** A deterministic stand-in for the embedding pipeline, keyed on the
    first word of the text: equal texts get equal vectors. *)
Definition vector_of (text : string) : list JS.number :=
  if String.prefix "Monads" text then [1; 1; 1]%float
  else if String.prefix "Parsers" text then [1; 2; 3]%float
  else [1; 0; 0]%float.

(** The year a timestamp starts with, as a number. *)
Definition year_of (s : string) : JS.number :=
  match s with
  | String a (String b (String c (String d _))) =>
      JS.of_nat (((nat_of_ascii a - 48) * 10 + (nat_of_ascii b - 48)) * 100
                 + (nat_of_ascii c - 48) * 10 + (nat_of_ascii d - 48))
  | _ => nan
  end.

(** An index that answers every query with the first [topK] of
    [matches]. *)
Definition external (matches : list ScoredPineconeRecord) : External :=
  {| pipe := fun text => Return (vector_of text);
     query_matches := fun _ _ topK => Some (take topK matches);
     totalRecordCount := fun rs => Some (size rs);
     Date_getTime := year_of;
     PUBLISH_PASSWORD := Some "secret";
     first_rejected := fun _ => 0%nat |}.

Definition scored (id title : string) (score : JS.number)
  : ScoredPineconeRecord :=
  {| match_id := id;
     match_score := Some score;
     match_metadata := Some (VectorDb.ideaToMetadata (idea id title false None)) |}.

Definition request : IdeasApi.Request :=
  {| IdeasApi.method := "POST";
     IdeasApi.x_publish_password := Some "secret";
     IdeasApi.body :=
       {| CreateIdeaRequest.title := "Dependent types in practice";
          CreateIdeaRequest.description :=
            "How dependent types catch errors before the program runs";
          CreateIdeaRequest.tags := ["types"] |};
     IdeasApi.query_id := None |}.

Definition empty_index : IndexState := {| records := ∅; calls := [] |}.

(** One stored idea, at similarity exactly [0.85]. *)
Definition at_threshold : list ScoredPineconeRecord :=
  [scored "idea-7" "Dependent types, practically" 0.85%float].

(** Four stored ideas, only the nearest above [0.85]. *)
Definition one_conflict : list ScoredPineconeRecord :=
  [scored "idea-7" "Dependent types, practically" 0.9%float;
   scored "idea-8" "Linear types" 0.5%float;
   scored "idea-9" "Garbage collection" 0.3%float;
   scored "idea-10" "Build systems" 0.1%float].

(** Two recently used ideas, and unused ideas with the same title and
    description, hence the same embedding: [A] repeats [R1], [B] and [C]
    repeat [R2]. *)
Definition R1 : BlogIdea.t :=
  idea "r1" "Monads" true (Some "2024-05-01T00:00:00.000Z").
Definition R2 : BlogIdea.t :=
  idea "r2" "Parsers" true (Some "2025-01-15T00:00:00.000Z").
Definition A : BlogIdea.t := idea "a" "Monads" false None.
Definition B : BlogIdea.t := idea "b" "Parsers" false None.
Definition C : BlogIdea.t := idea "c" "Parsers" false None.
(** An unused idea unrelated to the used ones. *)
Definition D : BlogIdea.t := idea "d" "Zippers" false None.
(** An idea marked used that carries no [usedAt]. *)
Definition U : BlogIdea.t := idea "u" "Monads" true None.

Definition offline : External := external [].

(** The index after one idea was stored. *)
Definition stored_index : IndexState :=
  snd (VectorDb.upsertIdea (idea "idea-2" "Sorting" false None)
         [0.25; 0.5; 0.125]%float empty_index).

End Samples.

(** * Auxiliary definitions for the further properties *)

Module MoreAux.

(** The accumulators of [cosineSimilarity] with the two vectors swapped. *)
Definition swap (s : Embeddings.Sums) : Embeddings.Sums :=
  {| Embeddings.dotProduct := Embeddings.dotProduct s;
     Embeddings.magnitudeA := Embeddings.magnitudeB s;
     Embeddings.magnitudeB := Embeddings.magnitudeA s |}.

(** The fields [IdeaMetadata] requires. *)
Definition metadata_keys : list string :=
  ["title"; "description"; "tags"; "createdAt"; "used"; "usedAt"].

(** [idea] under the identifier [id]. *)
Definition with_id (id : string) (idea : BlogIdea.t) : BlogIdea.t :=
  {| BlogIdea.id := id;
     BlogIdea.title := BlogIdea.title idea;
     BlogIdea.description := BlogIdea.description idea;
     BlogIdea.tags := BlogIdea.tags idea;
     BlogIdea.createdAt := BlogIdea.createdAt idea;
     BlogIdea.used := BlogIdea.used idea;
     BlogIdea.usedAt := BlogIdea.usedAt idea |}.

(** [idea] marked used at the time [now]. *)
Definition marked (now : string) (idea : BlogIdea.t) : BlogIdea.t :=
  {| BlogIdea.id := BlogIdea.id idea;
     BlogIdea.title := BlogIdea.title idea;
     BlogIdea.description := BlogIdea.description idea;
     BlogIdea.tags := BlogIdea.tags idea;
     BlogIdea.createdAt := BlogIdea.createdAt idea;
     BlogIdea.used := true;
     BlogIdea.usedAt := Some now |}.

(** The index answers queries with records it holds: every match carries
    the identifier and the metadata of a stored record. *)
Definition faithful `{External} (s : IndexState) : Prop :=
  forall vector topK m,
    In m (default [] (query_matches (records s) vector topK)) ->
    exists r, records s !! match_id m = Some r
              /\ match_metadata m = metadata r.

(** The answers by which the ideas handler refuses a request. *)
Definition refusal (r : IdeasApi.Response) : bool :=
  match r with
  | IdeasApi.InvalidPassword | IdeasApi.ValidationFailed
  | IdeasApi.IdeaIdRequired | IdeasApi.MethodNotAllowed => true
  | _ => false
  end.

(** The calls that only read the index. *)
Definition read_call (c : Call) : Prop :=
  match c with
  | CallQuery _ _ | CallDescribeIndexStats => True
  | _ => False
  end.

(** Every [usedAt] of a used idea of the pool is a valid date: its time
    is a number, so that the comparator of the sort is consistent. *)
Definition valid_dates `{External} (allIdeas : list BlogIdea.t) : Prop :=
  forall idea, In idea allIdeas -> CronPublish.has_usedAt idea = true ->
    is_finite (CronPublish.usedAt_time idea) = true.

(** A result as the callback of [platforms.map] builds it: a success
    carries an article and no error, a failure an error and no article. *)
Definition coherent (r : PublishMulti.PublishResult) : Prop :=
  if PublishMulti.success r
  then PublishMulti.article r <> None /\ PublishMulti.error r = None
  else PublishMulti.article r = None /\ PublishMulti.error r <> None.

(** The data [publishMulti] hands to the platforms. *)
Definition publish_data (title content : string) (tags : list string)
  (is_draft : option bool) (platforms : list string)
  : PublishMulti.PublishRequest :=
  {| PublishMulti.data_title := title;
     PublishMulti.data_content := content;
     PublishMulti.data_tags := tags;
     PublishMulti.data_is_draft := is_draft;
     PublishMulti.data_platforms := platforms |}.

End MoreAux.

(** ** More sample inputs *)

Module MoreSamples.

(** An index held in memory: a query scores every record by the cosine of
    its vector and answers with the first [topK] of them. *)
Definition scored_record (vector : list JS.number)
  (entry : string * PineconeRecord) : ScoredPineconeRecord :=
  {| match_id := fst entry;
     match_score :=
       match Embeddings.cosineSimilarity vector (values (snd entry)) with
       | Return x => Some x
       | Throw _ => None
       end;
     match_metadata := metadata (snd entry) |}.

Definition in_memory : External :=
  {| pipe := fun text => Return (Samples.vector_of text);
     query_matches := fun rs vector topK =>
       Some (take topK (map (scored_record vector) (map_to_list rs)));
     totalRecordCount := fun rs => Some (size rs);
     Date_getTime := Samples.year_of;
     PUBLISH_PASSWORD := Some "secret";
     first_rejected := fun _ => 0%nat |}.

(** The index in memory, without a publish password. *)
Definition in_memory_open : External :=
  {| pipe := fun text => Return (Samples.vector_of text);
     query_matches := fun rs vector topK =>
       Some (take topK (map (scored_record vector) (map_to_list rs)));
     totalRecordCount := fun rs => Some (size rs);
     Date_getTime := Samples.year_of;
     PUBLISH_PASSWORD := None;
     first_rejected := fun _ => 0%nat |}.

(** No API key is configured. *)
Definition no_keys : Platforms :=
  {| DEV_TO_API_KEY := None;
     HASHNODE_API_KEY := Some EmptyString;
     devto_post := fun _ _ _ _ _ => Return "{}";
     hashnode_post := fun _ _ _ _ _ => Return "{}" |}.

(** dev.to accepts the article, Hashnode answers with an error. *)
Definition devto_only : Platforms :=
  {| DEV_TO_API_KEY := Some "k1";
     HASHNODE_API_KEY := Some "k2";
     devto_post := fun _ title _ _ _ => Return title;
     hashnode_post := fun _ _ _ _ _ => Throw "[]" |}.

Definition publish_body (platforms : list string) : PublishMulti.Body :=
  {| PublishMulti.title := Some "Monads";
     PublishMulti.content := Some "Text";
     PublishMulti.tags := Some ["fp"];
     PublishMulti.is_draft := None;
     PublishMulti.platforms := Some platforms |}.

Definition publish (platforms : list string) : PublishMulti.Request :=
  {| PublishMulti.method := "POST";
     PublishMulti.x_publish_password := Some "secret";
     PublishMulti.body := Some (publish_body platforms) |}.

(** Every embedding fails, each text with an error of its own, and the
    second of the failing promises is the first to reject. *)
Definition racing : External :=
  {| pipe := fun text => Throw ("no embedding for " ++ text);
     query_matches := fun _ _ _ => None;
     totalRecordCount := fun _ => None;
     Date_getTime := Samples.year_of;
     PUBLISH_PASSWORD := None;
     first_rejected := fun _ => 1%nat |}.

(** The pipeline fails on the texts that start with [Monads]. *)
Definition picky : External :=
  {| pipe := fun text =>
       if String.prefix "Monads" text then Throw "no embedding"
       else Return (Samples.vector_of text);
     query_matches := fun _ _ _ => None;
     totalRecordCount := fun _ => None;
     Date_getTime := Samples.year_of;
     PUBLISH_PASSWORD := None;
     first_rejected := fun _ => 0%nat |}.

(** The pipeline answers with vectors of two lengths. *)
Definition uneven : External :=
  {| pipe := fun text =>
       if String.prefix "Monads" text then Return [1; 1]%float
       else Return [1; 2; 3]%float;
     query_matches := fun _ _ _ => None;
     totalRecordCount := fun _ => None;
     Date_getTime := Samples.year_of;
     PUBLISH_PASSWORD := None;
     first_rejected := fun _ => 0%nat |}.

(** A match that carries no metadata. *)
Definition undecodable : list ScoredPineconeRecord :=
  [ {| match_id := "idea-9";
       match_score := Some 0.5%float;
       match_metadata := None |} ].

(** An index that lists an idea it holds no record of. *)
Definition phantom : External :=
  {| pipe := fun text => Return (Samples.vector_of text);
     query_matches := fun _ _ topK =>
       Some (take topK [Samples.scored "ghost" "Zippers" 0.5%float]);
     totalRecordCount := fun _ => Some 1%nat;
     Date_getTime := Samples.year_of;
     PUBLISH_PASSWORD := Some "secret";
     first_rejected := fun _ => 0%nat |}.

(** A listing request. *)
Definition get_request : IdeasApi.Request :=
  {| IdeasApi.method := "GET";
     IdeasApi.x_publish_password := Some "secret";
     IdeasApi.body := IdeasApi.body Samples.request;
     IdeasApi.query_id := None |}.

(** A creation request without the password header. *)
Definition open_request : IdeasApi.Request :=
  {| IdeasApi.method := "POST";
     IdeasApi.x_publish_password := None;
     IdeasApi.body := IdeasApi.body Samples.request;
     IdeasApi.query_id := None |}.

(** The scheduled job as Vercel Cron sends it. *)
Definition cron_request : CronHandler.Request :=
  {| CronHandler.authorization := Some "Bearer cron";
     CronHandler.x_publish_password := None;
     CronHandler.requested_platforms := None |}.

(** The scheduled job asked for an empty list of platforms. *)
Definition empty_platforms_request : CronHandler.Request :=
  {| CronHandler.authorization := Some "Bearer cron";
     CronHandler.x_publish_password := None;
     CronHandler.requested_platforms := Some [] |}.

(** The scheduled job with a secret that is not the configured one. *)
Definition wrong_secret_request : CronHandler.Request :=
  {| CronHandler.authorization := Some "Bearer guess";
     CronHandler.x_publish_password := Some "secret";
     CronHandler.requested_platforms := None |}.

(** A request without any header. *)
Definition bare_request : CronHandler.Request :=
  {| CronHandler.authorization := None;
     CronHandler.x_publish_password := None;
     CronHandler.requested_platforms := None |}.

(** Neither [CRON_SECRET] nor [PUBLISH_PASSWORD] is set, and nothing
    answers. *)
Definition unconfigured : External :=
  {| pipe := fun _ => Throw "ProviderUnavailable";
     query_matches := fun _ _ _ => None;
     totalRecordCount := fun _ => None;
     Date_getTime := Samples.year_of;
     PUBLISH_PASSWORD := None;
     first_rejected := fun _ => 0%nat |}.

Definition no_cron : CronExternal :=
  {| CRON_SECRET := None;
     generateContent := fun _ => Throw "ProviderUnavailable";
     fetch_publish_multi := fun _ => Throw "fetch failed" |}.

Definition with_secret : CronExternal :=
  {| CRON_SECRET := Some "cron";
     generateContent := fun _ => Return "Text";
     fetch_publish_multi := fun _ => Throw "fetch failed" |}.

(** The text generation is down. *)
Definition no_generation : CronExternal :=
  {| CRON_SECRET := Some "cron";
     generateContent := fun _ => Throw "generation failed";
     fetch_publish_multi := fun _ => Throw "fetch failed" |}.

(** The publication answers [200]. *)
Definition publishing : CronExternal :=
  {| CRON_SECRET := Some "cron";
     generateContent := fun _ => Return "Text";
     fetch_publish_multi := fun _ => Return (PublishMulti.Results []) |}.

End MoreSamples.

(** * Properties *)

(** ** Facts on the order of numbers *)

Module FloatFacts.
Import FloatOrder.

Lemma SFcompare_key x y :
  SFcompare x y =
  match key x, key y with
  | Some a, Some b => Some (lex_compare a b)
  | _, _ => None
  end.
Proof.
  destruct x as [s1|s1| |s1 m1 e1], y as [s2|s2| |s2 m2 e2];
    try destruct s1; try destruct s2; try reflexivity.
  cbn [key SFcompare lex_compare]. rewrite Z.compare_opp.
  change (-1 ?= -1)%Z with Eq. cbn match.
  rewrite (Z.compare_antisym e1 e2).
  destruct (e1 ?= e2)%Z; reflexivity.
Qed.

Lemma ltb_rank x y :
  (x <? y)%float = true <->
  exists a b, rank x = Some a /\ rank y = Some b /\ lex_compare a b = Lt.
Proof.
  rewrite ltb_spec. unfold SFltb, rank. rewrite SFcompare_key.
  destruct (key (Prim2SF x)) as [a|], (key (Prim2SF y)) as [b|]; split;
    try (intros (a' & b' & Ha & Hb & Hc)); try discriminate.
  - destruct (lex_compare a b) eqn:E; try discriminate. eauto.
  - injection Ha as <-. injection Hb as <-. by rewrite Hc.
Qed.

Lemma leb_rank x y :
  (x <=? y)%float = true <->
  exists a b, rank x = Some a /\ rank y = Some b /\ lex_compare a b <> Gt.
Proof.
  rewrite leb_spec. unfold SFleb, rank. rewrite SFcompare_key.
  destruct (key (Prim2SF x)) as [a|], (key (Prim2SF y)) as [b|]; split;
    try (intros (a' & b' & Ha & Hb & Hc)); try discriminate.
  - intros Hc. exists a, b. repeat split.
    destruct (lex_compare a b); congruence.
  - injection Ha as <-. injection Hb as <-.
    destruct (lex_compare a b); congruence.
Qed.

Lemma lex_le_lt_trans a b c :
  lex_compare a b <> Gt -> lex_compare b c = Lt -> lex_compare a c = Lt.
Proof. intros; lex. Qed.

Lemma lex_le_trans a b c :
  lex_compare a b <> Gt -> lex_compare b c <> Gt -> lex_compare a c <> Gt.
Proof. intros; lex. Qed.

Lemma lex_total a b : lex_compare a b <> Lt -> lex_compare b a <> Gt.
Proof. intros; lex. Qed.

Lemma lex_asym a b : lex_compare a b = Lt -> lex_compare b a = Gt.
Proof. intros; lex. Qed.

Lemma lex_lt_le a b : lex_compare a b = Lt -> lex_compare a b <> Gt.
Proof. congruence. Qed.

(** [a <= b] and [b < c] give [a < c]. *)
Lemma leb_ltb_trans a b c :
  (a <=? b)%float = true -> (b <? c)%float = true -> (a <? c)%float = true.
Proof.
  rewrite leb_rank, !ltb_rank.
  intros (ka & kb & Ha & Hb & Hab) (kb' & kc & Hb' & Hc & Hbc).
  rewrite Hb in Hb'. injection Hb' as <-.
  exists ka, kc. eauto using lex_le_lt_trans.
Qed.

Lemma ltb_leb a b : (a <? b)%float = true -> (a <=? b)%float = true.
Proof.
  rewrite leb_rank, ltb_rank. intros (ka & kb & Ha & Hb & Hab).
  exists ka, kb. eauto using lex_lt_le.
Qed.

Lemma leb_trans a b c :
  (a <=? b)%float = true -> (b <=? c)%float = true -> (a <=? c)%float = true.
Proof.
  rewrite !leb_rank.
  intros (ka & kb & Ha & Hb & Hab) (kb' & kc & Hb' & Hc & Hbc).
  rewrite Hb in Hb'. injection Hb' as <-.
  exists ka, kc. eauto using lex_le_trans.
Qed.

(** [a < b] excludes [b <= a]. *)
Lemma ltb_not_leb a b :
  (a <? b)%float = true -> (b <=? a)%float = false.
Proof.
  rewrite ltb_rank. intros (ka & kb & Ha & Hb & Hab).
  apply not_true_is_false. rewrite leb_rank.
  intros (kb' & ka' & Hb' & Ha' & Hba).
  rewrite Hb in Hb'. rewrite Ha in Ha'.
  injection Hb' as <-. injection Ha' as <-.
  apply lex_asym in Hab. congruence.
Qed.

(** On numbers that are not [NaN] the order is total. *)
Lemma not_ltb_leb a b x y :
  (a <=? x)%float = true -> (b <=? y)%float = true ->
  (a <? b)%float = false -> (b <=? a)%float = true.
Proof.
  rewrite !leb_rank. intros (ka & kx & Ha & _) (kb & ky & Hb & _) Hlt.
  exists kb, ka. repeat split; try done.
  apply lex_total. intros Hc.
  assert ((a <? b)%float = true) as Ht by (apply ltb_rank; eauto).
  congruence.
Qed.

Lemma eqb_rank_eq x y :
  (x =? y)%float
  = rank_test (fun c => match c with Eq => true | _ => false end) x y.
Proof.
  rewrite FloatAxioms.eqb_spec. unfold SFeqb, rank_test, rank.
  rewrite SFcompare_key.
  destruct (key (Prim2SF x)), (key (Prim2SF y)); reflexivity.
Qed.

Lemma lex_refl a : lex_compare a a = Eq.
Proof. lex. Qed.

Lemma is_nan_rank x : is_nan x = false <-> exists a, rank x = Some a.
Proof.
  unfold is_nan. rewrite eqb_rank_eq. unfold rank_test.
  destruct (rank x) as [a|].
  - rewrite lex_refl. split; eauto.
  - split; [discriminate | intros [a Ha]; discriminate].
Qed.

Lemma leb_not_nan a x : (a <=? x)%float = true -> is_nan a = false.
Proof.
  rewrite leb_rank, is_nan_rank. intros (ka & kx & Ha & _). eauto.
Qed.

Lemma ltb_leb_trans a b c :
  (a <? b)%float = true -> (b <=? c)%float = true -> (a <? c)%float = true.
Proof.
  rewrite leb_rank, !ltb_rank.
  intros (ka & kb & Ha & Hb & Hab) (kb' & kc & Hb' & Hc & Hbc).
  rewrite Hb in Hb'. injection Hb' as <-.
  exists ka, kc. repeat split; try done. lex.
Qed.

Lemma leb_refl a : is_nan a = false -> (a <=? a)%float = true.
Proof.
  rewrite is_nan_rank, leb_rank. intros [ka Ha].
  exists ka, ka. repeat split; try done. lex.
Qed.

Lemma eqb_leb a b : (a =? b)%float = true -> (a <=? b)%float = true.
Proof.
  rewrite eqb_rank_eq, leb_rank. unfold rank_test.
  destruct (rank a) as [ka|], (rank b) as [kb|]; try discriminate.
  intros Heq. exists ka, kb. repeat split.
  destruct (lex_compare ka kb); congruence.
Qed.

Lemma eqb_sym a b : (a =? b)%float = true -> (b =? a)%float = true.
Proof.
  rewrite !eqb_rank_eq. unfold rank_test.
  destruct (rank a) as [ka|], (rank b) as [kb|]; try discriminate.
  intros Heq. destruct (lex_compare ka kb) eqn:E; try discriminate.
  enough (lex_compare kb ka = Eq) as -> by reflexivity. lex.
Qed.

(** The result of one step of [Math.max] is one of its arguments and is
    above both. *)
Lemma max_step_upper h x :
  is_nan h = false -> is_nan x = false ->
  (JS.max_step h x = h \/ JS.max_step h x = x)
  /\ (h <=? JS.max_step h x)%float = true
  /\ (x <=? JS.max_step h x)%float = true.
Proof.
  intros Hh Hx. unfold JS.max_step. rewrite Hh, Hx. cbn [orb].
  destruct (is_zero x && is_zero h && get_sign h && negb (get_sign x))
    eqn:Hzero.
  - apply andb_prop in Hzero as [Hzero _].
    apply andb_prop in Hzero as [Hzero _].
    apply andb_prop in Hzero as [Hzx Hzh]. unfold is_zero in Hzx, Hzh.
    split; [by right|]. split; [|by apply leb_refl].
    apply leb_trans with 0%float; [by apply eqb_leb|].
    by apply eqb_leb, eqb_sym.
  - destruct (h <? x)%float eqn:Hlt.
    + split; [by right|]. split; [by apply ltb_leb | by apply leb_refl].
    + split; [by left|]. split; [by apply leb_refl|].
      apply (not_ltb_leb h x h x); try done; by apply leb_refl.
Qed.

(** [Math.max] keeps a strict lower bound exactly when some argument is
    above it. *)
Lemma max_step_above t h x :
  is_nan h = false -> is_nan x = false ->
  is_nan (JS.max_step h x) = false
  /\ (t <? JS.max_step h x)%float = (t <? h)%float || (t <? x)%float.
Proof.
  intros Hh Hx.
  destruct (max_step_upper h x Hh Hx) as ([-> | ->] & Hhm & Hxm).
  - split; [exact Hh|].
    destruct (t <? h)%float eqn:E1; [reflexivity|].
    destruct (t <? x)%float eqn:E2; [|reflexivity].
    rewrite (ltb_leb_trans t x h E2 Hxm) in E1. discriminate.
  - split; [exact Hx|].
    destruct (t <? x)%float eqn:E2; [by rewrite orb_true_r|].
    destruct (t <? h)%float eqn:E1; [|reflexivity].
    rewrite (ltb_leb_trans t h x E1 Hhm) in E2. discriminate.
Qed.

Lemma Math_max_above t l : forall h,
  is_nan h = false -> Forall (fun x => is_nan x = false) l ->
  (t <? fold_left JS.max_step l h)%float
  = (t <? h)%float || existsb (fun x => t <? x)%float l.
Proof.
  induction l as [|x l IH]; intros h Hh Hl.
  - cbn. by rewrite orb_false_r.
  - inversion Hl as [|? ? Hx Hl']; subst.
    destruct (max_step_above t h x Hh Hx) as [Hn Heq].
    cbn [fold_left existsb]. rewrite IH, Heq, orb_assoc by assumption.
    reflexivity.
Qed.

Lemma ltb_trans a b c :
  (a <? b)%float = true -> (b <? c)%float = true -> (a <? c)%float = true.
Proof. intros Hab Hbc. eapply leb_ltb_trans; eauto using ltb_leb. Qed.

Lemma ltb_irrefl a : (a <? a)%float = false.
Proof.
  destruct (a <? a)%float eqn:E; [|reflexivity].
  pose proof (ltb_not_leb a a E) as Hn.
  rewrite (ltb_leb a a E) in Hn. discriminate.
Qed.

Lemma ltb_not_nan a b : (a <? b)%float = true -> is_nan a = false.
Proof. intros Hab. eapply leb_not_nan, ltb_leb, Hab. Qed.

(** Two numbers of which the first is not below the second. *)
Lemma not_ltb_leb_numbers a b :
  is_nan a = false -> is_nan b = false ->
  (a <? b)%float = false -> (b <=? a)%float = true.
Proof.
  intros Ha Hb. apply (not_ltb_leb a b a b); by apply leb_refl.
Qed.

Lemma not_leb_not_ltb a b :
  (a <=? b)%float = false -> (a <? b)%float = false.
Proof.
  intros Hle. destruct (a <? b)%float eqn:E; [|reflexivity].
  rewrite (ltb_leb a b E) in Hle. discriminate.
Qed.

Lemma or_zero_not_nan x : is_nan (JS.or_zero x) = false.
Proof.
  destruct x as [v|]; [|reflexivity]. unfold JS.or_zero.
  destruct (is_nan v) eqn:Hv; [reflexivity|].
  cbn [orb]. destruct (is_zero v); [reflexivity | exact Hv].
Qed.

End FloatFacts.

(** ** Lists *)

Module ListFacts.

Lemma lookup_map {A B : Type} (f : A -> B) (l : list A) : forall k x,
  l !! k = Some x -> map f l !! k = Some (f x).
Proof.
  induction l as [|y l IH]; intros [|k] x Hk; try discriminate Hk.
  - injection Hk as ->. reflexivity.
  - exact (IH k x Hk).
Qed.

Lemma lookup_In {A : Type} (l : list A) : forall k x,
  l !! k = Some x -> In x l.
Proof.
  induction l as [|y l IH]; intros [|k] x Hk; try discriminate Hk.
  - injection Hk as ->. by left.
  - right. exact (IH k x Hk).
Qed.

Lemma In_take {A : Type} (n : nat) : forall (l : list A) x,
  In x (take n l) -> In x l.
Proof.
  induction n as [|n IH]; intros [|y l] x Hx; try contradiction.
  destruct Hx as [-> | Hx]; [by left | right; by apply IH].
Qed.

Lemma filter_filter {A : Type} (f g : A -> bool) (l : list A) :
  (forall x, f x = true -> g x = true) ->
  List.filter f (List.filter g l) = List.filter f l.
Proof.
  intros Hfg. induction l as [|x l IH]; [reflexivity|].
  cbn [List.filter]. destruct (g x) eqn:Hg.
  - cbn [List.filter]. destruct (f x); by rewrite IH.
  - destruct (f x) eqn:Hf; [|exact IH].
    rewrite (Hfg x Hf) in Hg. discriminate.
Qed.

End ListFacts.

(** ** The similarity function *)

Module EmbeddingsFacts.
Import JS Embeddings.

Lemma sums_magnitudeA a : forall b acc,
  length a = length b ->
  magnitudeA (fold_left cosine_step (combine a b) acc) =
  fold_left (fun m x => m + x * x)%float a (magnitudeA acc).
Proof.
  induction a as [|x a IH]; intros [|y b] acc Hlen; try discriminate.
  - reflexivity.
  - cbn [combine fold_left]. rewrite IH by (simpl in Hlen; lia).
    reflexivity.
Qed.

Lemma sums_magnitudeB a : forall b acc,
  length a = length b ->
  magnitudeB (fold_left cosine_step (combine a b) acc) =
  fold_left (fun m y => m + y * y)%float b (magnitudeB acc).
Proof.
  induction a as [|x a IH]; intros [|y b] acc Hlen; try discriminate.
  - reflexivity.
  - cbn [combine fold_left]. rewrite IH by (simpl in Hlen; lia).
    reflexivity.
Qed.

(** A component that is [=== 0] is [+0] or [-0]. *)
Lemma is_zero_cases x :
  is_zero x = true -> x = 0%float \/ x = (-0)%float.
Proof.
  unfold is_zero. rewrite FloatAxioms.eqb_spec. intros Heq.
  rewrite <- (SF2Prim_Prim2SF x).
  destruct (Prim2SF x) as [[]|[]| |[] m e]; try discriminate Heq;
    [right | left]; reflexivity.
Qed.

Lemma zero_vector_sum v :
  is_zero_vector v = true ->
  fold_left (fun m x => m + x * x)%float v 0%float = 0%float.
Proof.
  induction v as [|x v IH]; [reflexivity|].
  cbn [is_zero_vector forallb fold_left]. intros [Hx Hv]%andb_prop.
  destruct (is_zero_cases x Hx) as [-> | ->]; exact (IH Hv).
Qed.

Lemma zero_vector_magnitude v :
  is_zero_vector v = true -> (magnitude v =? 0)%float = true.
Proof.
  intros Hv. unfold magnitude. rewrite zero_vector_sum by exact Hv.
  reflexivity.
Qed.

Lemma is_zero_vector_repeat n : is_zero_vector (repeat 0%float n) = true.
Proof. induction n as [|n IH]; [reflexivity | exact IH]. Qed.

Lemma cosineSimilarity_guard a b :
  length a = length b ->
  (magnitude a =? 0)%float || (magnitude b =? 0)%float = true ->
  cosineSimilarity a b = Return 0%float.
Proof.
  intros Hlen Hz. unfold cosineSimilarity, cosine_sums.
  rewrite Hlen, Nat.eqb_refl. cbn [negb].
  rewrite sums_magnitudeA, sums_magnitudeB by exact Hlen.
  cbn [magnitudeA magnitudeB]. fold (magnitude a) (magnitude b).
  rewrite Hz. reflexivity.
Qed.

(** C8. Whenever the magnitude computed for either of two equal-length
    vectors is zero, [cosineSimilarity] returns exactly [0] and the
    quotient is not evaluated; every vector all of whose components are
    zero has that magnitude, so the similarity of the zero vector of any
    length with itself is [0]. *)
Theorem cosineSimilarity_zero_magnitude (a b : list number) :
  length a = length b ->
  (magnitude a =? 0)%float || (magnitude b =? 0)%float = true
  \/ is_zero_vector a = true \/ is_zero_vector b = true ->
  cosineSimilarity a b = Return 0%float
  /\ cosineSimilarity (repeat 0%float (length a)) (repeat 0%float (length a))
     = Return 0%float.
Proof.
  intros Hlen Hz. split.
  - apply cosineSimilarity_guard; [exact Hlen|].
    destruct Hz as [Hz | [Hz | Hz]]; [exact Hz | |];
      apply zero_vector_magnitude in Hz; rewrite Hz;
      [reflexivity | apply orb_true_r].
  - apply cosineSimilarity_guard; [reflexivity|].
    rewrite zero_vector_magnitude by apply is_zero_vector_repeat.
    reflexivity.
Qed.

(** The zero vector against itself, and against a vector that is not
    zero. *)
Lemma cosineSimilarity_zero_magnitude_witness :
  cosineSimilarity [0; 0; 0]%float [0; 0; 0]%float = Return 0%float
  /\ cosineSimilarity [0.5; -2; 3]%float [0; -0; 0]%float = Return 0%float.
Proof.
  split.
  - apply (cosineSimilarity_zero_magnitude [0; 0; 0]%float [0; 0; 0]%float);
      [reflexivity | right; left; reflexivity].
  - apply (cosineSimilarity_zero_magnitude [0.5; -2; 3]%float [0; -0; 0]%float);
      [reflexivity | right; right; reflexivity].
Defined.

End EmbeddingsFacts.

(** ** [JSON.parse] inverts [JSON.stringify] *)

Module JSONFacts.
Import JSON.

Lemma append_cons c (a b : string) :
  (String c a ++ b = String c (a ++ b))%string.
Proof. reflexivity. Qed.

Lemma append_nil (b : string) : (EmptyString ++ b = b)%string.
Proof. reflexivity. Qed.

Lemma append_assoc (a b c : string) : ((a ++ b) ++ c = a ++ (b ++ c))%string.
Proof.
  induction a as [|x a IH]; [reflexivity|].
  rewrite !append_cons. f_equal. exact IH.
Qed.

Lemma length_append (a b : string) :
  String.length (a ++ b) = (String.length a + String.length b)%nat.
Proof.
  induction a as [|x a IH]; [reflexivity|].
  rewrite append_cons. simpl. f_equal. exact IH.
Qed.

(** Reading back what [quote_char] wrote yields the character. *)
Lemma parse_quote_char c rest :
  parse_chars (quote_char c ++ rest) = push c (parse_chars rest).
Proof.
  destruct c as [[] [] [] [] [] [] [] []]; reflexivity.
Qed.

Lemma parse_quote_chars s rest :
  parse_chars (quote_chars s ++ String quote rest) = Some (s, rest).
Proof.
  induction s as [|c s IH]; [reflexivity|].
  cbn [quote_chars]. rewrite append_assoc, parse_quote_char, IH.
  reflexivity.
Qed.

Lemma length_join l : (length l <= String.length (join_elements l))%nat.
Proof.
  induction l as [|x [|y l] IH]; [simpl; lia | |].
  - unfold join_elements, QuoteJSONString. simpl. lia.
  - change (join_elements (x :: y :: l))
      with (QuoteJSONString x ++ "," ++ join_elements (y :: l))%string.
    rewrite !length_append. simpl in *. lia.
Qed.

Lemma parse_elements_quoted fuel x rest :
  parse_elements (S fuel) (QuoteJSONString x ++ rest) =
  match skip_ws rest with
  | EmptyString => None
  | String d rest2 =>
      if (nat_of_ascii d =? 44)%nat then
        match parse_elements fuel (skip_ws rest2) with
        | Some l => Some (x :: l)
        | None => None
        end
      else if (nat_of_ascii d =? 93)%nat then
        if is_empty (skip_ws rest2) then Some [x] else None
      else None
  end.
Proof.
  unfold QuoteJSONString.
  rewrite append_cons, append_assoc, append_cons, append_nil.
  cbn [parse_elements]. change (nat_of_ascii quote =? 34)%nat with true.
  cbv iota. rewrite parse_quote_chars. reflexivity.
Qed.

Lemma skip_ws_join y l r :
  skip_ws (join_elements (y :: l) ++ r) = (join_elements (y :: l) ++ r)%string.
Proof. destruct l; reflexivity. Qed.

Lemma parse_join l : forall x fuel,
  (length (x :: l) <= fuel)%nat ->
  parse_elements fuel (join_elements (x :: l) ++ "]") = Some (x :: l).
Proof.
  induction l as [|y l IH]; intros x [|fuel] Hfuel;
    try (simpl in Hfuel; lia).
  - cbn [join_elements]. rewrite parse_elements_quoted. reflexivity.
  - change (join_elements (x :: y :: l))
      with (QuoteJSONString x ++ "," ++ join_elements (y :: l))%string.
    rewrite !append_assoc, parse_elements_quoted.
    change ("," ++ join_elements (y :: l) ++ "]")%string
      with (String "," (join_elements (y :: l) ++ "]")).
    change (skip_ws (String "," ?r)) with (String "," r).
    cbv iota. change (nat_of_ascii "," =? 44)%nat with true. cbv iota.
    rewrite skip_ws_join, IH by (simpl in *; lia). reflexivity.
Qed.

(** Every array of strings is read back from its JSON text, element by
    element and in order. *)
Lemma parse_stringify l : parse (stringify l) = Some l.
Proof.
  destruct l as [|x l]; [reflexivity|].
  unfold stringify.
  change ("[" ++ join_elements (x :: l) ++ "]")%string
    with (String "[" (join_elements (x :: l) ++ "]")).
  unfold parse.
  change (skip_ws (String "[" ?r)) with (String "[" r). cbv iota.
  change (nat_of_ascii "[" =? 91)%nat with true. cbv iota.
  rewrite skip_ws_join.
  assert (exists r, (join_elements (x :: l) ++ "]")%string
                    = String quote r) as [r Hr]
    by (destruct l; eexists; reflexivity).
  rewrite Hr at 1. change (nat_of_ascii quote =? 93)%nat with false.
  cbv iota. apply parse_join.
  cbn [String.length]. rewrite length_append.
  pose proof (length_join (x :: l)). lia.
Qed.

End JSONFacts.

(** ** The translation layer of the repository *)

Module VectorDbFacts.
Import VectorDb Repository.

Lemma or_empty_Some s : or_empty (Some s) = s.
Proof. destruct s; reflexivity. Qed.

Lemma string_field_ideaToMetadata idea :
  string_field (ideaToMetadata idea) "title" = Return (BlogIdea.title idea)
  /\ string_field (ideaToMetadata idea) "description"
     = Return (BlogIdea.description idea)
  /\ string_field (ideaToMetadata idea) "tags"
     = Return (JSON.stringify (BlogIdea.tags idea))
  /\ string_field (ideaToMetadata idea) "createdAt"
     = Return (BlogIdea.createdAt idea)
  /\ string_field (ideaToMetadata idea) "used"
     = Return (if BlogIdea.used idea then "true" else "false")
  /\ string_field (ideaToMetadata idea) "usedAt"
     = Return (or_empty (BlogIdea.usedAt idea)).
Proof. repeat split; reflexivity. Qed.

(** Decoding what [ideaToMetadata] wrote: everything is read back, except
    that the identifier is the key given and an empty [usedAt] becomes
    absent. *)
Lemma metadataToIdea_ideaToMetadata id idea :
  metadataToIdea id (Some (ideaToMetadata idea)) =
  Return {| BlogIdea.id := id;
            BlogIdea.title := BlogIdea.title idea;
            BlogIdea.description := BlogIdea.description idea;
            BlogIdea.tags := BlogIdea.tags idea;
            BlogIdea.createdAt := BlogIdea.createdAt idea;
            BlogIdea.used := BlogIdea.used idea;
            BlogIdea.usedAt := or_undefined (or_empty (BlogIdea.usedAt idea)) |}.
Proof.
  destruct (string_field_ideaToMetadata idea) as (H1 & H2 & H3 & H4 & H5 & H6).
  unfold metadataToIdea, decodeIdeaMetadata.
  rewrite H1. cbn [mbind Completion_bind].
  rewrite H2. cbn [mbind Completion_bind].
  rewrite H3. cbn [mbind Completion_bind].
  rewrite H4. cbn [mbind Completion_bind].
  rewrite H5. cbn [mbind Completion_bind].
  rewrite H6. cbn [mbind Completion_bind].
  cbn [IdeaMetadata.tags IdeaMetadata.title IdeaMetadata.description
       IdeaMetadata.createdAt IdeaMetadata.used IdeaMetadata.usedAt].
  rewrite JSONFacts.parse_stringify.
  destruct (BlogIdea.used idea); reflexivity.
Qed.

(** C5, as amended.  For every idea whose [usedAt] is absent or not
    empty, decoding under its own identifier the metadata that
    [ideaToMetadata] produces gives back the idea: same title,
    description, creation time, tags in the same order, [used] and
    [usedAt]. *)
Theorem metadata_roundtrip (idea : BlogIdea.t) :
  BlogIdea.usedAt idea <> Some EmptyString ->
  metadataToIdea (BlogIdea.id idea) (Some (ideaToMetadata idea))
  = Return idea.
Proof.
  intros Hne. rewrite metadataToIdea_ideaToMetadata.
  destruct idea as [id title description tags createdAt used [[|c t]|]];
    cbn; try reflexivity.
  contradiction Hne; reflexivity.
Qed.

Lemma metadata_roundtrip_witness :
  metadataToIdea "idea-2"
    (Some (ideaToMetadata
             (Samples.idea "idea-2" "Sorting" true
                (Some "2025-02-03T04:05:06.000Z"))))
  = Return (Samples.idea "idea-2" "Sorting" true
              (Some "2025-02-03T04:05:06.000Z")).
Proof.
  apply (metadata_roundtrip
           (Samples.idea "idea-2" "Sorting" true
              (Some "2025-02-03T04:05:06.000Z"))).
  discriminate.
Defined.

(** C5, as stated, fails on an idea whose [usedAt] is the empty string:
    it is written as the empty string and read back as absent. *)
Lemma metadata_roundtrip_empty_usedAt :
  metadataToIdea (BlogIdea.id Samples.empty_usedAt)
    (Some (ideaToMetadata Samples.empty_usedAt))
  <> Return Samples.empty_usedAt
  /\ (exists decoded,
        metadataToIdea (BlogIdea.id Samples.empty_usedAt)
          (Some (ideaToMetadata Samples.empty_usedAt)) = Return decoded
        /\ BlogIdea.usedAt decoded = None
        /\ BlogIdea.usedAt Samples.empty_usedAt = Some EmptyString).
Proof.
  rewrite metadataToIdea_ideaToMetadata. split.
  - intros Heq. discriminate Heq.
  - eexists. split; [reflexivity|]. split; reflexivity.
Qed.

(** *** [markIdeaAsUsed] *)

Lemma inherited_In id :
  existsb (String.eqb id) Index.Object_prototype_keys = true
  <-> In id Index.Object_prototype_keys.
Proof.
  rewrite existsb_exists. split.
  - intros (k & Hk & Heq). apply String.eqb_eq in Heq. by subst.
  - intros Hin. exists id. split; [exact Hin|apply String.eqb_refl].
Qed.

Lemma property_stored rs id r :
  rs !! id = Some r -> Index.property rs id = Some r.
Proof. intros Hr. unfold Index.property. by rewrite Hr. Qed.

(** What [markIdeaAsUsed] does on an identifier without a record. *)
Lemma markIdeaAsUsed_not_stored id now s :
  records s !! id = None ->
  markIdeaAsUsed id now s
  = (Throw (if existsb (String.eqb id) Index.Object_prototype_keys
            then "ParseError: metadata" else "Idea not found"),
     log (CallFetch id) s).
Proof.
  intros Habsent.
  unfold markIdeaAsUsed, mbind, M_bind, Index.fetch, Index.property.
  rewrite Habsent.
  by destruct (existsb (String.eqb id) Index.Object_prototype_keys).
Qed.

(** C6. On an identifier the index does not hold, [markIdeaAsUsed] throws
    right after the fetch: the records are the ones before the call and
    the only call added to the trace is the fetch, so no upsert is made.
    The error is [Idea not found] exactly when the identifier is not the
    name of a member of [Object.prototype]: for such a name
    ([constructor], [toString], [__proto__], ...) the guard
    [!existingRecord] reads the inherited member, lets it through, and
    the error is the one of the decoding. *)
Theorem markIdeaAsUsed_unknown_id (id now : string) (s : IndexState) :
  records s !! id = None ->
  exists msg,
    markIdeaAsUsed id now s
    = (Throw msg,
       {| records := records s; calls := calls s ++ [CallFetch id] |})
    /\ (msg = "Idea not found" <-> ~ In id Index.Object_prototype_keys).
Proof.
  intros Habsent. rewrite (markIdeaAsUsed_not_stored id now s Habsent).
  eexists. split; [reflexivity|]. rewrite <- inherited_In.
  destruct (existsb (String.eqb id) Index.Object_prototype_keys).
  - split; [discriminate | intros Hno; by destruct Hno].
  - split; [discriminate | reflexivity].
Qed.

(** The identifier [constructor] on an empty index: the error is not
    [Idea not found]. *)
Lemma markIdeaAsUsed_unknown_id_witness :
  exists msg,
    markIdeaAsUsed "constructor" "2025-03-01T00:00:00.000Z"
      {| records := ∅; calls := [] |}
    = (Throw msg, {| records := ∅; calls := [CallFetch "constructor"] |})
    /\ msg <> "Idea not found".
Proof.
  destruct (markIdeaAsUsed_unknown_id "constructor"
              "2025-03-01T00:00:00.000Z" {| records := ∅; calls := [] |}
              ltac:(apply lookup_empty)) as (msg & Hrun & Hmsg).
  exists msg. split; [exact Hrun|].
  intros Hfound. apply (proj1 Hmsg Hfound). by left.
Defined.

(** The metadata of an idea marked used is the metadata it had, with
    [used] and [usedAt] overwritten. *)
Lemma ideaToMetadata_marked id idea now :
  ideaToMetadata
    {| BlogIdea.id := id;
       BlogIdea.title := BlogIdea.title idea;
       BlogIdea.description := BlogIdea.description idea;
       BlogIdea.tags := BlogIdea.tags idea;
       BlogIdea.createdAt := BlogIdea.createdAt idea;
       BlogIdea.used := true;
       BlogIdea.usedAt := Some now |}
  = <["used" := MString "true"]>
      (<["usedAt" := MString now]> (ideaToMetadata idea)).
Proof.
  unfold ideaToMetadata. cbn [BlogIdea.title BlogIdea.description
    BlogIdea.tags BlogIdea.createdAt BlogIdea.used BlogIdea.usedAt].
  rewrite or_empty_Some.
  apply map_eq. intros k.
  repeat (rewrite lookup_insert; case_decide; [reflexivity|]).
  repeat (rewrite lookup_insert; case_decide; [congruence|]).
  reflexivity.
Qed.

(** On any record whose metadata decodes, the upsert carries the stored
    vector and the metadata of the decoded idea marked used. *)
Lemma markIdeaAsUsed_decodable id now s r existing :
  records s !! id = Some r ->
  metadataToIdea id (metadata r) = Return existing ->
  let updated :=
    {| BlogIdea.id := BlogIdea.id existing;
       BlogIdea.title := BlogIdea.title existing;
       BlogIdea.description := BlogIdea.description existing;
       BlogIdea.tags := BlogIdea.tags existing;
       BlogIdea.createdAt := BlogIdea.createdAt existing;
       BlogIdea.used := true;
       BlogIdea.usedAt := Some now |} in
  let r' := {| values := values r;
               metadata := Some (ideaToMetadata updated) |} in
  markIdeaAsUsed id now s
  = (Return tt,
     {| records := <[id := r']> (records s);
        calls := calls s ++ [CallFetch id; CallUpsert id r'] |}).
Proof.
  intros Hr Hdecode. unfold markIdeaAsUsed, mbind, M_bind, Index.fetch, Index.property.
  rewrite Hr. unfold liftC. rewrite Hdecode.
  unfold Index.upsert, log. cbn [records calls].
  by rewrite <- app_assoc.
Qed.

(** On a record whose metadata does not decode, the call throws after the
    fetch and writes nothing. *)
Lemma markIdeaAsUsed_undecodable id now s r msg :
  records s !! id = Some r ->
  metadataToIdea id (metadata r) = Throw msg ->
  markIdeaAsUsed id now s
  = (Throw msg,
     {| records := records s; calls := calls s ++ [CallFetch id] |}).
Proof.
  intros Hr Hdecode. unfold markIdeaAsUsed, mbind, M_bind, Index.fetch, Index.property.
  rewrite Hr. unfold liftC. by rewrite Hdecode.
Qed.

Lemma markIdeaAsUsed_written id now s r idea :
  records s !! id = Some r ->
  metadata r = Some (ideaToMetadata idea) ->
  let r' := {| values := values r;
               metadata := Some (<["used" := MString "true"]>
                                   (<["usedAt" := MString now]>
                                      (ideaToMetadata idea))) |} in
  markIdeaAsUsed id now s
  = (Return tt,
     {| records := <[id := r']> (records s);
        calls := calls s ++ [CallFetch id; CallUpsert id r'] |}).
Proof.
  intros Hr Hmd. unfold markIdeaAsUsed, mbind, M_bind, Index.fetch, Index.property.
  rewrite Hr. unfold liftC. rewrite Hmd, metadataToIdea_ideaToMetadata.
  unfold Index.upsert, log.
  cbn [BlogIdea.id BlogIdea.title BlogIdea.description BlogIdea.tags
       BlogIdea.createdAt records calls].
  rewrite (ideaToMetadata_marked id idea now), <- app_assoc.
  reflexivity.
Qed.

Section WithExternal.
Context `{External}.

Lemma querySimilarIdeas_state embedding topK s :
  snd (querySimilarIdeas embedding topK s)
  = log (CallQuery embedding topK) s.
Proof.
  unfold querySimilarIdeas, mbind, M_bind, Index.query, liftC.
  reflexivity.
Qed.

Lemma getAllIdeas_records s :
  records (snd (getAllIdeas s)) = records s.
Proof.
  unfold getAllIdeas, mbind, M_bind, Index.describeIndexStats,
    Index.query, liftC, mret, M_ret.
  destruct (default 0%nat (totalRecordCount (records s)) =? 0)%nat;
    reflexivity.
Qed.

Lemma markIdeaAsUsed_records id now s :
  records (snd (markIdeaAsUsed id now s)) = records s
  \/ exists r idea,
       records (snd (markIdeaAsUsed id now s))
       = <[id := {| values := values r;
                    metadata := Some (ideaToMetadata idea) |}]> (records s).
Proof.
  destruct (records s !! id) as [r|] eqn:Hr.
  - unfold markIdeaAsUsed, mbind, M_bind, Index.fetch, Index.property, liftC.
    rewrite Hr.
    destruct (metadataToIdea id (metadata r)) as [idea|msg];
      [|left; reflexivity].
    right. eexists r, _. reflexivity.
  - left. by rewrite (markIdeaAsUsed_not_stored id now s Hr).
Qed.

Lemma written_insert id values idea s :
  written_by_repository s ->
  forall id' r',
    <[id := {| values := values;
               metadata := Some (ideaToMetadata idea) |}]> (records s)
      !! id' = Some r' ->
    exists idea', metadata r' = Some (ideaToMetadata idea').
Proof.
  intros Hs id' r'. rewrite lookup_insert. case_decide.
  - intros [= <-]. eauto.
  - apply Hs.
Qed.

(** The repository keeps every record decodable. *)
Lemma reachable_written s : Reachable s -> written_by_repository s.
Proof.
  induction 1 as [|A m s Hs IH Hop].
  - intros id r. cbn [records]. rewrite lookup_empty. discriminate.
  - destruct Hop as [idea embedding|embedding topK| |id|id now].
    + intros id' r'. cbn. apply written_insert, IH.
    + rewrite querySimilarIdeas_state. exact IH.
    + intros id' r'. rewrite getAllIdeas_records. apply IH.
    + intros id' r'. destruct id as [|c id].
      * apply IH.
      * cbn. rewrite lookup_delete. case_decide.
        -- discriminate.
        -- apply IH.
    + intros id' r'.
      destruct (markIdeaAsUsed_records id now s) as [-> | (r & idea & ->)].
      * apply IH.
      * apply written_insert, IH.
Qed.

(** C7. In an index built by the repository, marking a stored idea
    used succeeds with one fetch followed by one upsert under the same
    identifier.  The record written has exactly the vector that was
    stored, and its metadata is the stored metadata with [used] set to
    [true] and [usedAt] set to the time of the call: title,
    description, tags and creation time are the stored strings.  The
    other records are untouched. *)
Theorem markIdeaAsUsed_rewrites_metadata
  (s : IndexState) (id now : string) (r : PineconeRecord) :
  Reachable s ->
  records s !! id = Some r ->
  exists md,
    metadata r = Some md
    /\ let md' := <["used" := MString "true"]>
                    (<["usedAt" := MString now]> md) in
       let r' := {| values := values r; metadata := Some md' |} in
       markIdeaAsUsed id now s
       = (Return tt,
          {| records := <[id := r']> (records s);
             calls := calls s ++ [CallFetch id; CallUpsert id r'] |})
       /\ md' !! "title" = md !! "title"
       /\ md' !! "description" = md !! "description"
       /\ md' !! "tags" = md !! "tags"
       /\ md' !! "createdAt" = md !! "createdAt"
       /\ md' !! "used" = Some (MString "true")
       /\ md' !! "usedAt" = Some (MString now).
Proof.
  intros Hreach Hr.
  destruct (reachable_written s Hreach id r Hr) as [idea Hmd].
  exists (ideaToMetadata idea). split; [exact Hmd|].
  split; [exact (markIdeaAsUsed_written id now s r idea Hr Hmd)|].
  repeat split; reflexivity.
Qed.

End WithExternal.

(** Marking the one stored idea used. *)
Lemma markIdeaAsUsed_rewrites_metadata_witness :
  @Reachable Samples.offline Samples.stored_index
  /\ records Samples.stored_index !! "idea-2"
     = Some {| values := [0.25; 0.5; 0.125]%float;
               metadata := Some (ideaToMetadata
                                   (Samples.idea "idea-2" "Sorting" false None)) |}
  /\ fst (markIdeaAsUsed "idea-2" "2025-03-01T00:00:00.000Z"
            Samples.stored_index) = Return tt
  /\ values <$> (records (snd (markIdeaAsUsed "idea-2"
                                 "2025-03-01T00:00:00.000Z"
                                 Samples.stored_index)) !! "idea-2")
     = Some [0.25; 0.5; 0.125]%float.
Proof.
  assert (@Reachable Samples.offline Samples.stored_index) as Hreach.
  { unfold Samples.stored_index.
    apply (@reach_step Samples.offline); constructor. }
  split; [exact Hreach|]. split; [reflexivity|].
  destruct (@markIdeaAsUsed_rewrites_metadata Samples.offline
              Samples.stored_index "idea-2" "2025-03-01T00:00:00.000Z"
              _ Hreach eq_refl) as (md & Hmd & Hrun & _).
  rewrite Hrun. cbn [fst snd records].
  split; [reflexivity|]. by rewrite lookup_insert_eq.
Defined.

End VectorDbFacts.

(** ** The Uniqueness Gate *)

Module IdeasApiFacts.
Import Embedder VectorDb IdeasApi Gate.

Section WithExternal.
Context `{External}.

Variables (req : Request) (newId now : string) (s : IndexState).
Variables (parsed : CreateIdeaRequest.t) (embedding : list JS.number).
Variable similarIdeas : list SimilarIdea.

Let idea : BlogIdea.t :=
  {| BlogIdea.id := newId;
     BlogIdea.title := CreateIdeaRequest.title parsed;
     BlogIdea.description := CreateIdeaRequest.description parsed;
     BlogIdea.tags := CreateIdeaRequest.tags parsed;
     BlogIdea.createdAt := now;
     BlogIdea.used := false;
     BlogIdea.usedAt := None |}.

Let stored : PineconeRecord :=
  {| values := embedding; metadata := Some (ideaToMetadata idea) |}.

(** The run of the handler on a well-formed creation request. *)
Lemma ideas_post :
  validatePassword req = true ->
  method req = "POST" ->
  CreateIdeaRequest.decode (body req) = Some parsed ->
  generateIdeaEmbedding (CreateIdeaRequest.title parsed)
    (CreateIdeaRequest.description parsed) = Return embedding ->
  mapC toSimilarIdea
    (default [] (query_matches (records s) embedding 5))
  = Return similarIdeas ->
  ideas req newId now s =
  if tooSimilar similarIdeas then
    (Return (SimilarIdeaExists (map diagnostic (take 3 similarIdeas))),
     {| records := records s;
        calls := calls s ++ [CallQuery embedding 5] |})
  else
    (Return (Created idea),
     {| records := <[newId := stored]> (records s);
        calls := calls s ++ [CallQuery embedding 5;
                             CallUpsert newId stored] |}).
Proof.
  intros Hpw Hmethod Hvalid Hemb Hsim.
  unfold ideas. rewrite Hpw, Hmethod, String.eqb_refl. cbn [negb].
  unfold catch500, post. rewrite Hvalid.
  unfold mbind, M_bind, liftC. rewrite Hemb.
  unfold querySimilarIdeas, mbind, M_bind, Index.query, liftC.
  cbv beta iota. unfold log. cbn [records calls]. rewrite Hsim.
  destruct (tooSimilar similarIdeas); [reflexivity|].
  unfold upsertIdea, Index.upsert, mret, M_ret.
  cbn [records calls BlogIdea.id]. rewrite <- app_assoc. reflexivity.
Qed.

(** The scores [querySimilarIdeas] returns are numbers: [score || 0]
    replaces a missing score and [NaN]. *)
Lemma scores_not_nan matches : forall similar,
  mapC toSimilarIdea matches = Return similar ->
  Forall (fun x => is_nan x = false) (map score similar).
Proof.
  induction matches as [|m matches IH]; intros similar Hmap.
  - injection Hmap as <-. constructor.
  - cbn [mapC] in Hmap. unfold toSimilarIdea at 1 in Hmap.
    destruct (metadataToIdea (match_id m) (match_metadata m)) as [i|msg];
      [|discriminate Hmap].
    cbn [mbind Completion_bind] in Hmap.
    destruct (mapC toSimilarIdea matches) as [rest|msg];
      [|discriminate Hmap].
    injection Hmap as <-. cbn [map score]. constructor.
    + apply FloatFacts.or_zero_not_nan.
    + by apply IH.
Qed.

Lemma tooSimilar_max similar :
  Forall (fun x => is_nan x = false) (map score similar) ->
  tooSimilar similar = (0.85 <? JS.Math_max (map score similar))%float.
Proof.
  intros Hnan. unfold JS.Math_max.
  rewrite FloatFacts.Math_max_above by (reflexivity || exact Hnan).
  change (0.85 <? neg_infinity)%float with false. cbn [orb].
  unfold tooSimilar. clear Hnan.
  induction similar as [|i similar IH]; [reflexivity|].
  cbn [existsb map]. by rewrite IH.
Qed.

(** C1, as amended.  On a valid creation request whose embedding and
    nearest-neighbour query succeed, the handler rejects exactly when the
    maximum score among the matches of the [topK = 5] query is strictly
    above [0.85] (equivalently, when some match scores above [0.85]).  A
    rejection leaves the records as they are; otherwise the answer is
    [201] with the new idea, which is stored under its identifier with the
    embedding that was checked. *)
Theorem gate_rejects_above_threshold :
  validatePassword req = true ->
  method req = "POST" ->
  CreateIdeaRequest.decode (body req) = Some parsed ->
  generateIdeaEmbedding (CreateIdeaRequest.title parsed)
    (CreateIdeaRequest.description parsed) = Return embedding ->
  mapC toSimilarIdea
    (default [] (query_matches (records s) embedding 5))
  = Return similarIdeas ->
  let run := ideas req newId now s in
  rejected (fst run)
  = (0.85 <? JS.Math_max (map score similarIdeas))%float
  /\ rejected (fst run)
     = existsb (fun i => 0.85 <? score i)%float similarIdeas
  /\ (rejected (fst run) = true -> records (snd run) = records s)
  /\ (rejected (fst run) = false ->
      fst run = Return (Created idea)
      /\ records (snd run) = <[newId := stored]> (records s)).
Proof.
  intros Hpw Hmethod Hvalid Hemb Hsim run. subst run.
  rewrite (ideas_post Hpw Hmethod Hvalid Hemb Hsim).
  rewrite <- (tooSimilar_max similarIdeas)
    by exact (scores_not_nan _ _ Hsim).
  fold (tooSimilar similarIdeas).
  destruct (tooSimilar similarIdeas); cbn [fst snd rejected records];
    repeat split; try reflexivity; discriminate.
Qed.

(** C9. When the handler answers that a similar idea exists, the list it
    sends is the first three matches of the [topK = 5] query, each with
    its title and score, whatever the score: the entry at position [k < 3]
    is the match at position [k], also when its score is below [0.85].
    The list has at most three entries, and is in descending order of
    score when the matches are. *)
Theorem rejection_diagnostics_unfiltered (d : list (string * JS.number)) :
  validatePassword req = true ->
  method req = "POST" ->
  CreateIdeaRequest.decode (body req) = Some parsed ->
  generateIdeaEmbedding (CreateIdeaRequest.title parsed)
    (CreateIdeaRequest.description parsed) = Return embedding ->
  mapC toSimilarIdea
    (default [] (query_matches (records s) embedding 5))
  = Return similarIdeas ->
  fst (ideas req newId now s) = Return (SimilarIdeaExists d) ->
  d = map diagnostic (take 3 similarIdeas)
  /\ (length d <= 3)%nat
  /\ (forall k i, (k < 3)%nat -> similarIdeas !! k = Some i ->
      d !! k = Some (BlogIdea.title (similar_metadata i), score i))
  /\ (descending (map score similarIdeas) -> descending (map snd d)).
Proof.
  intros Hpw Hmethod Hvalid Hemb Hsim Hrun.
  rewrite (ideas_post Hpw Hmethod Hvalid Hemb Hsim) in Hrun.
  destruct (tooSimilar similarIdeas); cbn [fst] in Hrun;
    [|discriminate Hrun].
  injection Hrun as <-. split; [reflexivity|]. split; [|split].
  - rewrite length_map. apply firstn_le_length.
  - intros k i Hk Hi. rewrite <- firstn_map.
    apply lookup_take_Some. split; [|exact Hk].
    exact (ListFacts.lookup_map diagnostic similarIdeas k i Hi).
  - intros Hdesc a b x y Hab Hx Hy.
    rewrite map_map, <- firstn_map in Hx, Hy.
    apply lookup_take_Some in Hx as [Hx _].
    apply lookup_take_Some in Hy as [Hy _].
    exact (Hdesc a b x y Hab Hx Hy).
Qed.

End WithExternal.

(** At exactly the threshold the helper [isIdeaUnique], which the handler
    does not call, says not unique, while the test of the handler says not
    too similar. *)
Lemma isIdeaUnique_at_threshold :
  Embeddings.isIdeaUnique 0.85%float Embeddings.default_threshold = false
  /\ (0.85 <? 0.85)%float = false.
Proof. split; reflexivity. Qed.

(** A request whose nearest stored idea scores [0.9] is rejected. *)
Lemma gate_rejects_above_threshold_witness :
  rejected
    (fst (@ideas (Samples.external Samples.one_conflict) Samples.request
            "idea-11" "2025-03-01T00:00:00.000Z" Samples.empty_index))
  = true.
Proof.
  edestruct (@gate_rejects_above_threshold
               (Samples.external Samples.one_conflict) Samples.request
               "idea-11" "2025-03-01T00:00:00.000Z" Samples.empty_index)
    as (_ & Hexists & _);
    [reflexivity | reflexivity | reflexivity | reflexivity
    | vm_compute; reflexivity |].
  rewrite Hexists. vm_compute. reflexivity.
Defined.

(** C1, as stated, fails when the nearest stored idea scores exactly
    [0.85]: the maximum score of the query is [>= 0.85], and the handler
    answers [201] and stores the idea. *)
Lemma gate_accepts_at_threshold :
  let E := Samples.external Samples.at_threshold in
  let run := @ideas E Samples.request "idea-11" "2025-03-01T00:00:00.000Z"
               Samples.empty_index in
  exists embedding similarIdeas idea,
    @generateIdeaEmbedding E
      (CreateIdeaRequest.title (body Samples.request))
      (CreateIdeaRequest.description (body Samples.request))
    = Return embedding
    /\ mapC toSimilarIdea
         (default [] (@query_matches E (records Samples.empty_index)
                        embedding 5))
       = Return similarIdeas
    /\ (0.85 <=? JS.Math_max (map score similarIdeas))%float = true
    /\ rejected (fst run) = false
    /\ fst run = Return (Created idea)
    /\ is_Some (records (snd run) !! "idea-11").
Proof.
  do 3 eexists.
  split; [reflexivity|].
  split; [vm_compute; reflexivity|].
  split; [vm_compute; reflexivity|].
  split; [vm_compute; reflexivity|].
  split; [vm_compute; reflexivity|].
  vm_compute. eexists. reflexivity.
Qed.

(** Only the first of four matches is above [0.85]; the two that follow
    it are sent along. *)
Lemma rejection_diagnostics_unfiltered_witness :
  fst (@ideas (Samples.external Samples.one_conflict) Samples.request
         "idea-11" "2025-03-01T00:00:00.000Z" Samples.empty_index)
  = Return (SimilarIdeaExists
              [("Dependent types, practically", 0.9%float);
               ("Linear types", 0.5%float);
               ("Garbage collection", 0.3%float)])
  /\ (0.5 <? 0.85)%float = true /\ (0.3 <? 0.85)%float = true.
Proof.
  split; [|split; reflexivity].
  assert (exists d,
    fst (@ideas (Samples.external Samples.one_conflict) Samples.request
           "idea-11" "2025-03-01T00:00:00.000Z" Samples.empty_index)
    = Return (SimilarIdeaExists d)) as [d Hd]
    by (vm_compute; eexists; reflexivity).
  rewrite Hd.
  edestruct (@rejection_diagnostics_unfiltered
               (Samples.external Samples.one_conflict) Samples.request
               "idea-11" "2025-03-01T00:00:00.000Z" Samples.empty_index)
    as (-> & _);
    [reflexivity | reflexivity | reflexivity | reflexivity
    | vm_compute; reflexivity | exact Hd |].
  vm_compute. reflexivity.
Defined.

End IdeasApiFacts.

(** ** The Selection Algorithm *)

Module CronPublishFacts.
Import Embedder VectorDb Embeddings CronPublish Selection.

Lemma In_insert_sorted {A : Type} (compare : A -> A -> JS.number) x y l :
  In x (insert_sorted compare y l) <-> x = y \/ In x l.
Proof.
  induction l as [|z l IH]; cbn [insert_sorted In].
  - intuition.
  - destruct (0 <? compare y z)%float; cbn [In]; rewrite ?IH; intuition.
Qed.

(** Sorting neither adds nor loses an element. *)
Lemma In_Array_sort {A : Type} (compare : A -> A -> JS.number) x l :
  In x (Array_sort compare l) <-> In x l.
Proof.
  induction l as [|y l IH]; [reflexivity|].
  cbn [Array_sort fold_right In]. rewrite In_insert_sorted.
  fold (Array_sort compare l). rewrite IH. intuition.
Qed.

Lemma In_unusedIdeas idea allIdeas :
  In idea (unusedIdeas allIdeas)
  <-> In idea allIdeas /\ BlogIdea.used idea = false.
Proof.
  unfold unusedIdeas. rewrite filter_In, negb_true_iff. reflexivity.
Qed.

Section WithExternal.
Context `{External}.

Lemma In_usedIdeas idea allIdeas :
  In idea (usedIdeas allIdeas) ->
  In idea allIdeas /\ has_usedAt idea = true.
Proof.
  unfold usedIdeas. intros Hin. apply ListFacts.In_take in Hin.
  apply In_Array_sort in Hin. by apply filter_In in Hin.
Qed.

(** The loop returns the idea it started from or one it went through. *)
Lemma select_loop_In recentEmbeddings ideas : forall selected m r,
  select_loop recentEmbeddings ideas selected m = Return r ->
  r = selected \/ In r ideas.
Proof.
  induction ideas as [|idea ideas IH]; intros selected m r Hloop.
  - injection Hloop as <-. by left.
  - cbn [select_loop] in Hloop.
    destruct (maxSimilarity recentEmbeddings idea) as [ms|msg];
      [|discriminate Hloop].
    destruct (ms <? m)%float; apply IH in Hloop as [-> | Hin];
      cbn [In]; auto.
Qed.

Lemma Promise_all_Return {A B : Type} (f : A -> Completion B) l ys :
  mapC f l = Return ys -> Promise_all f l = Return ys.
Proof. intros Hmap. unfold Promise_all. by rewrite Hmap. Qed.

Lemma selectNext_In allIdeas random idea :
  selectNext allIdeas random = Return (Some idea) ->
  In idea (unusedIdeas allIdeas).
Proof.
  unfold selectNext.
  destruct (unusedIdeas allIdeas) as [|first rest] eqn:Hunused;
    [discriminate|].
  destruct (usedIdeas allIdeas) as [|recent recents].
  - destruct (JS.floor_index _) as [i|]; [|discriminate].
    intros [= Hi]. exact (ListFacts.lookup_In _ _ _ Hi).
  - unfold Promise_all.
    destruct (mapC embed (recent :: recents)) as [re|msg]; [|discriminate].
    cbn [mbind Completion_bind].
    destruct (select_loop re (first :: rest) first 1%float) as [r|msg] eqn:Hloop;
      [|discriminate].
    cbn [mbind Completion_bind]. intros [= <-].
    apply select_loop_In in Hloop as [-> | Hin]; [by left | exact Hin].
Qed.

(** [selectUniqueIdea] is [selectNext] on what [getAllIdeas] lists. *)
Lemma selectUniqueIdea_selectNext random s allIdeas s' :
  getAllIdeas s = (Return allIdeas, s') ->
  selectUniqueIdea random s = (selectNext allIdeas random, s').
Proof.
  intros Hall. unfold selectUniqueIdea, mbind, M_bind. by rewrite Hall.
Qed.

(** C4. Whatever the pool, the random draw and the collaborators, an idea
    that [selectNext] returns, on the cold-start branch or on the min-max
    branch, is a member of the pool whose [used] flag is [false]; so an idea
    whose flag is [true] is never the one returned. *)
Theorem selectNext_never_returns_used
  (allIdeas : list BlogIdea.t) (random : JS.number) (idea : BlogIdea.t) :
  selectNext allIdeas random = Return (Some idea) ->
  BlogIdea.used idea = false
  /\ In idea allIdeas
  /\ (forall other, BlogIdea.used other = true -> idea <> other).
Proof.
  intros Hsel. apply selectNext_In, In_unusedIdeas in Hsel as [Hin Hused].
  repeat split; try assumption.
  intros other Hother ->. congruence.
Qed.

Lemma unusedIdeas_without allIdeas :
  unusedIdeas
    (List.filter (fun i => negb (used_without_usedAt i)) allIdeas)
  = unusedIdeas allIdeas.
Proof.
  apply ListFacts.filter_filter. intros i Hi. unfold used_without_usedAt.
  apply negb_true_iff in Hi. by rewrite Hi.
Qed.

Lemma usedIdeas_without allIdeas :
  usedIdeas
    (List.filter (fun i => negb (used_without_usedAt i)) allIdeas)
  = usedIdeas allIdeas.
Proof.
  unfold usedIdeas. f_equal. f_equal.
  apply ListFacts.filter_filter. intros i. unfold has_usedAt, used_without_usedAt.
  destruct (BlogIdea.used i), (BlogIdea.usedAt i); done.
Qed.

(** C10. An idea whose [used] flag is [true] and whose [usedAt] is absent
    is in neither partition: it is not among the unused candidates, so it
    is never returned, and it is not among the recently used ideas.
    Dropping every such idea from the pool leaves both partitions, hence
    every maximum similarity and the outcome of the selection, as they
    were. *)
Theorem used_without_usedAt_is_ignored
  (allIdeas : list BlogIdea.t) (random : JS.number) (idea : BlogIdea.t) :
  BlogIdea.used idea = true ->
  BlogIdea.usedAt idea = None ->
  ~ In idea (unusedIdeas allIdeas)
  /\ ~ In idea (usedIdeas allIdeas)
  /\ selectNext allIdeas random <> Return (Some idea)
  /\ (let others :=
        List.filter (fun i => negb (used_without_usedAt i)) allIdeas in
      unusedIdeas others = unusedIdeas allIdeas
      /\ usedIdeas others = usedIdeas allIdeas
      /\ selectNext others random = selectNext allIdeas random).
Proof.
  intros Hused HusedAt.
  assert (~ In idea (unusedIdeas allIdeas)) as Hunused.
  { rewrite In_unusedIdeas. intros [_ Hfalse]. congruence. }
  split; [exact Hunused|]. split; [|split].
  - intros Hin. apply In_usedIdeas in Hin as [_ Hhas].
    unfold has_usedAt in Hhas. rewrite HusedAt, andb_false_r in Hhas.
    discriminate.
  - intros Hsel. by apply selectNext_In in Hsel.
  - cbv zeta. split; [apply unusedIdeas_without|].
    split; [apply usedIdeas_without|].
    unfold selectNext. by rewrite unusedIdeas_without, usedIdeas_without.
Qed.

(** *** The min-max branch *)

Lemma mapC_total {A B : Type} (f : A -> Completion B) (P : B -> Prop) l :
  (forall x, In x l -> exists y, f x = Return y /\ P y) ->
  exists ys, mapC f l = Return ys /\ Forall P ys.
Proof.
  induction l as [|x l IH]; intros Hf.
  - exists []. split; [reflexivity | constructor].
  - destruct (Hf x) as (y & Hy & HP); [by left|].
    destruct IH as (ys & Hys & HPs); [intros z Hz; apply Hf; by right|].
    exists (y :: ys). cbn [mapC]. rewrite Hy, Hys.
    split; [reflexivity | by constructor].
Qed.

Lemma embed_total dim idea :
  provider_ok dim -> exists v, embed idea = Return v /\ length v = dim.
Proof. intros Hp. apply Hp. Qed.

Lemma cosineSimilarity_total a b :
  length a = length b -> exists x, cosineSimilarity a b = Return x.
Proof.
  intros Hlen. unfold cosineSimilarity. rewrite Hlen, Nat.eqb_refl.
  cbn [negb]. destruct (_ || _); eauto.
Qed.

(** With a pipeline that always answers with [dim] components, the
    maximum similarity of every idea is computed. *)
Lemma maxSimilarity_total dim recentEmbeddings idea :
  provider_ok dim ->
  Forall (fun e => length e = dim) recentEmbeddings ->
  maxSimilarity recentEmbeddings idea
  = Return (maxSim recentEmbeddings idea).
Proof.
  intros Hp Hre. unfold maxSim, maxSimilarity.
  destruct (embed_total dim idea Hp) as (v & -> & Hv).
  cbn [mbind Completion_bind].
  destruct (mapC_total (fun e => cosineSimilarity v e) (fun _ => True)
              recentEmbeddings) as (sims & -> & _); [|reflexivity].
  intros e He. rewrite Forall_forall in Hre.
  destruct (cosineSimilarity_total v e) as [x Hx]; [|eauto].
  rewrite Hv. symmetry. by apply Hre, list_elem_of_In.
Qed.

Section Loop.
Variable recentEmbeddings : list (list JS.number).
Hypothesis scores :
  forall c, maxSimilarity recentEmbeddings c
            = Return (maxSim recentEmbeddings c).

Let ms := maxSim recentEmbeddings.

(** What the loop returns from the state [(selected, m)]: either no
    candidate was strictly below [m] and [selected] is kept, or the result
    is a candidate strictly below [m], every candidate before it is
    neither below nor level with it, and no candidate after it is strictly
    below it. *)
Lemma select_loop_spec ideas : forall selected m,
  exists r,
    select_loop recentEmbeddings ideas selected m = Return r
    /\ ((r = selected
         /\ forall c, In c ideas -> (ms c <? m)%float = false)
        \/ (exists l1 l2,
              ideas = (l1 ++ r :: l2)%list
              /\ (ms r <? m)%float = true
              /\ (forall c, In c l1 -> (ms c <=? ms r)%float = false)
              /\ (forall c, In c l2 -> (ms c <? ms r)%float = false))).
Proof.
  induction ideas as [|idea ideas IH]; intros selected m.
  - exists selected. split; [reflexivity|]. left. split; [reflexivity|].
    intros c [].
  - cbn [select_loop]. rewrite scores. fold (ms idea).
    destruct (ms idea <? m)%float eqn:Hlt.
    + destruct (IH idea (ms idea)) as (r & -> & Hspec). exists r.
      split; [reflexivity|]. right.
      destruct Hspec as [[-> Hrest] | (l1 & l2 & -> & Hr & Hl1 & Hl2)].
      * exists [], ideas. repeat split; try done.
      * exists (idea :: l1), l2. repeat split.
        -- eapply FloatFacts.ltb_trans; eauto.
        -- intros c [<- | Hc]; [by apply FloatFacts.ltb_not_leb | by apply Hl1].
        -- exact Hl2.
    + destruct (IH selected m) as (r & -> & Hspec). exists r.
      split; [reflexivity|].
      destruct Hspec as [[-> Hrest] | (l1 & l2 & -> & Hr & Hl1 & Hl2)].
      * left. split; [reflexivity|]. intros c [<- | Hc]; [done | by apply Hrest].
      * right. exists (idea :: l1), l2. repeat split; try done.
        intros c [<- | Hc]; [|by apply Hl1].
        destruct (ms idea <=? ms r)%float eqn:Hle; [|reflexivity].
        rewrite (FloatFacts.leb_ltb_trans _ _ _ Hle Hr) in Hlt. discriminate.
Qed.

(** The loop started from the first candidate with the bound [1]. *)
Lemma select_loop_from_first first rest r :
  select_loop recentEmbeddings (first :: rest) first 1%float = Return r ->
  (exists k,
     (first :: rest) !! k = Some r
     /\ forall j c, (first :: rest) !! j = Some c ->
         (ms c <=? ms r)%float = true -> (k <= j)%nat)
  /\ (((exists c, In c (first :: rest) /\ (ms c <? 1)%float = true)
       \/ (forall c, In c (first :: rest) -> (ms c <=? 1)%float = true)) ->
      forall c, In c (first :: rest) ->
        (ms c <? ms r)%float = false
        /\ (is_nan (ms c) = false -> (ms r <=? ms c)%float = true)).
Proof.
  intros Hloop.
  destruct (select_loop_spec (first :: rest) first 1%float)
    as (r' & Hloop' & Hspec).
  rewrite Hloop in Hloop'. injection Hloop' as <-.
  destruct Hspec as [[-> Hnone] | (l1 & l2 & Hsplit & Hr & Hl1 & Hl2)].
  - split.
    + exists 0%nat. split; [reflexivity|]. intros; lia.
    + intros [(c & Hc & Hlt) | Hle] c' Hc'.
      { rewrite (Hnone c Hc) in Hlt. discriminate. }
      assert ((ms c' <? ms first)%float = false) as Hmin.
      { destruct (ms c' <? ms first)%float eqn:E; [|reflexivity].
        rewrite <- (Hnone c' Hc'). symmetry.
        eapply FloatFacts.ltb_leb_trans; [exact E|]. apply Hle. by left. }
      split; [exact Hmin|]. intros Hnan.
      apply FloatFacts.not_ltb_leb_numbers; try done.
      eapply FloatFacts.leb_not_nan, Hle. by left.
  - assert (forall c, In c (first :: rest) -> (ms c <? ms r)%float = false)
      as Hmin.
    { intros c. rewrite Hsplit, in_app_iff. intros [Hc | [<- | Hc]].
      - by apply FloatFacts.not_leb_not_ltb, Hl1.
      - apply FloatFacts.ltb_irrefl.
      - by apply Hl2. }
    split.
    + exists (length l1). rewrite Hsplit. split; [apply list_lookup_middle; done|].
      intros j c Hj Hle. destruct (decide (j < length l1)%nat) as [Hlt|]; [|lia].
      rewrite lookup_app_l in Hj by exact Hlt.
      apply ListFacts.lookup_In in Hj. rewrite (Hl1 c Hj) in Hle. discriminate.
    + intros _ c Hc. split; [by apply Hmin|]. intros Hnan.
      apply FloatFacts.not_ltb_leb_numbers; try done; [|by apply Hmin].
      eapply FloatFacts.ltb_not_nan, Hr.
Qed.

End Loop.

(** The min-max branch runs to completion when the pipeline answers. *)
Lemma selectNext_warm allIdeas random dim :
  provider_ok dim ->
  unusedIdeas allIdeas <> [] ->
  usedIdeas allIdeas <> [] ->
  (forall c, maxSimilarity (recentEmbeddings allIdeas) c
             = Return (score_in allIdeas c))
  /\ exists first rest selected,
       unusedIdeas allIdeas = first :: rest
       /\ select_loop (recentEmbeddings allIdeas) (first :: rest) first 1%float
          = Return selected
       /\ selectNext allIdeas random = Return (Some selected).
Proof.
  intros Hp Hunused Hused.
  destruct (mapC_total embed (fun e => length e = dim) (usedIdeas allIdeas))
    as (re & Hre & Hdim); [intros x _; by apply embed_total|].
  assert (recentEmbeddings allIdeas = re) as Hrecent
    by (unfold recentEmbeddings; by rewrite Hre).
  assert (forall c, maxSimilarity (recentEmbeddings allIdeas) c
                    = Return (score_in allIdeas c)) as Hscores.
  { intros c. unfold score_in. rewrite Hrecent.
    by apply (maxSimilarity_total dim). }
  split; [exact Hscores|].
  destruct (unusedIdeas allIdeas) as [|first rest] eqn:Hu; [done|].
  destruct (select_loop_spec (recentEmbeddings allIdeas) Hscores
              (first :: rest) first 1%float) as (r & Hloop & _).
  exists first, rest, r. split; [reflexivity|]. split; [exact Hloop|].
  unfold selectNext. rewrite Hu.
  destruct (usedIdeas allIdeas) as [|recent recents]; [done|].
  rewrite (Promise_all_Return _ _ _ Hre). cbn [mbind Completion_bind].
  rewrite <- Hrecent, Hloop. reflexivity.
Qed.

(** The score of a candidate against a single recent idea. *)
Lemma score_in_single allIdeas R r c v x :
  usedIdeas allIdeas = [R] ->
  embed R = Return r -> embed c = Return v ->
  cosineSimilarity v r = Return x ->
  score_in allIdeas c = JS.Math_max [x].
Proof.
  intros Hused HR Hc Hx.
  unfold score_in, recentEmbeddings, maxSim, maxSimilarity.
  rewrite Hused. cbn [mapC]. rewrite HR, Hc.
  cbn [mbind Completion_bind mapC]. rewrite Hx. reflexivity.
Qed.

(** Where the loop does find the minimum.  The recent ideas are at most
    five ideas of the pool that are marked used and carry a [usedAt].
    When every [usedAt] is a valid date, the embedding pipeline answers
    with vectors of one length, the
    pool has an unused idea and a recently used one, and the computed
    maximum similarities stay within the bound the loop starts from (one
    of them is strictly below [1], or all of them are at most [1]),
    [selectNext] returns an unused candidate whose maximum similarity to
    the recent ideas is minimal: no candidate is strictly below it and it
    is at most every candidate that has a score.  In particular, with the
    two candidates [A] and [B] and the single recent idea [R], where the
    similarity of [A] to [R] is [0.9] and that of [B] is [0.2], it returns
    [B]. *)
Theorem selectNext_minimizes
  (allIdeas : list BlogIdea.t) (random : JS.number) (dim : nat) :
  MoreAux.valid_dates allIdeas ->
  provider_ok dim ->
  unusedIdeas allIdeas <> [] ->
  usedIdeas allIdeas <> [] ->
  scores_bounded allIdeas ->
  (length (usedIdeas allIdeas) <= 5)%nat
  /\ (forall r, In r (usedIdeas allIdeas) ->
       In r allIdeas /\ BlogIdea.used r = true
       /\ BlogIdea.usedAt r <> None)
  /\ exists selected,
    selectNext allIdeas random = Return (Some selected)
    /\ In selected (unusedIdeas allIdeas)
    /\ minimal allIdeas selected
    /\ (forall A B R a b r,
          unusedIdeas allIdeas = [A; B] \/ unusedIdeas allIdeas = [B; A] ->
          usedIdeas allIdeas = [R] ->
          embed A = Return a -> embed B = Return b -> embed R = Return r ->
          cosineSimilarity a r = Return 0.9%float ->
          cosineSimilarity b r = Return 0.2%float ->
          selected = B).
Proof.
  intros _ Hp Hunused Hused Hbounded.
  destruct (selectNext_warm allIdeas random dim Hp Hunused Hused)
    as (Hscores & first & rest & selected & Hu & Hloop & Hsel).
  destruct (select_loop_from_first _ Hscores first rest selected Hloop)
    as ((k & Hk & _) & Hmin).
  assert (minimal allIdeas selected) as Hminimal.
  { unfold minimal. rewrite Hu. apply Hmin.
    unfold scores_bounded in Hbounded. by rewrite Hu in Hbounded. }
  assert (In selected (unusedIdeas allIdeas)) as Hin.
  { rewrite Hu. exact (ListFacts.lookup_In _ _ _ Hk). }
  split; [apply firstn_le_length|]. split.
  { intros r Hr. apply In_usedIdeas in Hr as [Hr Hhas].
    unfold has_usedAt in Hhas. apply andb_prop in Hhas as [Hhas1 Hhas2].
    repeat split; try assumption.
    destruct (BlogIdea.usedAt r); [discriminate | discriminate Hhas2]. }
  exists selected.
  split; [exact Hsel|]. split; [exact Hin|]. split; [exact Hminimal|].
  intros A B R a b r HAB HR Ha Hb Hr HsimA HsimB.
  assert (score_in allIdeas A = 0.9%float) as HA
    by (rewrite (score_in_single allIdeas R r A a _ HR Hr Ha HsimA);
        reflexivity).
  assert (score_in allIdeas B = 0.2%float) as HB
    by (rewrite (score_in_single allIdeas R r B b _ HR Hr Hb HsimB);
        reflexivity).
  assert (In B (unusedIdeas allIdeas)) as HinB
    by (destruct HAB as [-> | ->]; cbn; auto).
  assert (selected = A \/ selected = B) as [-> | ->]; [|  |reflexivity].
  { destruct HAB as [HAB | HAB]; rewrite HAB in Hin; cbn in Hin;
      intuition. }
  destruct (Hminimal B HinB) as [Hlt _]. rewrite HA, HB in Hlt.
  discriminate Hlt.
Qed.

(** Under the same conditions the idea returned is a
    candidate of minimal maximum similarity that comes first among its
    equals: every candidate level with it stands at its position in the
    sequence of unused ideas or later.  It is what the loop yields when
    started from the first unused idea with the bound [1], and an
    iteration replaces the running best exactly when the candidate's
    maximum similarity is strictly below the running minimum. *)
Theorem selectNext_keeps_earliest
  (allIdeas : list BlogIdea.t) (random : JS.number) (dim : nat) :
  MoreAux.valid_dates allIdeas ->
  provider_ok dim ->
  unusedIdeas allIdeas <> [] ->
  usedIdeas allIdeas <> [] ->
  scores_bounded allIdeas ->
  exists selected k first rest,
    selectNext allIdeas random = Return (Some selected)
    /\ unusedIdeas allIdeas !! k = Some selected
    /\ minimal allIdeas selected
    /\ (forall j c,
          unusedIdeas allIdeas !! j = Some c ->
          (score_in allIdeas c =? score_in allIdeas selected)%float = true ->
          (k <= j)%nat)
    /\ unusedIdeas allIdeas = first :: rest
    /\ select_loop (recentEmbeddings allIdeas) (first :: rest) first 1%float
       = Return selected
    /\ (forall idea ideas best m,
          select_loop (recentEmbeddings allIdeas) (idea :: ideas) best m
          = if (score_in allIdeas idea <? m)%float
            then select_loop (recentEmbeddings allIdeas) ideas idea
                   (score_in allIdeas idea)
            else select_loop (recentEmbeddings allIdeas) ideas best m).
Proof.
  intros _ Hp Hunused Hused Hbounded.
  destruct (selectNext_warm allIdeas random dim Hp Hunused Hused)
    as (Hscores & first & rest & selected & Hu & Hloop & Hsel).
  destruct (select_loop_from_first _ Hscores first rest selected Hloop)
    as ((k & Hk & Hearliest) & Hmin).
  exists selected, k, first, rest. rewrite Hu.
  split; [exact Hsel|]. split; [exact Hk|]. split; [|split; [|split; [|split]]].
  - unfold minimal. rewrite Hu. apply Hmin.
    unfold scores_bounded in Hbounded. by rewrite Hu in Hbounded.
  - intros j c Hj Heq. apply (Hearliest j c Hj).
    by apply FloatFacts.eqb_leb.
  - reflexivity.
  - exact Hloop.
  - intros idea ideas best m. cbn [select_loop]. by rewrite Hscores.
Qed.

End WithExternal.

(** *** Runs on sample pools *)

Lemma offline_provider_ok : @provider_ok Samples.offline 3.
Proof.
  intros text. exists (Samples.vector_of text). split; [reflexivity|].
  unfold Samples.vector_of.
  repeat match goal with |- context [if ?b then _ else _] => destruct b end;
    reflexivity.
Qed.

(** A cold start: nothing carries a [usedAt], the draw [0.7] picks the
    second of the two unused ideas. *)
Lemma selectNext_never_returns_used_witness :
  @selectNext Samples.offline [Samples.U; Samples.A; Samples.B] 0.7%float
  = Return (Some Samples.B)
  /\ BlogIdea.used Samples.B = false
  /\ In Samples.B [Samples.U; Samples.A; Samples.B].
Proof.
  assert (@selectNext Samples.offline [Samples.U; Samples.A; Samples.B]
            0.7%float = Return (Some Samples.B)) as Hsel
    by (vm_compute; reflexivity).
  split; [exact Hsel|].
  destruct (@selectNext_never_returns_used Samples.offline
              [Samples.U; Samples.A; Samples.B] 0.7%float Samples.B Hsel)
    as (Hused & Hin & _).
  split; [exact Hused | exact Hin].
Defined.

(** The idea [U] is marked used and has no [usedAt]. *)
Lemma used_without_usedAt_is_ignored_witness :
  ~ In Samples.U (unusedIdeas [Samples.U; Samples.A; Samples.B; Samples.R1])
  /\ ~ In Samples.U
        (@usedIdeas Samples.offline
           [Samples.U; Samples.A; Samples.B; Samples.R1])
  /\ @selectNext Samples.offline [Samples.A; Samples.B; Samples.R1] 0.5%float
     = @selectNext Samples.offline
         [Samples.U; Samples.A; Samples.B; Samples.R1] 0.5%float.
Proof.
  destruct (@used_without_usedAt_is_ignored Samples.offline
              [Samples.U; Samples.A; Samples.B; Samples.R1] 0.5%float
              Samples.U eq_refl eq_refl)
    as (Hunused & Hrecent & _ & _ & _ & Hsame).
  split; [exact Hunused|]. split; [exact Hrecent | exact Hsame].
Defined.

(** With one recent idea, the candidate unrelated to it is chosen. *)
Lemma selectNext_minimizes_witness :
  @scores_bounded Samples.offline [Samples.B; Samples.D; Samples.R2]
  /\ @selectNext Samples.offline [Samples.B; Samples.D; Samples.R2] 0.5%float
     = Return (Some Samples.D)
  /\ @minimal Samples.offline [Samples.B; Samples.D; Samples.R2] Samples.D.
Proof.
  assert (@scores_bounded Samples.offline [Samples.B; Samples.D; Samples.R2])
    as Hbounded.
  { right. intros c [<- | [<- | []]]; vm_compute; reflexivity. }
  split; [exact Hbounded|].
  destruct (@selectNext_minimizes Samples.offline
              [Samples.B; Samples.D; Samples.R2] 0.5%float 3)
    as (_ & _ & selected & Hsel & _ & Hmin & _);
    [ intros idea [<- | [<- | [<- | []]]] Hhas;
        try discriminate Hhas; vm_compute; reflexivity
    | exact offline_provider_ok
    | discriminate | discriminate | exact Hbounded |].
  assert (selected = Samples.D) as ->
    by (vm_compute in Hsel; injection Hsel as <-; reflexivity).
  split; [exact Hsel | exact Hmin].
Defined.

(** C2. The loop misses the minimum it looks for when rounding lifts a
    cosine above [1], the bound it starts from.  In this pool the
    candidate [A] repeats the recent idea [R1] and scores
    [1.0000000000000002], the candidate [B] repeats [R2] and scores [1];
    neither is strictly below [1], so the first one, [A], is returned
    although [B] is strictly below it: the idea returned is not of
    minimal maximum similarity. *)
Lemma selectNext_not_minimal :
  let pool := [Samples.A; Samples.B; Samples.R1; Samples.R2] in
  unusedIdeas pool = [Samples.A; Samples.B]
  /\ @usedIdeas Samples.offline pool = [Samples.R2; Samples.R1]
  /\ @selectNext Samples.offline pool 0.5%float = Return (Some Samples.A)
  /\ @score_in Samples.offline pool Samples.A = 1.0000000000000002%float
  /\ @score_in Samples.offline pool Samples.B = 1%float
  /\ (@score_in Samples.offline pool Samples.B
      <? @score_in Samples.offline pool Samples.A)%float = true
  /\ ~ @minimal Samples.offline pool Samples.A.
Proof.
  cbv zeta.
  do 6 (split; [vm_compute; reflexivity|]).
  intros Hmin. destruct (Hmin Samples.B) as [Hlt _].
  - right. left. reflexivity.
  - vm_compute in Hlt. discriminate Hlt.
Qed.

(** Two candidates level at a score below [1]: the first of them is
    returned. *)
Lemma selectNext_keeps_earliest_witness :
  @scores_bounded Samples.offline [Samples.B; Samples.C; Samples.R1]
  /\ @selectNext Samples.offline [Samples.B; Samples.C; Samples.R1] 0.5%float
     = Return (Some Samples.B)
  /\ (@score_in Samples.offline [Samples.B; Samples.C; Samples.R1] Samples.C
      =? @score_in Samples.offline [Samples.B; Samples.C; Samples.R1] Samples.B)%float
     = true.
Proof.
  assert (@scores_bounded Samples.offline [Samples.B; Samples.C; Samples.R1])
    as Hbounded.
  { right. intros c [<- | [<- | []]]; vm_compute; reflexivity. }
  split; [exact Hbounded|].
  destruct (@selectNext_keeps_earliest Samples.offline
              [Samples.B; Samples.C; Samples.R1] 0.5%float 3)
    as (selected & k & first & rest & Hsel & _);
    [ intros idea [<- | [<- | [<- | []]]] Hhas;
        try discriminate Hhas; vm_compute; reflexivity
    | exact offline_provider_ok
    | discriminate | discriminate | exact Hbounded |].
  assert (selected = Samples.B) as ->
    by (vm_compute in Hsel; injection Hsel as <-; reflexivity).
  split; [exact Hsel | vm_compute; reflexivity].
Defined.

(** C3. The same slip breaks the tie-break: in this pool [B] and [C]
    are level at [1], the least of the three scores, and [B] is the
    earlier of the two; the idea returned is [A], whose score is
    [1.0000000000000002] and which is not one of the candidates that
    attain the minimum. *)
Lemma selectNext_not_earliest_of_minimal :
  let pool := [Samples.A; Samples.B; Samples.C; Samples.R1; Samples.R2] in
  unusedIdeas pool = [Samples.A; Samples.B; Samples.C]
  /\ @usedIdeas Samples.offline pool = [Samples.R2; Samples.R1]
  /\ @score_in Samples.offline pool Samples.A = 1.0000000000000002%float
  /\ @score_in Samples.offline pool Samples.B = 1%float
  /\ @score_in Samples.offline pool Samples.C = 1%float
  /\ @minimal Samples.offline pool Samples.B
  /\ @selectNext Samples.offline pool 0.5%float = Return (Some Samples.A)
  /\ Samples.A <> Samples.B.
Proof.
  cbv zeta.
  do 5 (split; [vm_compute; reflexivity|]).
  split; [|split; [vm_compute; reflexivity | discriminate]].
  intros c Hc. cbn [unusedIdeas List.filter] in Hc.
  destruct Hc as [<- | [<- | [<- | []]]]; split;
    try (vm_compute; reflexivity); intros _; vm_compute; reflexivity.
Qed.

End CronPublishFacts.

(** * Further properties of the code *)

(** ** [cosineSimilarity] and [isIdeaUnique] *)

Module MoreEmbeddingsFacts.
Import JS Embeddings MoreAux.

Lemma SFmul_comm prec emax x y : SFmul prec emax x y = SFmul prec emax y x.
Proof.
  destruct x as [sx|sx| |sx mx ex], y as [sy|sy| |sy my ey]; cbn [SFmul];
    rewrite ?(xorb_comm sx sy), ?(Pos.mul_comm mx my), ?(Z.add_comm ex ey);
    reflexivity.
Qed.

Lemma mul_comm (x y : float) : (x * y = y * x)%float.
Proof.
  apply Prim2SF_inj. rewrite !mul_spec. apply SFmul_comm.
Qed.

Lemma cosine_sums_swap a : forall b acc,
  fold_left cosine_step (combine b a) (swap acc)
  = swap (fold_left cosine_step (combine a b) acc).
Proof.
  induction a as [|x a IH]; intros [|y b] acc; try reflexivity.
  cbn [combine fold_left]. rewrite <- IH. f_equal.
  unfold swap, cosine_step. cbn. by rewrite (mul_comm y x).
Qed.

(** X1. Cosine similarity is symmetric, to the last bit: swapping the two
    vectors gives the same number, or the same error. *)
Theorem cosineSimilarity_symmetric (a b : list number) :
  cosineSimilarity a b = cosineSimilarity b a.
Proof.
  unfold cosineSimilarity, cosine_sums. rewrite (Nat.eqb_sym (length b)).
  destruct (length a =? length b)%nat; [|reflexivity]. cbn [negb].
  pose proof (cosine_sums_swap a b (mkSums 0%float 0%float 0%float)) as Hswap.
  change (swap (mkSums 0%float 0%float 0%float))
    with (mkSums 0%float 0%float 0%float) in Hswap.
  rewrite Hswap. cbn [swap dotProduct magnitudeA magnitudeB].
  rewrite (orb_comm (sqrt _ =? 0)%float), (mul_comm (sqrt (magnitudeB _))).
  reflexivity.
Qed.

(** X2. [cosineSimilarity] throws exactly when the two vectors differ in
    length, with the message [Vectors must have the same length]; on
    vectors of one length it always returns a number. *)
Theorem cosineSimilarity_throws_iff (a b : list number) :
  (length a <> length b ->
   cosineSimilarity a b = Throw "Vectors must have the same length")
  /\ (length a = length b -> exists x, cosineSimilarity a b = Return x)
  /\ ((exists msg, cosineSimilarity a b = Throw msg) <-> length a <> length b).
Proof.
  assert (length a <> length b ->
          cosineSimilarity a b = Throw "Vectors must have the same length")
    as Hthrow.
  { intros Hne. unfold cosineSimilarity.
    apply Nat.eqb_neq in Hne. by rewrite Hne. }
  assert (length a = length b -> exists x, cosineSimilarity a b = Return x)
    as Hreturn.
  { intros Heq. unfold cosineSimilarity. rewrite Heq, Nat.eqb_refl.
    cbn [negb]. destruct (_ || _); eauto. }
  split; [exact Hthrow|]. split; [exact Hreturn|]. split.
  - intros [msg Hmsg] Heq. destruct (Hreturn Heq) as [x Hx]. congruence.
  - intros Hne. eauto.
Qed.

Lemma leb_neq_ltb a b :
  (a <=? b)%float = true -> (a =? b)%float = false -> (a <? b)%float = true.
Proof.
  rewrite FloatFacts.leb_rank, FloatFacts.eqb_rank_eq, FloatFacts.ltb_rank.
  unfold FloatOrder.rank_test.
  intros (ka & kb & -> & -> & Hle) Hne. exists ka, kb. repeat split.
  destruct (FloatOrder.lex_compare ka kb); congruence.
Qed.

Lemma eqb_not_ltb a b :
  (a =? b)%float = true ->
  (a <? b)%float = false /\ (b <? a)%float = false.
Proof.
  intros Heq.
  pose proof (FloatFacts.eqb_leb _ _ Heq) as Hab.
  pose proof (FloatFacts.eqb_leb _ _ (FloatFacts.eqb_sym _ _ Heq)) as Hba.
  split.
  - destruct (a <? b)%float eqn:Hlt; [|reflexivity].
    by rewrite (FloatFacts.ltb_not_leb _ _ Hlt) in Hba.
  - destruct (b <? a)%float eqn:Hlt; [|reflexivity].
    by rewrite (FloatFacts.ltb_not_leb _ _ Hlt) in Hab.
Qed.

(** X3. The helper [isIdeaUnique] with its default threshold and the test
    of the creation handler ([score > 0.85]) are each other's negation on
    every number except [0.85] itself, where the helper says not unique
    and the handler says not too similar; a [NaN] is never unique. *)
Theorem isIdeaUnique_against_handler_test (m : number) :
  (is_nan m = false -> (m =? 0.85)%float = false ->
   isIdeaUnique m default_threshold = negb (0.85 <? m)%float)
  /\ ((m =? 0.85)%float = true ->
      isIdeaUnique m default_threshold = false /\ (0.85 <? m)%float = false)
  /\ (is_nan m = true -> isIdeaUnique m default_threshold = false).
Proof.
  unfold isIdeaUnique, default_threshold. split; [|split].
  - intros Hnan Hne. destruct (0.85 <? m)%float eqn:Hgt; cbn [negb].
    + destruct (m <? 0.85)%float eqn:Hlt; [|reflexivity].
      pose proof (FloatFacts.ltb_trans _ _ _ Hgt Hlt) as Hirr.
      by rewrite FloatFacts.ltb_irrefl in Hirr.
    + apply leb_neq_ltb; [|exact Hne].
      apply FloatFacts.not_ltb_leb_numbers; done.
  - intros Heq. by apply eqb_not_ltb.
  - intros Hnan. destruct (m <? 0.85)%float eqn:Hlt; [|reflexivity].
    apply FloatFacts.ltb_not_nan in Hlt. congruence.
Qed.

Lemma cosineSimilarity_throws_iff_witness :
  cosineSimilarity [1; 2]%float [1]%float
  = Throw "Vectors must have the same length".
Proof.
  apply (proj1 (cosineSimilarity_throws_iff [1; 2]%float [1]%float)).
  discriminate.
Defined.

Lemma isIdeaUnique_against_handler_test_witness :
  isIdeaUnique 0.9%float default_threshold = negb (0.85 <? 0.9)%float.
Proof.
  apply (proj1 (isIdeaUnique_against_handler_test 0.9%float)); reflexivity.
Defined.

End MoreEmbeddingsFacts.

(** ** The repository over the index *)

Module MoreVectorDbFacts.
Import VectorDb Repository MoreAux.

Lemma string_field_throw md key :
  (forall s, md !! key <> Some (MString s)) ->
  string_field md key = Throw ("ParseError: " ++ key).
Proof.
  intros Hkey. unfold string_field.
  destruct (md !! key) as [[s| | |]|]; try reflexivity.
  by destruct (Hkey s).
Qed.

(** X4. Decoding fails, with a thrown error, as soon as the record has no
    metadata or one of the six fields is missing or is not a string;
    nothing is filled in by default. *)
Theorem metadataToIdea_needs_six_strings
  (id : string) (md : gmap string MetaValue) (key : string) :
  In key metadata_keys ->
  (forall s, md !! key <> Some (MString s)) ->
  (exists msg, metadataToIdea id (Some md) = Throw msg)
  /\ (exists msg, metadataToIdea id None = Throw msg).
Proof.
  intros Hkey Hmissing. split; [|by eexists].
  pose proof (string_field_throw md key Hmissing) as Hthrow.
  unfold metadataToIdea, decodeIdeaMetadata.
  cbn [metadata_keys In] in Hkey.
  destruct Hkey as [<- | [<- | [<- | [<- | [<- | [<- | []]]]]]];
    repeat match goal with
      | |- context [string_field md ?k] =>
          first [ rewrite Hthrow
                | destruct (string_field md k) as [?|?] ];
          cbn [mbind Completion_bind]
      end; eauto.
Qed.

(** X5. Decoding reads the six fields only: a field under any other key
    changes nothing. *)
Theorem metadataToIdea_ignores_other_fields
  (id : string) (md : gmap string MetaValue) (key : string) (v : MetaValue) :
  ~ In key metadata_keys ->
  metadataToIdea id (Some (<[key := v]> md)) = metadataToIdea id (Some md).
Proof.
  intros Hkey. cbn [metadata_keys In] in Hkey.
  unfold metadataToIdea, decodeIdeaMetadata, string_field.
  rewrite !lookup_insert_ne by (intros ->; apply Hkey; tauto).
  reflexivity.
Qed.

Lemma metadataToIdea_needs_six_strings_witness :
  exists msg,
    metadataToIdea "idea-3"
      (Some (delete "createdAt"
               (ideaToMetadata (Samples.idea "idea-3" "Tries" false None))))
    = Throw msg.
Proof.
  apply (metadataToIdea_needs_six_strings "idea-3"
           (delete "createdAt"
              (ideaToMetadata (Samples.idea "idea-3" "Tries" false None)))
           "createdAt").
  - cbn. tauto.
  - intros s. rewrite lookup_delete_eq. discriminate.
Defined.

Lemma metadataToIdea_ignores_other_fields_witness :
  metadataToIdea "idea-3"
    (Some (<["author" := MString "someone"]>
             (ideaToMetadata (Samples.idea "idea-3" "Tries" false None))))
  = Return (Samples.idea "idea-3" "Tries" false None).
Proof.
  rewrite (metadataToIdea_ignores_other_fields "idea-3"
             (ideaToMetadata (Samples.idea "idea-3" "Tries" false None))
             "author" (MString "someone")).
  - reflexivity.
  - cbn. intros [H | [H | [H | [H | [H | [H | []]]]]]]; discriminate H.
Defined.

Lemma or_undefined_or_empty (usedAt : option string) :
  usedAt <> Some EmptyString -> or_undefined (or_empty usedAt) = usedAt.
Proof. destruct usedAt as [[|c t]|]; cbn; congruence. Qed.

Lemma decode_own_metadata id idea :
  BlogIdea.usedAt idea <> Some EmptyString ->
  metadataToIdea id (Some (ideaToMetadata idea))
  = Return (with_id id idea).
Proof.
  intros HusedAt. rewrite VectorDbFacts.metadataToIdea_ideaToMetadata.
  by rewrite or_undefined_or_empty.
Qed.

Lemma with_own_id idea : with_id (BlogIdea.id idea) idea = idea.
Proof. by destruct idea. Qed.

(** X6. What [upsertIdea] stores under the identifier of the idea is read
    back as that idea (when its [usedAt] is absent or not empty) together
    with the embedding given; the records under the other identifiers are
    untouched and a record already under this identifier is replaced. *)
Theorem upsertIdea_then_read
  (idea : BlogIdea.t) (embedding : list JS.number) (s : IndexState) :
  BlogIdea.usedAt idea <> Some EmptyString ->
  exists r,
    records (snd (upsertIdea idea embedding s)) !! BlogIdea.id idea = Some r
    /\ values r = embedding
    /\ metadataToIdea (BlogIdea.id idea) (metadata r) = Return idea
    /\ (forall id, id <> BlogIdea.id idea ->
        records (snd (upsertIdea idea embedding s)) !! id = records s !! id)
    /\ fst (upsertIdea idea embedding s) = Return tt.
Proof.
  intros HusedAt.
  exists {| values := embedding; metadata := Some (ideaToMetadata idea) |}.
  cbn [upsertIdea Index.upsert snd fst records values metadata].
  split; [apply lookup_insert_eq|]. split; [reflexivity|].
  split; [by rewrite decode_own_metadata, with_own_id|].
  split; [|reflexivity]. intros id Hid. by rewrite lookup_insert_ne.
Qed.

Lemma upsertIdea_then_read_witness :
  exists r,
    records (snd (upsertIdea (Samples.idea "idea-3" "Tries" false None)
                    [0.5; 0.25]%float Samples.stored_index)) !! "idea-3"
    = Some r
    /\ values r = [0.5; 0.25]%float
    /\ metadataToIdea "idea-3" (metadata r)
       = Return (Samples.idea "idea-3" "Tries" false None).
Proof.
  destruct (upsertIdea_then_read (Samples.idea "idea-3" "Tries" false None)
              [0.5; 0.25]%float Samples.stored_index)
    as (r & Hr & Hv & Hd & _); [discriminate|].
  exists r. split; [exact Hr|]. split; [exact Hv | exact Hd].
Defined.

(** X7. Storing an idea and then marking it used succeeds on any index:
    the record keeps the embedding that was stored and is read back as the
    idea with [used = true] and [usedAt] the time of the call (a time that
    is not the empty string). *)
Theorem upsertIdea_then_markIdeaAsUsed
  (idea : BlogIdea.t) (embedding : list JS.number) (now : string)
  (s : IndexState) :
  now <> EmptyString ->
  let s1 := snd (upsertIdea idea embedding s) in
  exists r,
    fst (markIdeaAsUsed (BlogIdea.id idea) now s1) = Return tt
    /\ records (snd (markIdeaAsUsed (BlogIdea.id idea) now s1))
         !! BlogIdea.id idea = Some r
    /\ values r = embedding
    /\ metadataToIdea (BlogIdea.id idea) (metadata r)
       = Return (marked now idea).
Proof.
  intros Hnow s1.
  assert (records s1 !! BlogIdea.id idea
          = Some {| values := embedding;
                    metadata := Some (ideaToMetadata idea) |}) as Hr
    by apply lookup_insert_eq.
  rewrite (VectorDbFacts.markIdeaAsUsed_written _ now s1 _ idea Hr eq_refl).
  eexists. cbn [fst snd records]. split; [reflexivity|].
  split; [apply lookup_insert_eq|]. cbn [values metadata].
  split; [reflexivity|].
  rewrite <- (VectorDbFacts.ideaToMetadata_marked (BlogIdea.id idea) idea now).
  rewrite decode_own_metadata.
  - reflexivity.
  - cbn. intros [= ->]. by apply Hnow.
Qed.

Lemma upsertIdea_then_markIdeaAsUsed_witness :
  exists r,
    records (snd (markIdeaAsUsed "idea-3" "2025-04-01T00:00:00.000Z"
                    (snd (upsertIdea (Samples.idea "idea-3" "Tries" false None)
                            [0.5; 0.25]%float Samples.empty_index))))
      !! "idea-3" = Some r
    /\ values r = [0.5; 0.25]%float
    /\ metadataToIdea "idea-3" (metadata r)
       = Return (Samples.idea "idea-3" "Tries" true
                   (Some "2025-04-01T00:00:00.000Z")).
Proof.
  destruct (upsertIdea_then_markIdeaAsUsed
              (Samples.idea "idea-3" "Tries" false None) [0.5; 0.25]%float
              "2025-04-01T00:00:00.000Z" Samples.empty_index)
    as (r & _ & Hr & Hv & Hd); [discriminate|].
  exists r. split; [exact Hr|]. split; [exact Hv | exact Hd].
Defined.

(** X9. [deleteIdea] refuses the empty identifier, without a call and
    without a change.  On any other identifier it succeeds, also when
    nothing is stored under it, in which case the records are unchanged.
    Afterwards the identifier is absent and the other records are as
    before, a second deletion changes nothing, and [markIdeaAsUsed] on it
    throws without writing: the error is [Idea not found] unless the
    identifier is the name of a member of [Object.prototype]. *)
Theorem deleteIdea_then (id : string) (s : IndexState) :
  id <> EmptyString ->
  let s1 := snd (deleteIdea id s) in
  fst (deleteIdea id s) = Return tt
  /\ records s1 !! id = None
  /\ (forall id', id' <> id -> records s1 !! id' = records s !! id')
  /\ (records s !! id = None -> records s1 = records s)
  /\ records (snd (deleteIdea id s1)) = records s1
  /\ (forall now,
        (exists msg,
           fst (markIdeaAsUsed id now s1) = Throw msg
           /\ (~ In id Index.Object_prototype_keys ->
               msg = "Idea not found"))
        /\ records (snd (markIdeaAsUsed id now s1)) = records s1)
  /\ exists msg, deleteIdea EmptyString s = (Throw msg, s).
Proof.
  intros Hid. destruct id as [|c id]; [done|].
  cbn [deleteIdea Index.deleteOne fst snd records].
  split; [reflexivity|]. split; [apply lookup_delete_eq|].
  split; [intros id' Hid'; by rewrite lookup_delete_ne|].
  split; [apply delete_id|]. split; [apply delete_delete_eq|].
  split; [|eexists; reflexivity].
  intros now.
  rewrite VectorDbFacts.markIdeaAsUsed_not_stored
    by (cbn [records]; apply lookup_delete_eq).
  split; [|reflexivity].
  eexists. split; [reflexivity|]. intros Hown.
  rewrite <- VectorDbFacts.inherited_In in Hown.
  by destruct (existsb _ _).
Qed.

Lemma deleteIdea_then_witness :
  records (snd (deleteIdea "idea-2" Samples.stored_index)) !! "idea-2" = None.
Proof.
  apply (deleteIdea_then "idea-2" Samples.stored_index). discriminate.
Defined.

Section Reached.
Context `{External}.

(** X10. [getAllIdeas] only reads: the records are unchanged.  It asks
    the statistics first; when the count is missing or zero it answers the
    empty list without any query, otherwise it makes one query, with the
    zero vector of 384 components and [topK] the lesser of the count and
    10000. *)
Theorem getAllIdeas_calls (s : IndexState) :
  records (snd (getAllIdeas s)) = records s
  /\ (default 0%nat (totalRecordCount (records s)) = 0%nat ->
      getAllIdeas s = (Return [], log CallDescribeIndexStats s))
  /\ (forall n, totalRecordCount (records s) = Some (S n) ->
      calls (snd (getAllIdeas s))
      = (calls s ++ [CallDescribeIndexStats;
                     CallQuery (repeat 0%float 384)
                       (Nat.min (S n) 10000)])%list).
Proof.
  split; [apply VectorDbFacts.getAllIdeas_records|]. split.
  - intros Hzero. unfold getAllIdeas, mbind, M_bind, Index.describeIndexStats.
    by rewrite Hzero.
  - intros n Hn.
    unfold getAllIdeas, mbind, M_bind, Index.describeIndexStats, Index.query,
      liftC, log.
    rewrite Hn. change (default 0%nat (Some (S n))) with (S n).
    change (S n =? 0)%nat with false. cbv beta iota.
    cbn [records calls snd]. by rewrite <- app_assoc.
Qed.

(** A failing element makes the whole map fail. *)
Lemma mapC_throw {A B : Type} (f : A -> Completion B) l x msg :
  In x l -> f x = Throw msg -> exists msg', mapC f l = Throw msg'.
Proof.
  induction l as [|y l IH]; intros Hin Hx; [contradiction|].
  cbn [mapC]. destruct Hin as [-> | Hin].
  - rewrite Hx. eauto.
  - destruct (f y); [|eauto]. destruct (IH Hin Hx) as [msg' ->]. eauto.
Qed.

Lemma mapC_length {A B : Type} (f : A -> Completion B) l : forall ys,
  mapC f l = Return ys -> length ys = length l.
Proof.
  induction l as [|x l IH]; intros ys Hmap.
  - by injection Hmap as <-.
  - cbn [mapC] in Hmap. destruct (f x); [|discriminate].
    destruct (mapC f l); [|discriminate]. injection Hmap as <-.
    cbn. f_equal. by apply IH.
Qed.

Lemma mapC_Return_inv {A B : Type} (f : A -> Completion B) l : forall ys,
  mapC f l = Return ys -> forall x, In x l -> exists y, f x = Return y.
Proof.
  induction l as [|x l IH]; intros ys Hmap z Hz; [contradiction|].
  cbn [mapC] in Hmap. destruct (f x) eqn:Hx; [|discriminate].
  destruct (mapC f l) eqn:Hl; [|discriminate].
  destruct Hz as [<- | Hz]; [eauto | by eapply IH].
Qed.

(** X11. [querySimilarIdeas] answers all or nothing: it returns a list
    exactly when the metadata of every match decodes, and then the list has
    one entry per match; a single match that does not decode makes the
    whole call throw.  The records are never changed and exactly one query
    is made. *)
Theorem querySimilarIdeas_all_or_nothing
  (embedding : list JS.number) (topK : nat) (s : IndexState) :
  let matches := default [] (query_matches (records s) embedding topK) in
  ((exists similar, fst (querySimilarIdeas embedding topK s) = Return similar)
   <-> (forall m, In m matches ->
          exists idea,
            metadataToIdea (match_id m) (match_metadata m) = Return idea))
  /\ (forall similar,
        fst (querySimilarIdeas embedding topK s) = Return similar ->
        length similar = length matches)
  /\ snd (querySimilarIdeas embedding topK s)
     = {| records := records s;
          calls := (calls s ++ [CallQuery embedding topK])%list |}.
Proof.
  intros matches.
  assert (fst (querySimilarIdeas embedding topK s)
          = mapC toSimilarIdea matches) as Hrun by reflexivity.
  rewrite Hrun. split; [split|split].
  - intros [similar Hsim] m Hm.
    destruct (mapC_Return_inv _ _ _ Hsim m Hm) as [y Hy].
    unfold toSimilarIdea in Hy.
    destruct (metadataToIdea (match_id m) (match_metadata m)); [eauto|].
    discriminate Hy.
  - intros Hall.
    destruct (CronPublishFacts.mapC_total toSimilarIdea (fun _ => True)
                matches) as (similar & Hsim & _); [|eauto].
    intros m Hm. destruct (Hall m Hm) as [idea Hidea].
    unfold toSimilarIdea. rewrite Hidea. eauto.
  - intros similar Hsim. by apply mapC_length in Hsim.
  - reflexivity.
Qed.

Lemma mapC_Forall {A B : Type} (f : A -> Completion B) (P : B -> Prop) l :
  forall ys,
  mapC f l = Return ys ->
  (forall x y, In x l -> f x = Return y -> P y) ->
  Forall P ys.
Proof.
  induction l as [|x l IH]; intros ys Hmap HP.
  - injection Hmap as <-. constructor.
  - cbn [mapC] in Hmap. destruct (f x) as [y|] eqn:Hx; [|discriminate].
    destruct (mapC f l) as [ys'|] eqn:Hl; [|discriminate].
    injection Hmap as <-. constructor.
    + apply (HP x); [by left | exact Hx].
    + apply IH; [reflexivity|]. intros x' y' Hx'. apply HP. by right.
Qed.

(** A decoded idea carries the identifier it was decoded under. *)
Lemma metadataToIdea_id id md idea :
  metadataToIdea id md = Return idea -> BlogIdea.id idea = id.
Proof.
  unfold metadataToIdea. destruct (decodeIdeaMetadata md) as [parsed|];
    [|discriminate].
  cbn [mbind Completion_bind].
  destruct (JSON.parse (IdeaMetadata.tags parsed)); [|discriminate].
  by intros [= <-].
Qed.

(** X12. On an index built by the repository and answering queries with
    the records it holds, listing and similarity search never fail: every
    match decodes.  Every idea listed is stored under its identifier, and
    every score returned is a number. *)
Theorem listing_succeeds_on_repository_index (s : IndexState) :
  Reachable s ->
  faithful s ->
  (exists ideas,
     fst (getAllIdeas s) = Return ideas
     /\ Forall (fun idea => is_Some (records s !! BlogIdea.id idea)) ideas)
  /\ (forall embedding topK,
      exists similar,
        fst (querySimilarIdeas embedding topK s) = Return similar
        /\ Forall (fun i => is_nan (score i) = false
                            /\ similar_id i = BlogIdea.id (similar_metadata i)
                            /\ is_Some (records s !! similar_id i))
             similar).
Proof.
  intros Hreach Hfaithful.
  assert (forall vector topK m,
            In m (default [] (query_matches (records s) vector topK)) ->
            exists idea,
              metadataToIdea (match_id m) (match_metadata m) = Return idea
              /\ is_Some (records s !! match_id m)) as Hdecode.
  { intros vector topK m Hm.
    destruct (Hfaithful vector topK m Hm) as (r & Hr & ->).
    destruct (VectorDbFacts.reachable_written s Hreach _ r Hr) as [idea ->].
    rewrite VectorDbFacts.metadataToIdea_ideaToMetadata. eauto. }
  split.
  - unfold getAllIdeas, mbind, M_bind, Index.describeIndexStats, Index.query,
      liftC, log.
    destruct (default 0%nat (totalRecordCount (records s)) =? 0)%nat.
    { exists []. split; [reflexivity | constructor]. }
    cbn [fst records].
    match goal with |- context [mapC ?f ?l] =>
      destruct (CronPublishFacts.mapC_total f (fun _ => True) l)
        as (ideas & Hideas & _)
    end.
    { intros m Hm. destruct (Hdecode _ _ m Hm) as (idea & -> & _). eauto. }
    exists ideas. split; [exact Hideas|].
    eapply mapC_Forall; [exact Hideas|]. intros m idea Hm Hidea. cbv beta in Hidea.
    destruct (Hdecode _ _ m Hm) as (_ & _ & Hstored).
    by rewrite (metadataToIdea_id _ _ _ Hidea).
  - intros embedding topK.
    unfold querySimilarIdeas, mbind, M_bind, Index.query, liftC, log.
    cbn [fst records].
    match goal with |- context [mapC ?f ?l] =>
      destruct (CronPublishFacts.mapC_total f (fun _ => True) l)
        as (similar & Hsimilar & _)
    end.
    { intros m Hm. destruct (Hdecode _ _ m Hm) as (idea & Hidea & _).
      unfold toSimilarIdea. rewrite Hidea. eauto. }
    exists similar. split; [exact Hsimilar|].
    eapply mapC_Forall; [exact Hsimilar|]. intros m i Hm Hi.
    unfold toSimilarIdea in Hi.
    destruct (metadataToIdea (match_id m) (match_metadata m)) as [idea|]
      eqn:Hidea; [|discriminate].
    injection Hi as <-. cbn [score similar_id similar_metadata].
    split; [apply FloatFacts.or_zero_not_nan|].
    split; [by rewrite (metadataToIdea_id _ _ _ Hidea)|].
    by destruct (Hdecode _ _ m Hm) as (_ & _ & Hstored).
Qed.

(** X8. In an index built by the repository, marking an idea used a second
    time succeeds again and overwrites [usedAt]: the records after the two
    calls are those after the second call alone. *)
Theorem markIdeaAsUsed_twice
  (s : IndexState) (id t1 t2 : string) (r : PineconeRecord) :
  Reachable s ->
  records s !! id = Some r ->
  let s1 := snd (markIdeaAsUsed id t1 s) in
  fst (markIdeaAsUsed id t1 s) = Return tt
  /\ fst (markIdeaAsUsed id t2 s1) = Return tt
  /\ records (snd (markIdeaAsUsed id t2 s1))
     = records (snd (markIdeaAsUsed id t2 s)).
Proof.
  intros Hreach Hr s1.
  destruct (VectorDbFacts.reachable_written s Hreach id r Hr) as [idea Hmd].
  pose proof (VectorDbFacts.markIdeaAsUsed_written id t1 s r idea Hr Hmd)
    as Hfirst.
  pose proof (VectorDbFacts.markIdeaAsUsed_written id t2 s r idea Hr Hmd)
    as Hsecond.
  cbv zeta in Hfirst, Hsecond.
  rewrite <- (VectorDbFacts.ideaToMetadata_marked id idea t1) in Hfirst.
  rewrite <- (VectorDbFacts.ideaToMetadata_marked id idea t2) in Hsecond.
  set (idea1 := {| BlogIdea.id := id; BlogIdea.title := BlogIdea.title idea;
                   BlogIdea.description := BlogIdea.description idea;
                   BlogIdea.tags := BlogIdea.tags idea;
                   BlogIdea.createdAt := BlogIdea.createdAt idea;
                   BlogIdea.used := true; BlogIdea.usedAt := Some t1 |})
    in Hfirst.
  set (r1 := {| values := values r;
                metadata := Some (ideaToMetadata idea1) |}) in Hfirst.
  assert (records s1 !! id = Some r1) as Hr1
    by (subst s1; rewrite Hfirst; apply lookup_insert_eq).
  pose proof (VectorDbFacts.markIdeaAsUsed_written id t2 s1 r1 idea1 Hr1
                eq_refl) as Hagain.
  cbv zeta in Hagain.
  rewrite <- (VectorDbFacts.ideaToMetadata_marked id idea1 t2) in Hagain.
  rewrite Hagain, Hsecond. cbn [fst snd records].
  split; [by rewrite Hfirst|]. split; [reflexivity|].
  subst s1. rewrite Hfirst. cbn [snd records].
  by rewrite insert_insert_eq.
Qed.

End Reached.

Lemma in_memory_faithful s : @faithful MoreSamples.in_memory s.
Proof.
  intros vector topK m Hm. cbn [query_matches MoreSamples.in_memory default] in Hm.
  change (In m (take topK (map (MoreSamples.scored_record vector)
                             (map_to_list (records s))))) in Hm.
  apply ListFacts.In_take, in_map_iff in Hm as ([id r] & <- & Hin).
  apply list_elem_of_In, elem_of_map_to_list in Hin.
  exists r. split; [exact Hin | reflexivity].
Qed.

Lemma stored_index_reachable :
  @Reachable MoreSamples.in_memory Samples.stored_index.
Proof.
  unfold Samples.stored_index.
  apply (@reach_step MoreSamples.in_memory); constructor.
Qed.

Lemma markIdeaAsUsed_twice_witness :
  records (snd (markIdeaAsUsed "idea-2" "2025-06-01T00:00:00.000Z"
                  (snd (markIdeaAsUsed "idea-2" "2025-05-01T00:00:00.000Z"
                          Samples.stored_index))))
  = records (snd (markIdeaAsUsed "idea-2" "2025-06-01T00:00:00.000Z"
                    Samples.stored_index)).
Proof.
  apply (@markIdeaAsUsed_twice MoreSamples.in_memory Samples.stored_index
           "idea-2" "2025-05-01T00:00:00.000Z" "2025-06-01T00:00:00.000Z"
           _ stored_index_reachable eq_refl).
Defined.

Lemma listing_succeeds_on_repository_index_witness :
  exists ideas,
    fst (@getAllIdeas MoreSamples.in_memory Samples.stored_index)
    = Return ideas.
Proof.
  destruct (@listing_succeeds_on_repository_index MoreSamples.in_memory
              Samples.stored_index stored_index_reachable
              (in_memory_faithful _)) as ((ideas & Hideas & _) & _).
  exists ideas. exact Hideas.
Defined.

End MoreVectorDbFacts.

(** ** The ideas handler *)

Module MoreIdeasApiFacts.
Import Embedder VectorDb IdeasApi MoreAux.

Lemma option_string_eqb_eq a b : option_string_eqb a b = true <-> a = b.
Proof.
  destruct a as [x|], b as [y|]; cbn; try (split; congruence).
  rewrite String.eqb_eq. split; congruence.
Qed.

Section WithExternal.
Context `{External}.

Lemma catch500_returns (m : M Response) s :
  exists r, fst (catch500 m s) = Return r.
Proof.
  unfold catch500. destruct (m s) as [[r|msg] s']; eauto.
Qed.

(** The outcomes of the [POST] case. *)
Lemma post_cases (req : Request) (newId now : string) (s : IndexState) :
  post req newId now s = (Return ValidationFailed, s)
  \/ (exists msg s',
        post req newId now s = (Throw msg, s') /\ records s' = records s)
  \/ (exists d s',
        post req newId now s = (Return (SimilarIdeaExists d), s')
        /\ records s' = records s)
  \/ (exists idea embedding s',
        post req newId now s = (Return (Created idea), s')
        /\ BlogIdea.id idea = newId
        /\ BlogIdea.used idea = false
        /\ records s'
           = <[newId := {| values := embedding;
                           metadata := Some (ideaToMetadata idea) |}]>
               (records s)).
Proof.
  unfold post. destruct (CreateIdeaRequest.decode (body req)) as [parsed|];
    [|by left].
  right. unfold mbind, M_bind, liftC.
  destruct (generateIdeaEmbedding _ _) as [embedding|msg]; [|left; eauto].
  unfold querySimilarIdeas, mbind, M_bind, Index.query, liftC, log.
  cbn [records].
  destruct (mapC toSimilarIdea _) as [similar|msg]; [|left; eauto].
  destruct (tooSimilar similar).
  - right. left. eauto.
  - right. right. unfold upsertIdea, Index.upsert, mret, M_ret.
    cbn [BlogIdea.id records]. eexists _, embedding, _.
    split; [reflexivity|]. repeat split.
Qed.

Lemma ideas_validated (req : Request) (newId now : string) (s : IndexState) :
  validatePassword req = true ->
  fst (ideas req newId now s) <> Return InvalidPassword.
Proof.
  intros Hvalid. unfold ideas. rewrite Hvalid. cbn [negb]. unfold catch500.
  destruct (String.eqb (method req) "POST").
  { destruct (post_cases req newId now s)
      as [-> | [(msg & s' & -> & _) | [(d & s' & -> & _)
                                      | (idea & e & s' & -> & _)]]];
      discriminate. }
  destruct (String.eqb (method req) "GET").
  { unfold mbind, M_bind. by destruct (getAllIdeas s) as [[l|msg] s']. }
  destruct (String.eqb (method req) "DELETE"); [|discriminate].
  by destruct (query_id req) as [[|c id']|].
Qed.

(** X13. The handler answers [401] exactly when the
    [x-publish-password] header differs from the configured password,
    absence included, whatever the method and the body, and it then makes
    no call on the index.  So with no password configured a request
    without the header is never answered [401], and every request with
    the header is. *)
Theorem ideas_401_iff (req : Request) (newId now : string)
  (s : IndexState) :
  (fst (ideas req newId now s) = Return InvalidPassword
   <-> x_publish_password req <> PUBLISH_PASSWORD)
  /\ (x_publish_password req <> PUBLISH_PASSWORD ->
      ideas req newId now s = (Return InvalidPassword, s))
  /\ (PUBLISH_PASSWORD = None ->
      (fst (ideas req newId now s) = Return InvalidPassword
       <-> x_publish_password req <> None)).
Proof.
  assert (x_publish_password req <> PUBLISH_PASSWORD ->
          ideas req newId now s = (Return InvalidPassword, s)) as Hrefused.
  { intros Hne. unfold ideas.
    destruct (validatePassword req) eqn:Hvalid; [|reflexivity].
    apply option_string_eqb_eq in Hvalid. by destruct Hne. }
  assert (fst (ideas req newId now s) = Return InvalidPassword
          <-> x_publish_password req <> PUBLISH_PASSWORD) as Hiff.
  { split.
    - intros Hanswer Heq. apply option_string_eqb_eq in Heq.
      exact (ideas_validated req newId now s Heq Hanswer).
    - intros Hne. by rewrite (Hrefused Hne). }
  split; [exact Hiff|]. split; [exact Hrefused|].
  intros Hnone. by rewrite <- Hnone.
Qed.

(** X14. The handler always answers, and whatever is thrown while it
    runs becomes a [500] answer that carries the message of the error:
    the error of the embedding pipeline on a valid creation request
    (before any call on the index), the error of the similarity search
    (a match that does not decode), and the error of the listing. *)
Theorem ideas_throw_becomes_500 (req : Request) (newId now : string)
  (s : IndexState) :
  (exists r, fst (ideas req newId now s) = Return r)
  /\ (validatePassword req = true ->
      (forall parsed msg,
         method req = "POST" ->
         CreateIdeaRequest.decode (body req) = Some parsed ->
         generateIdeaEmbedding (CreateIdeaRequest.title parsed)
           (CreateIdeaRequest.description parsed) = Throw msg ->
         ideas req newId now s = (Return (InternalServerError msg), s))
      /\ (forall parsed embedding msg s',
            method req = "POST" ->
            CreateIdeaRequest.decode (body req) = Some parsed ->
            generateIdeaEmbedding (CreateIdeaRequest.title parsed)
              (CreateIdeaRequest.description parsed) = Return embedding ->
            querySimilarIdeas embedding 5 s = (Throw msg, s') ->
            ideas req newId now s = (Return (InternalServerError msg), s'))
      /\ (forall msg s',
            method req = "GET" ->
            getAllIdeas s = (Throw msg, s') ->
            ideas req newId now s = (Return (InternalServerError msg), s'))).
Proof.
  split.
  { unfold ideas. destruct (validatePassword req); cbn [negb].
    - apply catch500_returns.
    - by eexists. }
  intros Hvalid. unfold ideas. rewrite Hvalid. cbn [negb]. unfold catch500.
  split; [|split].
  - intros parsed msg -> Hparsed Hembed. cbn [String.eqb Ascii.eqb Bool.eqb].
    unfold post. rewrite Hparsed. unfold mbind, M_bind, liftC.
    by rewrite Hembed.
  - intros parsed embedding msg s' -> Hparsed Hembed Hquery.
    cbn [String.eqb Ascii.eqb Bool.eqb].
    unfold post. rewrite Hparsed. unfold mbind at 1, M_bind at 1, liftC at 1.
    rewrite Hembed. unfold mbind at 1, M_bind at 1. by rewrite Hquery.
  - intros msg s' -> Hlist. cbn [String.eqb Ascii.eqb Bool.eqb].
    unfold mbind, M_bind. by rewrite Hlist.
Qed.

(** X15. The handler changes the records in two ways only: a [201] answer
    comes with the new idea, unused, stored under the identifier drawn for
    it, and the answer to a deletion comes with the record of the requested
    identifier removed.  Every other answer, a [500] included, leaves the
    records as they were: a creation that fails has written nothing. *)
Theorem ideas_writes (req : Request) (newId now : string) (s : IndexState) :
  let run := ideas req newId now s in
  (forall idea, fst run = Return (Created idea) ->
     BlogIdea.id idea = newId /\ BlogIdea.used idea = false
     /\ exists embedding,
          records (snd run)
          = <[newId := {| values := embedding;
                          metadata := Some (ideaToMetadata idea) |}]>
              (records s))
  /\ (fst run = Return Deleted ->
      exists id, query_id req = Some id
                 /\ records (snd run) = delete id (records s))
  /\ ((forall idea, fst run <> Return (Created idea)) ->
      fst run <> Return Deleted ->
      records (snd run) = records s).
Proof.
  cbv zeta. unfold ideas.
  destruct (validatePassword req); cbn [negb];
    [|cbn; repeat split; intros; (discriminate || done)].
  unfold catch500.
  destruct (String.eqb (method req) "POST").
  { destruct (post_cases req newId now s)
      as [-> | [(msg & s' & -> & Hs') | [(d & s' & -> & Hs')
         | (idea & embedding & s' & -> & Hid & Hused & Hs')]]];
      cbn [fst snd]; (split; [|split]); try discriminate; try done.
    - intros idea' [= <-]. eauto.
    - intros Hnot. by destruct (Hnot idea). }
  destruct (String.eqb (method req) "GET").
  { unfold mbind, M_bind.
    pose proof (VectorDbFacts.getAllIdeas_records s) as Hread.
    destruct (getAllIdeas s) as [[ideas|msg] s']; cbn [fst snd] in *;
      repeat split; intros; (discriminate || done). }
  destruct (String.eqb (method req) "DELETE");
    [|cbn; repeat split; intros; (discriminate || done)].
  destruct (query_id req) as [[|c id']|];
    cbn; repeat split; intros; try (discriminate || done); eauto.
Qed.

(** X16. A request that is refused (wrong password, body that does not
    validate, deletion without an identifier, method other than [POST],
    [GET] and [DELETE]) makes no call on the index: the records and the
    trace of calls are exactly as before. *)
Theorem ideas_refusal_no_call (req : Request) (newId now : string)
  (s : IndexState) (r : Response) :
  fst (ideas req newId now s) = Return r ->
  refusal r = true ->
  snd (ideas req newId now s) = s.
Proof.
  unfold ideas. destruct (validatePassword req); cbn [negb]; [|done].
  unfold catch500.
  destruct (String.eqb (method req) "POST").
  { destruct (post_cases req newId now s)
      as [-> | [(msg & s' & -> & Hs') | [(d & s' & -> & Hs')
         | (idea & embedding & s' & -> & _)]]];
      cbn [fst snd]; intros [= <-]; done. }
  destruct (String.eqb (method req) "GET").
  { unfold mbind, M_bind.
    destruct (getAllIdeas s) as [[ideas|msg] s']; cbn [fst snd];
      intros [= <-]; done. }
  destruct (String.eqb (method req) "DELETE"); [|done].
  destruct (query_id req) as [[|c id']|]; cbn; try done.
  intros [= <-]; done.
Qed.

End WithExternal.

(** The pipeline is down on a creation request; a match without
    metadata comes back from the similarity search, and from the
    listing. *)
Lemma ideas_throw_becomes_500_witness :
  @ideas MoreSamples.unconfigured MoreSamples.open_request "idea-11"
    "2025-03-01T00:00:00.000Z" Samples.empty_index
  = (Return (InternalServerError "ProviderUnavailable"), Samples.empty_index)
  /\ fst (@ideas (Samples.external MoreSamples.undecodable) Samples.request
            "idea-11" "2025-03-01T00:00:00.000Z" Samples.empty_index)
     = Return (InternalServerError "ParseError: metadata")
  /\ fst (@ideas (Samples.external MoreSamples.undecodable)
            MoreSamples.get_request "idea-11" "2025-03-01T00:00:00.000Z"
            Samples.stored_index)
     = Return (InternalServerError "ParseError: metadata").
Proof.
  split; [|split].
  - apply (proj1 (proj2 (@ideas_throw_becomes_500 MoreSamples.unconfigured
                           MoreSamples.open_request "idea-11"
                           "2025-03-01T00:00:00.000Z" Samples.empty_index)
                    eq_refl)
             (IdeasApi.body Samples.request) "ProviderUnavailable");
      reflexivity.
  - rewrite (proj1 (proj2 (proj2 (@ideas_throw_becomes_500
                                    (Samples.external MoreSamples.undecodable)
                                    Samples.request "idea-11"
                                    "2025-03-01T00:00:00.000Z"
                                    Samples.empty_index)
                             eq_refl))
               (IdeasApi.body Samples.request) [1; 0; 0]%float
               "ParseError: metadata"
               (snd (@querySimilarIdeas
                       (Samples.external MoreSamples.undecodable)
                       [1; 0; 0]%float 5 Samples.empty_index))
               eq_refl eq_refl eq_refl eq_refl).
    reflexivity.
  - rewrite (proj2 (proj2 (proj2 (@ideas_throw_becomes_500
                                    (Samples.external MoreSamples.undecodable)
                                    MoreSamples.get_request "idea-11"
                                    "2025-03-01T00:00:00.000Z"
                                    Samples.stored_index)
                             eq_refl))
               "ParseError: metadata"
               (snd (@getAllIdeas (Samples.external MoreSamples.undecodable)
                       Samples.stored_index))
               eq_refl ltac:(vm_compute; reflexivity)).
    reflexivity.
Defined.

Lemma ideas_writes_witness :
  exists embedding,
    records (snd (@ideas (Samples.external Samples.at_threshold)
                    Samples.request "idea-11" "2025-03-01T00:00:00.000Z"
                    Samples.empty_index))
    = {[ "idea-11" :=
           {| values := embedding;
              metadata :=
                Some (ideaToMetadata
                        {| BlogIdea.id := "idea-11";
                           BlogIdea.title := "Dependent types in practice";
                           BlogIdea.description :=
                             "How dependent types catch errors before the program runs";
                           BlogIdea.tags := ["types"];
                           BlogIdea.createdAt := "2025-03-01T00:00:00.000Z";
                           BlogIdea.used := false;
                           BlogIdea.usedAt := None |}) |} ]}.
Proof.
  destruct (@ideas_writes (Samples.external Samples.at_threshold)
              Samples.request "idea-11" "2025-03-01T00:00:00.000Z"
              Samples.empty_index) as (Hcreated & _).
  destruct (Hcreated _ ltac:(vm_compute; reflexivity))
    as (_ & _ & embedding & Hrecords).
  exists embedding. exact Hrecords.
Defined.

Lemma ideas_refusal_no_call_witness :
  snd (@ideas Samples.offline
         {| method := "DELETE"; x_publish_password := Some "secret";
            body := body Samples.request; query_id := None |}
         "idea-11" "2025-03-01T00:00:00.000Z" Samples.stored_index)
  = Samples.stored_index.
Proof.
  apply (@ideas_refusal_no_call Samples.offline _ _ _ _ IdeaIdRequired);
    reflexivity.
Defined.

End MoreIdeasApiFacts.

(** ** The selection and the index *)

Module MoreCronPublishFacts.
Import Embedder VectorDb Embeddings CronPublish Selection MoreAux.

Lemma Array_sort_nil_iff {A : Type} (compare : A -> A -> JS.number) l :
  Array_sort compare l = [] <-> l = [].
Proof.
  split; [|by intros ->].
  destruct l as [|x l]; [done|]. intros Hnil.
  assert (In x (Array_sort compare (x :: l))) as Hin
    by (apply CronPublishFacts.In_Array_sort; by left).
  rewrite Hnil in Hin. contradiction.
Qed.

Section WithExternal.
Context `{External}.

Lemma getAllIdeas_state (s : IndexState) :
  exists added,
    snd (getAllIdeas s)
    = {| records := records s; calls := (calls s ++ added)%list |}
    /\ Forall read_call added.
Proof.
  unfold getAllIdeas, mbind, M_bind, Index.describeIndexStats, Index.query,
    liftC, log, mret, M_ret.
  destruct (default 0%nat (totalRecordCount (records s)) =? 0)%nat.
  - exists [CallDescribeIndexStats]. split; [reflexivity|].
    repeat constructor.
  - eexists [CallDescribeIndexStats; CallQuery _ _]. cbn [snd records calls].
    rewrite <- app_assoc. split; [reflexivity|]. repeat constructor.
Qed.

(** X17. Selection does not change the index: [selectUniqueIdea] leaves
    the records as they are and the only calls it makes are the reading
    ones (statistics and queries); in particular it marks nothing used. *)
Theorem selectUniqueIdea_reads_only (random : JS.number) (s : IndexState) :
  exists added,
    snd (selectUniqueIdea random s)
    = {| records := records s; calls := (calls s ++ added)%list |}
    /\ Forall read_call added.
Proof.
  destruct (getAllIdeas_state s) as (added & Hstate & Hread).
  exists added. split; [|exact Hread].
  unfold selectUniqueIdea, mbind, M_bind, liftC.
  destruct (getAllIdeas s) as [[ideas|msg] s']; exact Hstate.
Qed.

(** X18. Without an unused idea the selection throws [No unused ideas
    available], whatever the used ideas are; this is what
    [selectUniqueIdea] does on an index whose statistics report no record,
    after the statistics call alone. *)
Theorem selectNext_no_unused (allIdeas : list BlogIdea.t)
  (random : JS.number) (s : IndexState) :
  (unusedIdeas allIdeas = [] ->
   selectNext allIdeas random = Throw "No unused ideas available")
  /\ (Forall (fun idea => BlogIdea.used idea = true) allIdeas ->
      selectNext allIdeas random = Throw "No unused ideas available")
  /\ (default 0%nat (totalRecordCount (records s)) = 0%nat ->
      selectUniqueIdea random s
      = (Throw "No unused ideas available", log CallDescribeIndexStats s)).
Proof.
  assert (unusedIdeas allIdeas = [] ->
          selectNext allIdeas random = Throw "No unused ideas available")
    as Hempty by (intros Hnil; unfold selectNext; by rewrite Hnil).
  split; [exact Hempty|]. split.
  - intros Hused. apply Hempty. clear Hempty. unfold unusedIdeas.
    induction Hused as [|idea l Hidea _ IH]; [reflexivity|].
    cbn [List.filter]. rewrite Hidea. exact IH.
  - intros Hzero.
    unfold selectUniqueIdea, getAllIdeas, mbind, M_bind,
      Index.describeIndexStats.
    by rewrite Hzero.
Qed.

(** X19. On a cold start (no idea that is marked used carries a
    [usedAt]) the selection computes no embedding and cannot fail: it
    returns the unused idea at the index drawn, or [undefined] when the
    index is out of range, and the outcome is the same whatever the
    embedding pipeline does. *)
Theorem selectNext_cold_start (allIdeas : list BlogIdea.t)
  (random : JS.number) :
  (forall idea, In idea allIdeas -> has_usedAt idea = false) ->
  unusedIdeas allIdeas <> [] ->
  selectNext allIdeas random
  = Return
      match JS.floor_index
              (random * JS.of_nat (length (unusedIdeas allIdeas)))%float with
      | Some i => unusedIdeas allIdeas !! i
      | None => None
      end.
Proof.
  intros Hcold Hunused.
  assert (usedIdeas allIdeas = []) as Hrecent.
  { unfold usedIdeas.
    assert (List.filter has_usedAt allIdeas = []) as ->; [|reflexivity].
    clear Hunused. induction allIdeas as [|idea l IH]; [reflexivity|].
    cbn [List.filter]. rewrite (Hcold idea) by (by left).
    apply IH. intros i Hi. apply Hcold. by right. }
  unfold selectNext. rewrite Hrecent.
  destruct (unusedIdeas allIdeas) as [|first rest]; [done|].
  by destruct (JS.floor_index _).
Qed.

Lemma rejections_In {A B : Type} (f : A -> Completion B) l msg :
  In msg (rejections (map f l)) <-> exists x, In x l /\ f x = Throw msg.
Proof.
  induction l as [|y l IH]; cbn [map rejections].
  - split; [contradiction|]. by intros (x & [] & _).
  - destruct (f y) as [v|m] eqn:Hy.
    + rewrite IH. split.
      * intros (x & Hx & Hfx). exists x. split; [by right|exact Hfx].
      * intros (x & [<- | Hx] & Hfx); [congruence|]. by exists x.
    + cbn [In]. rewrite IH. split.
      * intros [<- | (x & Hx & Hfx)].
        -- exists y. split; [by left|exact Hy].
        -- exists x. split; [by right|exact Hfx].
      * intros (x & [<- | Hx] & Hfx).
        -- left. congruence.
        -- right. by exists x.
Qed.

Lemma mapC_Throw_inv {A B : Type} (f : A -> Completion B) l msg :
  mapC f l = Throw msg -> exists x, In x l /\ f x = Throw msg.
Proof.
  induction l as [|y l IH]; cbn [mapC]; [discriminate|].
  destruct (f y) as [v|m] eqn:Hy.
  - destruct (mapC f l) as [vs|m]; [discriminate|].
    intros [= <-]. destruct (IH eq_refl) as (x & Hx & Hfx).
    exists x. split; [by right|exact Hfx].
  - intros [= <-]. exists y. split; [by left|exact Hy].
Qed.

Lemma mapC_some_throw {A B : Type} (f : A -> Completion B) l x msg :
  In x l -> f x = Throw msg -> exists msg', mapC f l = Throw msg'.
Proof.
  induction l as [|y l IH]; intros Hin Hx; [contradiction|].
  cbn [mapC]. destruct (f y) as [v|m] eqn:Hy; [|eauto].
  destruct Hin as [-> | Hin]; [congruence|].
  destruct (IH Hin Hx) as [msg' ->]. eauto.
Qed.

(** [Promise.all] rejects with the error of one of its promises. *)
Lemma Promise_all_Throw {A B : Type} (f : A -> Completion B) l x msg :
  In x l -> f x = Throw msg ->
  exists x' msg', In x' l /\ f x' = Throw msg'
                  /\ Promise_all f l = Throw msg'.
Proof.
  intros Hin Hx. unfold Promise_all.
  destruct (mapC_some_throw f l x msg Hin Hx) as [first Hfirst].
  rewrite Hfirst. cbv zeta.
  destruct (nth_in_or_default (first_rejected (rejections (map f l)))
              (rejections (map f l)) first) as [Hnth | ->].
  - apply rejections_In in Hnth as (x' & Hx' & Hfx'). eauto.
  - destruct (mapC_Throw_inv f l first Hfirst) as (x' & Hx' & Hfx'). eauto.
Qed.

(** X20. On the min-max branch a failure is never swallowed and no idea
    is returned in its place.  When the embedding of some recent idea
    fails, the selection throws the error of a recent idea whose embedding
    failed (with several failures, the one that comes first in time).
    When the recent ideas are all embedded, the error of the pipeline on
    the first candidate is the outcome of the selection, and so is
    [Vectors must have the same length] when the embedding of the first
    candidate and that of the most recent idea differ in length. *)
Theorem selectNext_failure_propagates
  (allIdeas : list BlogIdea.t) (random : JS.number) (msg : string)
  (first : BlogIdea.t) (rest : list BlogIdea.t) :
  valid_dates allIdeas ->
  unusedIdeas allIdeas = first :: rest ->
  usedIdeas allIdeas <> [] ->
  ((exists recent msg0,
      In recent (usedIdeas allIdeas) /\ embed recent = Throw msg0) ->
   exists recent msg0,
     In recent (usedIdeas allIdeas) /\ embed recent = Throw msg0
     /\ selectNext allIdeas random = Throw msg0)
  /\ (forall embeddings,
        mapC embed (usedIdeas allIdeas) = Return embeddings ->
        embed first = Throw msg ->
        selectNext allIdeas random = Throw msg)
  /\ (forall e embeddings v,
        mapC embed (usedIdeas allIdeas) = Return (e :: embeddings) ->
        embed first = Return v ->
        length v <> length e ->
        selectNext allIdeas random
        = Throw "Vectors must have the same length").
Proof.
  intros _ Hunused Hused. unfold selectNext. rewrite Hunused.
  destruct (usedIdeas allIdeas) as [|recent recents] eqn:Hrecent; [done|].
  split; [|split].
  - intros (r & msg0 & Hr & Hfail).
    destruct (Promise_all_Throw embed (recent :: recents) r msg0 Hr Hfail)
      as (r' & msg' & Hr' & Hfail' & ->).
    exists r', msg'. by repeat split.
  - intros embeddings Hall Hfail.
    rewrite (CronPublishFacts.Promise_all_Return _ _ _ Hall).
    cbn [mbind Completion_bind select_loop].
    unfold maxSimilarity. by rewrite Hfail.
  - intros e embeddings v Hall Hv Hlen.
    rewrite (CronPublishFacts.Promise_all_Return _ _ _ Hall).
    cbn [mbind Completion_bind select_loop].
    unfold maxSimilarity. rewrite Hv. cbn [mbind Completion_bind mapC].
    unfold cosineSimilarity at 1. apply Nat.eqb_neq in Hlen.
    by rewrite Hlen.
Qed.

End WithExternal.

(** The embeddings of the two recent ideas both fail, the second to be
    started being the first to reject; the embedding of the first
    candidate fails; the first candidate and the recent idea are embedded
    with different lengths. *)
Lemma selectNext_failure_propagates_witness :
  (exists recent msg0,
     In recent (@usedIdeas MoreSamples.racing
                  [Samples.A; Samples.R1; Samples.R2])
     /\ @embed MoreSamples.racing recent = Throw msg0
     /\ @selectNext MoreSamples.racing [Samples.A; Samples.R1; Samples.R2]
          0.5%float
        = Throw msg0)
  /\ @selectNext MoreSamples.picky [Samples.A; Samples.R2] 0.5%float
     = Throw "no embedding"
  /\ @selectNext MoreSamples.uneven [Samples.A; Samples.R2] 0.5%float
     = Throw "Vectors must have the same length".
Proof.
  assert (forall E : External,
            @Date_getTime E = Samples.year_of ->
            @valid_dates E [Samples.A; Samples.R1; Samples.R2]
            /\ @valid_dates E [Samples.A; Samples.R2]) as Hdates.
  { intros E Htime.
    split; intros idea Hin Hhas; unfold usedAt_time; cbn in Hin;
      repeat (destruct Hin as [<- | Hin]; [|]); try contradiction;
      try discriminate Hhas; cbn [BlogIdea.usedAt Samples.R1 Samples.R2
                                   Samples.idea];
      rewrite Htime; vm_compute; reflexivity. }
  split; [|split].
  - apply (@selectNext_failure_propagates MoreSamples.racing
             [Samples.A; Samples.R1; Samples.R2] 0.5%float EmptyString
             Samples.A []
             (proj1 (Hdates MoreSamples.racing eq_refl)) eq_refl).
    + discriminate.
    + exists Samples.R1. eexists. split; [right; left; reflexivity|].
      reflexivity.
  - apply (proj1 (proj2 (@selectNext_failure_propagates MoreSamples.picky
                           [Samples.A; Samples.R2] 0.5%float "no embedding"
                           Samples.A []
                           (proj2 (Hdates MoreSamples.picky eq_refl))
                           eq_refl ltac:(discriminate)))
             [[1; 2; 3]%float]); reflexivity.
  - apply (proj2 (proj2 (@selectNext_failure_propagates MoreSamples.uneven
                           [Samples.A; Samples.R2] 0.5%float EmptyString
                           Samples.A []
                           (proj2 (Hdates MoreSamples.uneven eq_refl))
                           eq_refl ltac:(discriminate)))
             [1; 2; 3]%float [] [1; 1]%float);
      [reflexivity | reflexivity | discriminate].
Defined.

Lemma selectNext_no_unused_witness :
  @selectNext Samples.offline [Samples.R1; Samples.U] 0.5%float
  = Throw "No unused ideas available".
Proof.
  apply (proj1 (@selectNext_no_unused Samples.offline
                  [Samples.R1; Samples.U] 0.5%float Samples.empty_index)).
  reflexivity.
Defined.

(** The pipeline is down and the draw [0.7] picks the second of the two
    unused ideas. *)
Lemma selectNext_cold_start_witness :
  @selectNext
    {| pipe := fun _ => Throw "ProviderUnavailable";
       query_matches := fun _ _ _ => None;
       totalRecordCount := fun _ => None;
       Date_getTime := Samples.year_of;
       PUBLISH_PASSWORD := None;
       first_rejected := fun _ => 0%nat |}
    [Samples.U; Samples.A; Samples.B] 0.7%float
  = Return (Some Samples.B).
Proof.
  rewrite selectNext_cold_start.
  - vm_compute. reflexivity.
  - intros idea [<- | [<- | [<- | []]]]; reflexivity.
  - discriminate.
Defined.

End MoreCronPublishFacts.

(** ** The multi-platform publisher *)

Module MorePublishMultiFacts.
Import PublishMulti MoreAux.

Lemma falsy_false (s : option string) :
  falsy s = false <-> exists t, s = Some t /\ t <> EmptyString.
Proof.
  destruct s as [[|c t]|]; cbn; split; try discriminate; eauto.
  - intros (t & [= <-] & Hne). by destruct Hne.
  - by intros (t & ? & _).
Qed.

Lemma string_eqb_false (a b : string) : String.eqb a b = false <-> a <> b.
Proof. apply String.eqb_neq. Qed.

Section WithPlatforms.
Context `{External} `{Platforms}.

Lemma publishTo_platform data p : platform (publishTo data p) = p.
Proof. unfold publishTo. by destruct (if String.eqb p "devto" then _ else _). Qed.

Lemma publishTo_coherent data p : coherent (publishTo data p).
Proof.
  unfold publishTo, coherent.
  by destruct (if String.eqb p "devto" then _ else _).
Qed.

Lemma publishTo_unsupported data p :
  p <> "devto" -> p <> "hashnode" ->
  publishTo data p
  = {| platform := p; success := false; article := None;
       error := Some ("Unsupported platform: " ++ p) |}.
Proof.
  intros Hd Hh. unfold publishTo.
  apply String.eqb_neq in Hd, Hh. by rewrite Hd, Hh.
Qed.

Lemma publishMulti_Results_inv (req : Request) (rs : list PublishResult) :
  publishMulti req = Results rs ->
  method req = "POST"
  /\ x_publish_password req = PUBLISH_PASSWORD
  /\ exists b t c ts ps,
       body req = Some b
       /\ title b = Some t /\ t <> EmptyString
       /\ content b = Some c /\ c <> EmptyString
       /\ tags b = Some ts
       /\ platforms b = Some ps /\ ps <> []
       /\ rs = map (publishTo (publish_data t c ts (is_draft b) ps)) ps.
Proof.
  unfold publishMulti, validatePassword.
  destruct (String.eqb (method req) "POST") eqn:Hmethod; [|discriminate].
  destruct (IdeasApi.option_string_eqb _ _) eqn:Hpassword; [|discriminate].
  cbn [negb].
  destruct (body req) as [b|]; [|discriminate].
  destruct (tags b) as [ts|] eqn:Htags; [|discriminate].
  destruct (falsy (title b)) eqn:Htitle; [discriminate|].
  destruct (falsy (content b)) eqn:Hcontent; [discriminate|].
  cbn [orb].
  destruct (platforms b) as [[|p ps]|] eqn:Hplatforms; try discriminate.
  intros [= <-].
  apply falsy_false in Htitle as (t & Ht & Htne).
  apply falsy_false in Hcontent as (c & Hc & Hcne).
  split; [by apply String.eqb_eq|].
  split; [by apply MoreIdeasApiFacts.option_string_eqb_eq|].
  exists b, t, c, ts, (p :: ps).
  repeat (split; [done|]).
  rewrite Ht, Hc. by destruct t, c.
Qed.

Lemma publishMulti_Results_intro (req : Request) b t c ts ps :
  method req = "POST" ->
  x_publish_password req = PUBLISH_PASSWORD ->
  body req = Some b ->
  title b = Some t -> t <> EmptyString ->
  content b = Some c -> c <> EmptyString ->
  tags b = Some ts ->
  platforms b = Some ps -> ps <> [] ->
  publishMulti req
  = Results (map (publishTo (publish_data t c ts (is_draft b) ps)) ps).
Proof.
  intros Hmethod Hpassword Hb Ht Htne Hc Hcne Hts Hps Hne.
  unfold publishMulti, validatePassword.
  rewrite Hmethod, Hpassword, Hb, Hts, Ht, Hc, Hps.
  replace (IdeasApi.option_string_eqb PUBLISH_PASSWORD PUBLISH_PASSWORD)
    with true
    by (symmetry; by apply MoreIdeasApiFacts.option_string_eqb_eq).
  destruct t as [|a t]; [done|]. destruct c as [|a' c]; [done|].
  destruct ps as [|p ps]; [done|]. reflexivity.
Qed.

(** X21. The publisher answers [200] exactly when the method is [POST],
    the password header equals [PUBLISH_PASSWORD], the title and the
    content are non-empty, the tags are an array and the platforms a
    non-empty array; what the platforms then answer plays no part, and the
    results are those of the platforms, one by one. *)
Theorem publishMulti_answers_200_iff (req : Request)
  (rs : list PublishResult) :
  publishMulti req = Results rs
  <-> method req = "POST"
      /\ x_publish_password req = PUBLISH_PASSWORD
      /\ exists b t c ts ps,
           body req = Some b
           /\ title b = Some t /\ t <> EmptyString
           /\ content b = Some c /\ c <> EmptyString
           /\ tags b = Some ts
           /\ platforms b = Some ps /\ ps <> []
           /\ rs = map (publishTo (publish_data t c ts (is_draft b) ps)) ps.
Proof.
  split; [apply publishMulti_Results_inv|].
  intros (Hmethod & Hpassword
          & b & t & c & ts & ps & Hb & Ht & Htne & Hc & Hcne & Hts & Hps
          & Hne & ->).
  by apply publishMulti_Results_intro.
Qed.

Lemma publishTo_no_keys data p :
  falsy DEV_TO_API_KEY = true -> falsy HASHNODE_API_KEY = true ->
  success (publishTo data p) = false.
Proof.
  intros Hdevto Hhashnode. unfold publishTo, publishToDevTo, publishToHashnode.
  destruct (String.eqb p "devto").
  - by destruct DEV_TO_API_KEY as [[|c k]|].
  - destruct (String.eqb p "hashnode"); [|reflexivity].
    by destruct HASHNODE_API_KEY as [[|c k]|].
Qed.

(** X22. A [200] answer holds one result for each requested platform, in
    the order of the request; every result is either a success with an
    article and no error or a failure with an error and no article; and a
    name other than [devto] and [hashnode] gets a failure that says
    [Unsupported platform] and does not fail the request. *)
Theorem publishMulti_one_result_per_platform (req : Request)
  (rs : list PublishResult) :
  publishMulti req = Results rs ->
  (exists b, body req = Some b /\ platforms b = Some (map platform rs))
  /\ Forall coherent rs
  /\ (forall r, In r rs ->
       platform r <> "devto" -> platform r <> "hashnode" ->
       success r = false
       /\ error r = Some ("Unsupported platform: " ++ platform r)).
Proof.
  intros Hanswer.
  apply publishMulti_Results_inv in Hanswer
    as (_ & _ & b & t & c & ts & ps & Hb & _ & _ & _ & _ & _ & Hps & _ & ->).
  split; [|split].
  - exists b. split; [exact Hb|]. rewrite Hps. f_equal.
    rewrite map_map. generalize (publish_data t c ts (is_draft b) ps).
    clear. intros data. induction ps as [|p ps IH]; [reflexivity|].
    cbn [map]. by rewrite publishTo_platform, <- IH.
  - apply List.Forall_forall. intros r Hr.
    apply in_map_iff in Hr as (p & <- & _). apply publishTo_coherent.
  - intros r Hr Hd Hh. apply in_map_iff in Hr as (p & <- & _).
    rewrite publishTo_platform in Hd, Hh.
    rewrite (publishTo_unsupported _ p Hd Hh). done.
Qed.

(** X23. The checks come in a fixed order.  The answer is [405] exactly
    when the method is not [POST], whatever the password; it is [401]
    exactly when the method is [POST] and the password header differs from
    [PUBLISH_PASSWORD], whatever the body. *)
Theorem publishMulti_refusals (req : Request) :
  (publishMulti req = MethodNotAllowed <-> method req <> "POST")
  /\ (publishMulti req = InvalidPassword
      <-> method req = "POST"
          /\ x_publish_password req <> PUBLISH_PASSWORD).
Proof.
  unfold publishMulti, validatePassword.
  destruct (String.eqb (method req) "POST") eqn:Hmethod.
  - apply String.eqb_eq in Hmethod.
    destruct (IdeasApi.option_string_eqb _ _) eqn:Hpassword.
    + apply MoreIdeasApiFacts.option_string_eqb_eq in Hpassword.
      cbn [negb].
      assert (forall r, r <> MethodNotAllowed -> r <> InvalidPassword ->
              (r = MethodNotAllowed <-> method req <> "POST")
              /\ (r = InvalidPassword
                  <-> method req = "POST"
                      /\ x_publish_password req <> PUBLISH_PASSWORD))
        as Hother.
      { intros r H405 H401. split; split; try done.
        by intros [_ Hne]. }
      destruct (body req) as [b|]; [|by apply Hother].
      destruct (tags b) as [ts|]; [|by apply Hother].
      destruct (falsy (title b) || falsy (content b)); [by apply Hother|].
      destruct (platforms b) as [[|p ps]|]; by apply Hother.
    + cbn [negb]. split; split; try done.
      intros _. split; [exact Hmethod|]. intros Heq.
      apply MoreIdeasApiFacts.option_string_eqb_eq in Heq. congruence.
  - apply String.eqb_neq in Hmethod. cbn [negb]. split; split; try done.
    by intros [Heq _].
Qed.

End WithPlatforms.

Lemma publishMulti_answers_200_iff_witness :
  @publishMulti MoreSamples.in_memory MoreSamples.devto_only
    (MoreSamples.publish ["devto"; "hashnode"])
  = Results
      [ {| platform := "devto"; success := true;
           article := Some "Monads"; error := None |};
        {| platform := "hashnode"; success := false;
           article := None; error := Some "[]" |} ].
Proof.
  apply (proj2 (@publishMulti_answers_200_iff MoreSamples.in_memory
                  MoreSamples.devto_only
                  (MoreSamples.publish ["devto"; "hashnode"]) _)).
  split; [reflexivity|]. split; [reflexivity|].
  exists (MoreSamples.publish_body ["devto"; "hashnode"]),
    "Monads", "Text", ["fp"], ["devto"; "hashnode"].
  repeat (split; [done|]). reflexivity.
Defined.

(** A request for dev.to and for a platform that is not supported, with
    no API key configured. *)
Lemma publishMulti_one_result_per_platform_witness :
  Forall coherent
    (map (@publishTo MoreSamples.no_keys
            (publish_data "Monads" "Text" ["fp"] None ["devto"; "medium"]))
       ["devto"; "medium"]).
Proof.
  apply (@publishMulti_one_result_per_platform MoreSamples.in_memory
           MoreSamples.no_keys (MoreSamples.publish ["devto"; "medium"]) _).
  reflexivity.
Defined.

End MorePublishMultiFacts.

(** ** The scheduled publisher *)

Module MoreCronHandlerFacts.
Import Embedder VectorDb CronPublish CronHandler MoreAux.

Lemma markIdeaAsUsed_outcome `{External} id now s :
  (exists msg, markIdeaAsUsed id now s = (Throw msg, log (CallFetch id) s))
  \/ exists record existing s',
       records s !! id = Some record
       /\ metadataToIdea id (metadata record) = Return existing
       /\ markIdeaAsUsed id now s = (Return tt, s')
       /\ records s'
          = <[id := {| values := values record;
                       metadata :=
                         Some (ideaToMetadata (marked now existing)) |}]>
              (records s).
Proof.
  destruct (records s !! id) as [record|] eqn:Hrecord.
  - destruct (metadataToIdea id (metadata record)) as [existing|msg]
      eqn:Hdecode.
    + right. exists record, existing. eexists.
      split; [reflexivity|]. split; [exact Hdecode|].
      rewrite (VectorDbFacts.markIdeaAsUsed_decodable id now s record
                 existing Hrecord Hdecode).
      split; reflexivity.
    + left. exists msg.
      by rewrite (VectorDbFacts.markIdeaAsUsed_undecodable id now s record
                    msg Hrecord Hdecode).
  - left. eexists.
    by rewrite (VectorDbFacts.markIdeaAsUsed_not_stored id now s Hrecord).
Qed.

Lemma selectUniqueIdea_records `{External} random s :
  records (snd (selectUniqueIdea random s)) = records s.
Proof.
  pose proof (VectorDbFacts.getAllIdeas_records s) as Hrecords.
  unfold selectUniqueIdea, mbind, M_bind, liftC.
  by destruct (getAllIdeas s) as [[ideas|msg] s1].
Qed.

Lemma selectUniqueIdea_Some `{External} random s idea s1 :
  selectUniqueIdea random s = (Return (Some idea), s1) ->
  exists allIdeas,
    getAllIdeas s = (Return allIdeas, s1)
    /\ In idea allIdeas /\ BlogIdea.used idea = false.
Proof.
  unfold selectUniqueIdea, mbind, M_bind, liftC.
  destruct (getAllIdeas s) as [[allIdeas|msg] s2]; [|discriminate].
  intros [= Hselect <-]. exists allIdeas. split; [reflexivity|].
  apply CronPublishFacts.selectNext_In in Hselect.
  by apply CronPublishFacts.In_unusedIdeas in Hselect.
Qed.

Lemma platforms_of_supported req :
  forallb supported (platforms_of req) = true.
Proof.
  unfold platforms_of.
  destruct (requested_platforms req) as [ps|]; [|reflexivity].
  by destruct (forallb supported ps) eqn:Hps.
Qed.

Lemma platforms_of_nil req :
  platforms_of req = [] <-> requested_platforms req = Some [].
Proof.
  unfold platforms_of. destruct (requested_platforms req) as [ps|].
  - destruct (forallb supported ps) eqn:Hps; split; try discriminate.
    + by intros ->.
    + by intros [= ->].
    + by intros [= ->].
  - split; discriminate.
Qed.

Section WithExternal.
Context `{External} `{CronExternal}.

(** When [validateCronSecret] lets a request through. *)
Lemma validateCronSecret_spec (req : Request) :
  (forall secret,
     CRON_SECRET = Some secret -> secret <> EmptyString ->
     (validateCronSecret req = true
      <-> authorization req = Some ("Bearer " ++ secret)))
  /\ (PublishMulti.falsy CRON_SECRET = true ->
      (validateCronSecret req = true
       <-> x_publish_password req = PUBLISH_PASSWORD)).
Proof.
  unfold validateCronSecret. split.
  - intros secret -> Hne. destruct secret as [|c secret]; [done|].
    apply MoreIdeasApiFacts.option_string_eqb_eq.
  - destruct CRON_SECRET as [[|c secret]|]; try discriminate; intros _;
      apply MoreIdeasApiFacts.option_string_eqb_eq.
Qed.

Lemma publishArticle_Return title content tags platforms response :
  publishArticle title content tags platforms = Return response ->
  ok response = true.
Proof.
  unfold publishArticle.
  destruct (fetch_publish_multi _) as [r|msg]; [|discriminate].
  cbn [mbind Completion_bind].
  destruct (ok r) eqn:Hok; [|discriminate]. by intros [= <-].
Qed.

(** X26. What the scheduled publisher writes.  An answer [200] means that
    the publication answered with an [ok] status, that the idea named in
    the answer was listed by the index as unused, and that exactly its
    record was rewritten, marked used at [now], with its vector kept.  A
    [401] answer leaves the index untouched, without a call, and a [500]
    answer leaves every record as it was. *)
Theorem cronPublish_writes (req : Request) (random : JS.number)
  (now : string) (s : IndexState) (r : Response) (s' : IndexState) :
  cronPublish req random now s = (Return r, s') ->
  match r with
  | Unauthorized => s' = s
  | InternalServerError _ => records s' = records s
  | Published id title publishResult =>
      ok publishResult = true
      /\ (exists allIdeas s1 idea,
            getAllIdeas s = (Return allIdeas, s1)
            /\ In idea allIdeas /\ BlogIdea.used idea = false
            /\ BlogIdea.id idea = id /\ BlogIdea.title idea = title)
      /\ exists record existing,
           records s !! id = Some record
           /\ metadataToIdea id (metadata record) = Return existing
           /\ records s'
              = <[id := {| values := values record;
                           metadata :=
                             Some (ideaToMetadata (marked now existing)) |}]>
                  (records s)
  end.
Proof.
  unfold cronPublish. destruct (validateCronSecret req); cbn [negb].
  2: { by intros [= <- <-]. }
  pose proof (selectUniqueIdea_records random s) as Hrecords.
  unfold mbind at 1, M_bind at 1.
  destruct (selectUniqueIdea random s) as [[[idea|]|msg] s1] eqn:Hselect;
    cbn [snd] in Hrecords.
  - unfold mbind at 1, M_bind at 1, liftC at 1.
    destruct (generateArticleContent _ _ _) as [content|msg].
    2: { by intros [= <- <-]. }
    unfold mbind at 1, M_bind at 1, liftC at 1.
    destruct (publishArticle _ _ _ _) as [publishResult|msg] eqn:Hpublish.
    2: { by intros [= <- <-]. }
    unfold mbind at 1, M_bind at 1.
    destruct (markIdeaAsUsed_outcome (BlogIdea.id idea) now s1)
      as [(msg & ->)|(record & existing & s2 & Hrecord & Hdecode & -> & Hs2)].
    + by intros [= <- <-].
    + unfold mret, M_ret. intros [= <- <-].
      split; [exact (publishArticle_Return _ _ _ _ _ Hpublish)|].
      split.
      * destruct (selectUniqueIdea_Some _ _ _ _ Hselect)
          as (allIdeas & Hall & Hin & Hunused).
        by exists allIdeas, s1, idea.
      * exists record, existing. rewrite <- Hrecords.
        split; [exact Hrecord|]. split; [exact Hdecode|exact Hs2].
  - unfold liftC. by intros [= <- <-].
  - by intros [= <- <-].
Qed.

Lemma cronPublish_publish_fails (req : Request) (random : JS.number)
  (now : string) (s : IndexState) :
  (forall title content tags,
     exists msg,
       publishArticle title content tags (platforms_of req) = Throw msg) ->
  exists r s',
    cronPublish req random now s = (Return r, s')
    /\ records s' = records s
    /\ forall id title publishResult, r <> Published id title publishResult.
Proof.
  intros Hfails. unfold cronPublish.
  destruct (validateCronSecret req); cbn [negb].
  2: { by exists Unauthorized, s. }
  pose proof (selectUniqueIdea_records random s) as Hrecords.
  unfold mbind at 1, M_bind at 1.
  destruct (selectUniqueIdea random s) as [[[idea|]|msg] s1];
    cbn [snd] in Hrecords.
  - unfold mbind at 1, M_bind at 1, liftC at 1.
    destruct (generateArticleContent _ _ _) as [content|msg].
    2: { by exists (InternalServerError msg), s1. }
    unfold mbind at 1, M_bind at 1, liftC at 1.
    destruct (Hfails (BlogIdea.title idea) content (BlogIdea.tags idea))
      as (msg & ->).
    by exists (InternalServerError msg), s1.
  - unfold liftC. by eexists (InternalServerError _), s1.
  - by exists (InternalServerError msg), s1.
Qed.

Lemma cronPublish_step (req : Request) (random : JS.number)
  (now : string) (s s1 : IndexState) (idea : BlogIdea.t) (content : string) :
  validateCronSecret req = true ->
  selectUniqueIdea random s = (Return (Some idea), s1) ->
  generateContent (prompt (BlogIdea.title idea) (BlogIdea.description idea)
                     (BlogIdea.tags idea)) = Return content ->
  cronPublish req random now s
  = match publishArticle (BlogIdea.title idea) content (BlogIdea.tags idea)
            (platforms_of req) with
    | Return publishResult =>
        match markIdeaAsUsed (BlogIdea.id idea) now s1 with
        | (Return _, s2) =>
            (Return (Published (BlogIdea.id idea) (BlogIdea.title idea)
                       publishResult), s2)
        | (Throw msg, s2) => (Return (InternalServerError msg), s2)
        end
    | Throw msg => (Return (InternalServerError msg), s1)
    end.
Proof.
  intros Hvalid Hselect Hcontent. unfold cronPublish.
  rewrite Hvalid. cbn [negb].
  unfold mbind at 1, M_bind at 1. rewrite Hselect.
  unfold mbind at 1, M_bind at 1, liftC at 1, generateArticleContent.
  rewrite Hcontent.
  unfold mbind at 1, M_bind at 1, liftC at 1.
  destruct (publishArticle _ _ _ _) as [publishResult|msg]; [|reflexivity].
  unfold mbind at 1, M_bind at 1.
  by destruct (markIdeaAsUsed _ _ _) as [[[]|msg] s2].
Qed.

Lemma cronPublish_authorised (req : Request) (random : JS.number)
  (now : string) (s : IndexState) :
  validateCronSecret req = true ->
  fst (cronPublish req random now s) <> Return Unauthorized.
Proof.
  intros Hvalid. unfold cronPublish. rewrite Hvalid. cbn [negb].
  unfold mbind at 1, M_bind at 1.
  destruct (selectUniqueIdea random s) as [[[idea|]|msg] s1];
    [|by cbn|by cbn].
  unfold mbind at 1, M_bind at 1, liftC at 1.
  destruct (generateArticleContent _ _ _) as [content|msg]; [|by cbn].
  unfold mbind at 1, M_bind at 1, liftC at 1.
  destruct (publishArticle _ _ _ _) as [publishResult|msg]; [|by cbn].
  unfold mbind at 1, M_bind at 1.
  by destruct (markIdeaAsUsed _ _ _) as [[[]|msg] s2].
Qed.

Lemma cronPublish_Unauthorized_iff (req : Request) (random : JS.number)
  (now : string) (s : IndexState) :
  fst (cronPublish req random now s) = Return Unauthorized
  <-> validateCronSecret req <> true.
Proof.
  split.
  - intros Hanswer Hvalid.
    exact (cronPublish_authorised req random now s Hvalid Hanswer).
  - intros Hrefused. unfold cronPublish.
    by destruct (validateCronSecret req).
Qed.

(** X24. With a non-empty [CRON_SECRET] the scheduled publisher answers
    [401] exactly when the [Authorization] header is not [Bearer] followed
    by the secret, and the password header plays no part.  With
    [CRON_SECRET] unset or empty it answers [401] exactly when the
    password header differs from [PUBLISH_PASSWORD]; so with neither
    variable set a request without headers is never answered [401]. *)
Theorem cronPublish_401_iff (req : Request) (random : JS.number)
  (now : string) (s : IndexState) :
  (forall secret,
     CRON_SECRET = Some secret -> secret <> EmptyString ->
     (fst (cronPublish req random now s) = Return Unauthorized
      <-> authorization req <> Some ("Bearer " ++ secret)))
  /\ (PublishMulti.falsy CRON_SECRET = true ->
      (fst (cronPublish req random now s) = Return Unauthorized
       <-> x_publish_password req <> PUBLISH_PASSWORD)).
Proof.
  destruct (validateCronSecret_spec req) as [Hsecret Hpassword].
  split.
  - intros secret Hset Hne.
    rewrite cronPublish_Unauthorized_iff, (Hsecret secret Hset Hne).
    reflexivity.
  - intros Hunset.
    rewrite cronPublish_Unauthorized_iff, (Hpassword Hunset). reflexivity.
Qed.

(** X25. The scheduled publisher always answers, and whatever is thrown
    while it runs becomes a [500] answer that carries the message of the
    error: the error of the selection, of the generation of the article,
    of the publication (an answer that is not [ok] included), and of the
    marking, which comes after the publication. *)
Theorem cronPublish_throw_becomes_500 (req : Request) (random : JS.number)
  (now : string) (s : IndexState) :
  (exists r, fst (cronPublish req random now s) = Return r)
  /\ (validateCronSecret req = true ->
      (forall msg s1,
         selectUniqueIdea random s = (Throw msg, s1) ->
         cronPublish req random now s
         = (Return (InternalServerError msg), s1))
      /\ (forall idea s1,
            selectUniqueIdea random s = (Return (Some idea), s1) ->
            (forall msg,
               generateContent
                 (prompt (BlogIdea.title idea) (BlogIdea.description idea)
                    (BlogIdea.tags idea)) = Throw msg ->
               cronPublish req random now s
               = (Return (InternalServerError msg), s1))
            /\ (forall content msg,
                  generateContent
                    (prompt (BlogIdea.title idea)
                       (BlogIdea.description idea) (BlogIdea.tags idea))
                  = Return content ->
                  publishArticle (BlogIdea.title idea) content
                    (BlogIdea.tags idea) (platforms_of req) = Throw msg ->
                  cronPublish req random now s
                  = (Return (InternalServerError msg), s1))
            /\ (forall content publishResult msg s2,
                  generateContent
                    (prompt (BlogIdea.title idea)
                       (BlogIdea.description idea) (BlogIdea.tags idea))
                  = Return content ->
                  publishArticle (BlogIdea.title idea) content
                    (BlogIdea.tags idea) (platforms_of req)
                  = Return publishResult ->
                  markIdeaAsUsed (BlogIdea.id idea) now s1
                  = (Throw msg, s2) ->
                  cronPublish req random now s
                  = (Return (InternalServerError msg), s2)))).
Proof.
  split.
  { unfold cronPublish. destruct (validateCronSecret req); cbn [negb].
    - match goal with
      | |- context [match ?run s with _ => _ end] =>
          destruct (run s) as [[r|msg] s']; eauto
      end.
    - eauto. }
  intros Hvalid. split.
  - intros msg s1 Hselect. unfold cronPublish. rewrite Hvalid. cbn [negb].
    unfold mbind at 1, M_bind at 1. by rewrite Hselect.
  - intros idea s1 Hselect. split; [|split].
    + intros msg Hcontent. unfold cronPublish. rewrite Hvalid. cbn [negb].
      unfold mbind at 1, M_bind at 1. rewrite Hselect.
      unfold mbind at 1, M_bind at 1, liftC at 1, generateArticleContent.
      by rewrite Hcontent.
    + intros content msg Hcontent Hpublish.
      rewrite (cronPublish_step req random now s s1 idea content
                 Hvalid Hselect Hcontent).
      by rewrite Hpublish.
    + intros content publishResult msg s2 Hcontent Hpublish Hmark.
      rewrite (cronPublish_step req random now s s1 idea content
                 Hvalid Hselect Hcontent).
      by rewrite Hpublish, Hmark.
Qed.

End WithExternal.

(** *** The publication served by [publishMulti] of the same application *)

Section Loopback.
Context `{External} `{Platforms}.
Variable secret : option string.
Variable generate : string -> Completion string.

#[local] Abbreviation cron := (loopback secret generate).

Lemma loopback_refused title content tags platforms :
  ok (PublishMulti.publishMulti
        (publish_request title content tags platforms)) = false ->
  @publishArticle _ cron title content tags platforms
  = Throw ("Failed to publish: "
           ++ error_text (PublishMulti.publishMulti
                            (publish_request title content tags platforms))).
Proof.
  intros Hok. unfold publishArticle, loopback, fetch_publish_multi.
  cbn [mbind Completion_bind]. by rewrite Hok.
Qed.

Lemma publish_request_no_password title content tags platforms :
  PUBLISH_PASSWORD = None ->
  PublishMulti.publishMulti (publish_request title content tags platforms)
  = PublishMulti.InvalidPassword.
Proof.
  intros Hnone.
  unfold PublishMulti.publishMulti, PublishMulti.validatePassword,
    publish_request.
  cbn [PublishMulti.method PublishMulti.x_publish_password].
  by rewrite Hnone.
Qed.

Lemma publish_request_no_platform title content tags :
  ok (PublishMulti.publishMulti (publish_request title content tags []))
  = false.
Proof.
  unfold PublishMulti.publishMulti, publish_request.
  cbn [PublishMulti.method PublishMulti.body PublishMulti.tags
       PublishMulti.title PublishMulti.content PublishMulti.platforms].
  destruct (PublishMulti.validatePassword _); [|reflexivity].
  cbn [negb String.eqb Ascii.eqb Bool.eqb].
  by destruct (PublishMulti.falsy (Some title)
               || PublishMulti.falsy (Some content)).
Qed.

(** X27. Without [PUBLISH_PASSWORD] the scheduled publisher cannot
    publish: the password header it sends is the empty string, which the
    multi-platform route refuses with [401].  The job then never answers
    [200] and never changes a record; once an idea is selected and its
    article generated, the answer is [500] with the refusal in its
    message. *)
Theorem cronPublish_needs_publish_password (req : Request)
  (random : JS.number) (now : string) (s : IndexState) :
  PUBLISH_PASSWORD = None ->
  (exists r s',
     @cronPublish _ cron req random now s = (Return r, s')
     /\ records s' = records s
     /\ forall id title publishResult,
          r <> Published id title publishResult)
  /\ forall idea s1 content,
       @validateCronSecret _ cron req = true ->
       selectUniqueIdea random s = (Return (Some idea), s1) ->
       generate (prompt (BlogIdea.title idea) (BlogIdea.description idea)
                   (BlogIdea.tags idea)) = Return content ->
       @cronPublish _ cron req random now s
       = (Return (InternalServerError
                    ("Failed to publish: " ++ error_json "Invalid password")),
          s1).
Proof.
  intros Hnone.
  assert (forall title content tags,
            @publishArticle _ cron title content tags (platforms_of req)
            = Throw ("Failed to publish: " ++ error_json "Invalid password"))
    as Hrefused.
  { intros title content tags. rewrite loopback_refused.
    - by rewrite publish_request_no_password.
    - by rewrite publish_request_no_password. }
  split.
  - apply cronPublish_publish_fails. intros title content tags.
    eexists. apply Hrefused.
  - intros idea s1 content Hvalid Hselect Hcontent.
    rewrite (cronPublish_step req random now s s1 idea content
               Hvalid Hselect Hcontent).
    by rewrite Hrefused.
Qed.

(** X28. A request whose [platforms] is the empty array is not given the
    two default platforms: the empty list is sent on, the multi-platform
    route refuses it, and the job never answers [200] and never changes a
    record. *)
Theorem cronPublish_empty_platforms (req : Request) (random : JS.number)
  (now : string) (s : IndexState) :
  requested_platforms req = Some [] ->
  exists r s',
    @cronPublish _ cron req random now s = (Return r, s')
    /\ records s' = records s
    /\ forall id title publishResult, r <> Published id title publishResult.
Proof.
  intros Hempty. apply cronPublish_publish_fails.
  intros title content tags.
  apply platforms_of_nil in Hempty. rewrite Hempty.
  eexists. apply loopback_refused, publish_request_no_platform.
Qed.

(** X29. The idea is marked used whatever the platforms answer.  With a
    publish password, an idea with a title, a generated article that is not
    empty and a platform list that is not the empty array, the publication
    answers [200] with one result per platform, and the job answers [200]
    and rewrites the record of the idea as used at [now]; this also when no
    API key is configured, in which case every result is a failure and
    nothing was published. *)
Theorem cronPublish_marks_used_whatever_published (req : Request)
  (random : JS.number) (now : string) (s s1 : IndexState)
  (idea existing : BlogIdea.t) (content password : string)
  (record : PineconeRecord) :
  @validateCronSecret _ cron req = true ->
  PUBLISH_PASSWORD = Some password ->
  requested_platforms req <> Some [] ->
  selectUniqueIdea random s = (Return (Some idea), s1) ->
  BlogIdea.title idea <> EmptyString ->
  generate (prompt (BlogIdea.title idea) (BlogIdea.description idea)
              (BlogIdea.tags idea)) = Return content ->
  content <> EmptyString ->
  records s !! BlogIdea.id idea = Some record ->
  metadataToIdea (BlogIdea.id idea) (metadata record) = Return existing ->
  exists results s',
    @cronPublish _ cron req random now s
    = (Return (Published (BlogIdea.id idea) (BlogIdea.title idea)
                 (PublishMulti.Results results)), s')
    /\ map PublishMulti.platform results = platforms_of req
    /\ records s'
       = <[BlogIdea.id idea :=
             {| values := values record;
                metadata := Some (ideaToMetadata (marked now existing)) |}]>
           (records s)
    /\ (PublishMulti.falsy DEV_TO_API_KEY = true ->
        PublishMulti.falsy HASHNODE_API_KEY = true ->
        Forall (fun r => PublishMulti.success r = false) results).
Proof.
  intros Hvalid Hpassword Hplatforms Hselect Htitle Hcontent Hne
    Hrecord Hdecode.
  set (data := publish_data (BlogIdea.title idea) content (BlogIdea.tags idea)
                 (Some false) (platforms_of req)).
  assert (@publishArticle _ cron (BlogIdea.title idea) content
            (BlogIdea.tags idea) (platforms_of req)
          = Return (PublishMulti.Results
                      (map (PublishMulti.publishTo data) (platforms_of req))))
    as Hpublished.
  { unfold publishArticle, loopback, fetch_publish_multi.
    cbn [mbind Completion_bind].
    rewrite (MorePublishMultiFacts.publishMulti_Results_intro
               (publish_request (BlogIdea.title idea) content
                  (BlogIdea.tags idea) (platforms_of req))
               {| PublishMulti.title := Some (BlogIdea.title idea);
                  PublishMulti.content := Some content;
                  PublishMulti.tags := Some (BlogIdea.tags idea);
                  PublishMulti.is_draft := Some false;
                  PublishMulti.platforms := Some (platforms_of req) |}
               (BlogIdea.title idea) content (BlogIdea.tags idea)
               (platforms_of req)); try reflexivity; try assumption.
    - unfold publish_request. cbn [PublishMulti.x_publish_password].
      rewrite Hpassword. by destruct password.
    - intros Hnil. by apply platforms_of_nil in Hnil. }
  pose proof (selectUniqueIdea_records random s) as Hrecords.
  rewrite Hselect in Hrecords. cbn [snd] in Hrecords.
  rewrite (cronPublish_step req random now s s1 idea content
             Hvalid Hselect Hcontent), Hpublished.
  rewrite <- Hrecords in Hrecord.
  destruct (markIdeaAsUsed_outcome (BlogIdea.id idea) now s1)
    as [(msg & Hthrow)|(record' & existing' & s2 & Hrecord' & Hdecode'
                         & Hmarked & Hs2)].
  - rewrite (VectorDbFacts.markIdeaAsUsed_decodable _ now s1 record
               existing Hrecord Hdecode) in Hthrow.
    discriminate.
  - rewrite Hrecord in Hrecord'. injection Hrecord' as <-.
    rewrite Hdecode in Hdecode'. injection Hdecode' as <-.
    rewrite Hmarked.
    exists (map (PublishMulti.publishTo data) (platforms_of req)), s2.
    split; [reflexivity|]. split; [|split].
    + rewrite map_map. clear. generalize (platforms_of req) as ps.
      induction ps as [|p ps IH]; [reflexivity|].
      cbn [map].
      by rewrite MorePublishMultiFacts.publishTo_platform, IH.
    + by rewrite Hs2, Hrecords.
    + intros Hdevto Hhashnode. apply List.Forall_forall. intros r Hr.
      apply in_map_iff in Hr as (p & <- & _).
      by apply MorePublishMultiFacts.publishTo_no_keys.
Qed.

End Loopback.

(** The job runs on an index that holds one unused idea, without a
    publish password: the idea is selected, its article generated, and the
    publication refused. *)
Lemma cronPublish_needs_publish_password_witness :
  @cronPublish MoreSamples.in_memory_open
    (@loopback MoreSamples.in_memory_open MoreSamples.devto_only
       (Some "cron") (fun _ => Return "Text"))
    MoreSamples.cron_request 0.5%float "2025-03-01T00:00:00.000Z"
    Samples.stored_index
  = (Return (InternalServerError
               ("Failed to publish: " ++ error_json "Invalid password")),
     snd (@selectUniqueIdea MoreSamples.in_memory_open 0.5%float
            Samples.stored_index)).
Proof.
  apply (proj2 (@cronPublish_needs_publish_password
                  MoreSamples.in_memory_open MoreSamples.devto_only
                  (Some "cron") (fun _ => Return "Text")
                  MoreSamples.cron_request 0.5%float
                  "2025-03-01T00:00:00.000Z" Samples.stored_index eq_refl)
           (Samples.idea "idea-2" "Sorting" false None)
           (snd (@selectUniqueIdea MoreSamples.in_memory_open 0.5%float
                   Samples.stored_index))
           "Text"
           eq_refl
           ltac:(vm_compute; reflexivity)
           eq_refl).
Defined.

Lemma cronPublish_empty_platforms_witness :
  exists r s',
    @cronPublish MoreSamples.in_memory
      (@loopback MoreSamples.in_memory MoreSamples.devto_only
         (Some "cron") (fun _ => Return "Text"))
      MoreSamples.empty_platforms_request
      0.5%float "2025-03-01T00:00:00.000Z" Samples.stored_index
    = (Return r, s')
    /\ records s' = records Samples.stored_index
    /\ forall id title publishResult, r <> Published id title publishResult.
Proof.
  apply (@cronPublish_empty_platforms MoreSamples.in_memory
           MoreSamples.devto_only (Some "cron") (fun _ => Return "Text")
           MoreSamples.empty_platforms_request 0.5%float
           "2025-03-01T00:00:00.000Z" Samples.stored_index eq_refl).
Defined.

(** The job runs on an index that holds one unused idea, with no API key
    configured: the idea is marked used and both results are failures. *)
Lemma cronPublish_marks_used_whatever_published_witness :
  exists results s',
    @cronPublish MoreSamples.in_memory
      (@loopback MoreSamples.in_memory MoreSamples.no_keys
         (Some "cron") (fun _ => Return "Text"))
      MoreSamples.cron_request 0.5%float "2025-03-01T00:00:00.000Z"
      Samples.stored_index
    = (Return (Published "idea-2" "Sorting" (PublishMulti.Results results)),
       s')
    /\ map PublishMulti.platform results = ["devto"; "hashnode"]
    /\ Forall (fun r => PublishMulti.success r = false) results.
Proof.
  destruct (@cronPublish_marks_used_whatever_published MoreSamples.in_memory
              MoreSamples.no_keys (Some "cron") (fun _ => Return "Text")
              MoreSamples.cron_request 0.5%float "2025-03-01T00:00:00.000Z"
              Samples.stored_index
              (snd (@selectUniqueIdea MoreSamples.in_memory 0.5%float
                      Samples.stored_index))
              (Samples.idea "idea-2" "Sorting" false None)
              (Samples.idea "idea-2" "Sorting" false None)
              "Text" "secret"
              {| values := [0.25; 0.5; 0.125]%float;
                 metadata :=
                   Some (ideaToMetadata
                           (Samples.idea "idea-2" "Sorting" false None)) |}
              eq_refl eq_refl
              ltac:(discriminate)
              ltac:(vm_compute; reflexivity)
              ltac:(discriminate)
              eq_refl
              ltac:(discriminate)
              ltac:(vm_compute; reflexivity)
              ltac:(vm_compute; reflexivity))
    as (results & s' & Hanswer & Hplatforms & _ & Hfailed).
  exists results, s'. split; [exact Hanswer|]. split; [exact Hplatforms|].
  by apply Hfailed.
Defined.

(** The same run, read through what an answer [200] implies. *)
Lemma cronPublish_writes_witness :
  exists record existing,
    records Samples.stored_index !! "idea-2" = Some record
    /\ metadataToIdea "idea-2" (metadata record) = Return existing
    /\ records
         (snd (@cronPublish MoreSamples.in_memory
                 (@loopback MoreSamples.in_memory MoreSamples.no_keys
                    (Some "cron") (fun _ => Return "Text"))
                 MoreSamples.cron_request 0.5%float
                 "2025-03-01T00:00:00.000Z" Samples.stored_index))
       = <["idea-2" :=
             {| values := values record;
                metadata :=
                  Some (ideaToMetadata
                          (marked "2025-03-01T00:00:00.000Z" existing)) |}]>
           (records Samples.stored_index).
Proof.
  apply (@cronPublish_writes MoreSamples.in_memory
           (@loopback MoreSamples.in_memory MoreSamples.no_keys
              (Some "cron") (fun _ => Return "Text"))
           MoreSamples.cron_request 0.5%float "2025-03-01T00:00:00.000Z"
           Samples.stored_index
           (Published "idea-2" "Sorting"
              (PublishMulti.Results
                 [ {| PublishMulti.platform := "devto";
                      PublishMulti.success := false;
                      PublishMulti.article := None;
                      PublishMulti.error :=
                        Some "DEV_TO_API_KEY not configured" |};
                   {| PublishMulti.platform := "hashnode";
                      PublishMulti.success := false;
                      PublishMulti.article := None;
                      PublishMulti.error :=
                        Some "HASHNODE_API_KEY not configured" |} ]))
           _ ltac:(vm_compute; reflexivity)).
Defined.

(** A wrong secret is answered [401] although the publish password is
    right; with nothing configured a request without headers is not. *)
Lemma cronPublish_401_iff_witness :
  fst (@cronPublish MoreSamples.in_memory MoreSamples.with_secret
         MoreSamples.wrong_secret_request 0.5%float
         "2025-03-01T00:00:00.000Z" Samples.stored_index)
  = Return Unauthorized
  /\ fst (@cronPublish MoreSamples.unconfigured MoreSamples.no_cron
            MoreSamples.bare_request 0.5%float "2025-03-01T00:00:00.000Z"
            Samples.stored_index)
     <> Return Unauthorized.
Proof.
  split.
  - apply (proj1 (@cronPublish_401_iff MoreSamples.in_memory
                    MoreSamples.with_secret MoreSamples.wrong_secret_request
                    0.5%float "2025-03-01T00:00:00.000Z"
                    Samples.stored_index)
             "cron" eq_refl); discriminate.
  - intros Hanswer.
    apply (proj2 (@cronPublish_401_iff MoreSamples.unconfigured
                    MoreSamples.no_cron MoreSamples.bare_request
                    0.5%float "2025-03-01T00:00:00.000Z"
                    Samples.stored_index) eq_refl) in Hanswer.
    by apply Hanswer.
Defined.

(** On an empty index the selection throws; the text generation is
    down; the publication cannot be reached; the idea that was published
    has no record to mark. *)
Lemma cronPublish_throw_becomes_500_witness :
  fst (@cronPublish MoreSamples.in_memory MoreSamples.with_secret
         MoreSamples.cron_request 0.5%float "2025-03-01T00:00:00.000Z"
         Samples.empty_index)
  = Return (InternalServerError "No unused ideas available")
  /\ fst (@cronPublish MoreSamples.in_memory MoreSamples.no_generation
            MoreSamples.cron_request 0.5%float "2025-03-01T00:00:00.000Z"
            Samples.stored_index)
     = Return (InternalServerError "generation failed")
  /\ fst (@cronPublish MoreSamples.in_memory MoreSamples.with_secret
            MoreSamples.cron_request 0.5%float "2025-03-01T00:00:00.000Z"
            Samples.stored_index)
     = Return (InternalServerError "fetch failed")
  /\ fst (@cronPublish MoreSamples.phantom MoreSamples.publishing
            MoreSamples.cron_request 0.5%float "2025-03-01T00:00:00.000Z"
            Samples.empty_index)
     = Return (InternalServerError "Idea not found").
Proof.
  split; [|split; [|split]].
  - rewrite (proj1 (proj2 (@cronPublish_throw_becomes_500
                             MoreSamples.in_memory MoreSamples.with_secret
                             MoreSamples.cron_request 0.5%float
                             "2025-03-01T00:00:00.000Z" Samples.empty_index)
                      eq_refl)
               "No unused ideas available"
               (snd (@selectUniqueIdea MoreSamples.in_memory 0.5%float
                       Samples.empty_index))
               ltac:(vm_compute; reflexivity)).
    reflexivity.
  - rewrite (proj1 (proj2 (proj2 (@cronPublish_throw_becomes_500
                                    MoreSamples.in_memory
                                    MoreSamples.no_generation
                                    MoreSamples.cron_request 0.5%float
                                    "2025-03-01T00:00:00.000Z"
                                    Samples.stored_index)
                             eq_refl)
                      (Samples.idea "idea-2" "Sorting" false None)
                      (snd (@selectUniqueIdea MoreSamples.in_memory
                              0.5%float Samples.stored_index))
                      ltac:(vm_compute; reflexivity))
               "generation failed" eq_refl).
    reflexivity.
  - rewrite (proj1 (proj2 (proj2 (proj2 (@cronPublish_throw_becomes_500
                                           MoreSamples.in_memory
                                           MoreSamples.with_secret
                                           MoreSamples.cron_request 0.5%float
                                           "2025-03-01T00:00:00.000Z"
                                           Samples.stored_index)
                                    eq_refl)
                             (Samples.idea "idea-2" "Sorting" false None)
                             (snd (@selectUniqueIdea MoreSamples.in_memory
                                     0.5%float Samples.stored_index))
                             ltac:(vm_compute; reflexivity)))
               "Text" "fetch failed" eq_refl eq_refl).
    reflexivity.
  - rewrite (proj2 (proj2 (proj2 (proj2 (@cronPublish_throw_becomes_500
                                           MoreSamples.phantom
                                           MoreSamples.publishing
                                           MoreSamples.cron_request 0.5%float
                                           "2025-03-01T00:00:00.000Z"
                                           Samples.empty_index)
                                    eq_refl)
                             (Samples.idea "ghost" "Zippers" false None)
                             (snd (@selectUniqueIdea MoreSamples.phantom
                                     0.5%float Samples.empty_index))
                             ltac:(vm_compute; reflexivity)))
               "Text" (PublishMulti.Results []) "Idea not found"
               (snd (markIdeaAsUsed "ghost" "2025-03-01T00:00:00.000Z"
                       (snd (@selectUniqueIdea MoreSamples.phantom
                               0.5%float Samples.empty_index))))
               eq_refl eq_refl ltac:(vm_compute; reflexivity)).
    reflexivity.
Defined.

End MoreCronHandlerFacts.
